(** * cmd/evm/runner.go: the [run] command of the EVM harness

    A shallow embedding of [timedExec] and [runCmd], together with the
    library functions they call, and the properties of code and input
    resolution, dispatch, measurement and reporting. *)

From Stdlib Require Import ZArith NArith List Bool Lia.
From Stdlib Require Import Strings.Byte Strings.Ascii Strings.String DecimalString.
From stdpp Require Import gmap strings.

Import ListNotations.
Local Open Scope Z_scope.

(** ** Go values

    A Go [string] is a Rocq [string]; a [[]byte] is a [list byte];
    [uint64] and [int64] are [Z] with the wrap-around written out. *)

Definition byteZ (b : byte) : Z := Z.of_N (Byte.to_N b).

Definition ofZ (z : Z) : byte :=
  match Byte.of_N (Z.to_N z) with Some b => b | None => x00 end.

(** [[]byte(s)] and [string(b)]. *)
Definition bytes_of (s : string) : list byte := list_byte_of_string s.
Definition string_of (b : list byte) : string := string_of_list_byte b.

Definition len (b : list byte) : Z := Z.of_nat (List.length b).

Definition uint64 (z : Z) : Z := z mod 2 ^ 64.
Definition int64 (z : Z) : Z := (z + 2 ^ 63) mod 2 ^ 64 - 2 ^ 63.

(** The line feed that ends a printed line. *)
Definition nl : string := String (ascii_of_nat 10) EmptyString.

(** [s != ""] *)
Definition nonempty (s : string) : bool :=
  match s with EmptyString => false | String _ _ => true end.

Module utf8.

Definition RuneError : Z := 65533.
Definition RuneSelf : Z := 128.
Definition UTFMax : Z := 4.

(** The table [first] with [acceptRanges]: for a leading byte of a
    multi-byte sequence, its size and the range of the second byte. *)
Definition first (p0 : Z) : option (nat * Z * Z) :=
  if p0 <? 194 then None
  else if p0 <=? 223 then Some (2%nat, 128, 191)
  else if p0 =? 224 then Some (3%nat, 160, 191)
  else if p0 <=? 236 then Some (3%nat, 128, 191)
  else if p0 =? 237 then Some (3%nat, 128, 159)
  else if p0 <=? 239 then Some (3%nat, 128, 191)
  else if p0 =? 240 then Some (4%nat, 144, 191)
  else if p0 <=? 243 then Some (4%nat, 128, 191)
  else if p0 =? 244 then Some (4%nat, 128, 143)
  else None.

Definition cont (b : Z) : bool := (128 <=? b) && (b <=? 191).

Definition DecodeRune (p : list byte) : Z * nat :=
  match p with
  | [] => (RuneError, 0%nat)
  | c0 :: rest =>
    let p0 := byteZ c0 in
    if p0 <? RuneSelf then (p0, 1%nat)
    else match first p0 with
    | None => (RuneError, 1%nat)
    | Some (sz, lo, hi) =>
      if (List.length p <? sz)%nat then (RuneError, 1%nat)
      else match rest with
      | [] => (RuneError, 1%nat)
      | c1 :: rest1 =>
        let b1 := byteZ c1 in
        if (b1 <? lo) || (hi <? b1) then (RuneError, 1%nat)
        else if (sz <=? 2)%nat then
          (Z.lor (Z.shiftl (Z.land p0 31) 6) (Z.land b1 63), 2%nat)
        else match rest1 with
        | [] => (RuneError, 1%nat)
        | c2 :: rest2 =>
          let b2 := byteZ c2 in
          if negb (cont b2) then (RuneError, 1%nat)
          else if (sz <=? 3)%nat then
            (Z.lor (Z.lor (Z.shiftl (Z.land p0 15) 12)
                          (Z.shiftl (Z.land b1 63) 6))
                   (Z.land b2 63), 3%nat)
          else match rest2 with
          | [] => (RuneError, 1%nat)
          | c3 :: _ =>
            let b3 := byteZ c3 in
            if negb (cont b3) then (RuneError, 1%nat)
            else
              (Z.lor (Z.lor (Z.lor (Z.shiftl (Z.land p0 7) 18)
                                   (Z.shiftl (Z.land b1 63) 12))
                            (Z.shiftl (Z.land b2 63) 6))
                     (Z.land b3 63), 4%nat)
          end
        end
      end
    end
  end.

Definition RuneStart (b : Z) : bool := negb (Z.land b 192 =? 128).

(** The backward scan of [DecodeLastRune]: from [start] down to [lim],
    stopping at the first byte that can start a rune. *)
Fixpoint scanBack (fuel : nat) (p : list byte) (lim start : Z) : Z :=
  match fuel with
  | O => start
  | S k =>
    if start <? lim then start
    else if RuneStart (byteZ (nth (Z.to_nat start) p x00)) then start
    else scanBack k p lim (start - 1)
  end.

Definition DecodeLastRune (p : list byte) : Z * nat :=
  let e := Z.of_nat (List.length p) in
  if e =? 0 then (RuneError, 0%nat)
  else
    let r := byteZ (nth (Z.to_nat (e - 1)) p x00) in
    if r <? RuneSelf then (r, 1%nat)
    else
      let lim := Z.max 0 (e - UTFMax) in
      let start := Z.max 0 (scanBack 4 p lim (e - 2)) in
      let '(r, size) := DecodeRune (skipn (Z.to_nat start) p) in
      if start + Z.of_nat size =? e then (r, size) else (RuneError, 1%nat).

End utf8.

Module unicode.

(** [unicode.IsSpace]: the Latin-1 cases, then the [White_Space] table. *)
Definition IsSpace (r : Z) : bool :=
  if r <=? 255 then
    (r =? 9) || (r =? 10) || (r =? 11) || (r =? 12) || (r =? 13)
    || (r =? 32) || (r =? 133) || (r =? 160)
  else
    (r =? 5760) || ((8192 <=? r) && (r <=? 8202)) || (r =? 8232)
    || (r =? 8233) || (r =? 8239) || (r =? 8287) || (r =? 12288).

End unicode.

Module bytes.

(** [indexFunc s f false] followed by the slicing of [TrimLeftFunc]:
    the suffix from the first rune that is not a space. *)
Fixpoint TrimLeftSpace (fuel : nat) (s : list byte) : list byte :=
  match fuel with
  | O => []
  | S k =>
    match s with
    | [] => []
    | c :: _ =>
      let '(r, wid) :=
        if byteZ c <? utf8.RuneSelf then (byteZ c, 1%nat)
        else utf8.DecodeRune s in
      if unicode.IsSpace r then TrimLeftSpace k (skipn wid s) else s
    end
  end.

(** [lastIndexFunc s f false]: the index where the last rune that is not
    a space starts, [None] for -1. *)
Fixpoint lastIndexNotSpace (fuel : nat) (s : list byte) (i : nat) : option nat :=
  match fuel with
  | O => None
  | S k =>
    if (i =? 0)%nat then None
    else
      let c := byteZ (nth (i - 1) s x00) in
      let '(r, size) :=
        if c <? utf8.RuneSelf then (c, 1%nat)
        else utf8.DecodeLastRune (firstn i s) in
      let i' := (i - size)%nat in
      if unicode.IsSpace r then lastIndexNotSpace k s i' else Some i'
  end.

Definition TrimRightSpace (s : list byte) : list byte :=
  match lastIndexNotSpace (List.length s) s (List.length s) with
  | Some i =>
    if utf8.RuneSelf <=? byteZ (nth i s x00) then
      let '(_, wid) := utf8.DecodeRune (skipn i s) in
      firstn (i + wid) s
    else firstn (i + 1) s
  | None => []
  end.

(** [bytes.TrimSpace]: all leading and trailing white space, as defined
    by Unicode, removed. Its ASCII fast path computes the same slice as
    the general [TrimFunc s unicode.IsSpace] written here. *)
Definition TrimSpace (s : list byte) : list byte :=
  TrimRightSpace (TrimLeftSpace (List.length s) s).

End bytes.

Module hex.

Definition fromHexChar (c : byte) : option Z :=
  let n := byteZ c in
  if (48 <=? n) && (n <=? 57) then Some (n - 48)
  else if (97 <=? n) && (n <=? 102) then Some (n - 97 + 10)
  else if (65 <=? n) && (n <=? 70) then Some (n - 65 + 10)
  else None.

(** [hex.DecodeString], error dropped: the bytes decoded before the
    first invalid character or the dangling last character. *)
Fixpoint Decode (src : list byte) : list byte :=
  match src with
  | p :: q :: rest =>
    match fromHexChar p, fromHexChar q with
    | Some a, Some b => ofZ (Z.lor (Z.shiftl a 4) b) :: Decode rest
    | _, _ => []
    end
  | _ => []
  end.

Definition digit (n : Z) : byte :=
  if n <? 10 then ofZ (48 + n) else ofZ (97 + n - 10).

(** Two lowercase hexadecimal digits per byte. *)
Fixpoint Encode (b : list byte) : list byte :=
  match b with
  | [] => []
  | c :: rest =>
    digit (Z.shiftr (byteZ c) 4) :: digit (Z.land (byteZ c) 15) :: Encode rest
  end.

End hex.

Module fmt.

(** The verb [%d] on an integer. *)
Definition Sprintd (n : Z) : string := NilZero.string_of_int (Z.to_int n).

(** The verb [%#x] on a byte slice ([fmtSbx] with the sharp flag): one
    leading [0x] and two lowercase digits per byte; for an empty slice
    the encoding has width zero and nothing is written, the prefix
    included. *)
Definition Sprintx (b : list byte) : string :=
  match b with
  | [] => ""
  | _ :: _ => "0x" ++ string_of (hex.Encode b)
  end.

End fmt.

(** An [error] is represented by its message, what [%v] prints. *)
Definition error := string.

#[global] Instance byte_eq_dec : EqDecision byte := Byte.byte_eq_dec.

Lemma byte_of_to_N (b : byte) : default x00 (Byte.of_N (Byte.to_N b)) = b.
Proof. now rewrite Byte.of_to_N. Qed.

#[global] Instance byte_countable : Countable byte :=
  inj_countable' Byte.to_N (fun n => default x00 (Byte.of_N n)) byte_of_to_N.

Module common.

Definition AddressLength : nat := 20.

(** An [Address] is an array of [AddressLength] bytes. *)
Abbreviation Address := (list byte) (only parsing).

(** Modelled from the spec: [has0xPrefix] belongs to the package
    [common], which is not among the sources; whether a string begins
    with [0x] or [0X]. *)
Definition has0xPrefix (str : list byte) : bool :=
  match str with
  | c0 :: c1 :: _ =>
    (byteZ c0 =? 48) && ((byteZ c1 =? 120) || (byteZ c1 =? 88))
  | _ => false
  end.

(** Modelled from the spec: [common.Hex2Bytes] belongs to the package
    [common], which is not among the sources. It is the "hex-decode" of
    code resolution: the bytes that the hexadecimal string represents,
    through [hex.DecodeString] with the error dropped. *)
Definition Hex2Bytes (str : string) : list byte := hex.Decode (bytes_of str).

(** Modelled from the spec: [common.FromHex] belongs to the package
    [common], which is not among the sources. It is the "hex-decode" of
    code and input resolution; the specification's example runs code
    [0x600052], so one leading [0x] (or [0X]) is accepted and dropped,
    and a string with an odd number of digits is read with a leading
    zero. *)
Definition FromHex (s : string) : list byte :=
  let s := bytes_of s in
  let s := if has0xPrefix s then skipn 2 s else s in
  let s := if Z.odd (len s) then x30 :: s else s in
  hex.Decode s.

(** Modelled from the spec: [common.BytesToAddress] belongs to the
    package [common], which is not among the sources. The address
    encoding keeps the last [AddressLength] bytes and fills the array
    from the right, leaving zeros in front, which is how "sender"
    becomes [0x0000...73656e646572]. *)
Definition BytesToAddress (b : list byte) : Address :=
  let b := skipn (List.length b - AddressLength) b in
  repeat x00 (AddressLength - List.length b) ++ b.

(** Modelled from the spec: [common.HexToAddress], the address of the
    bytes that a hexadecimal string represents. *)
Definition HexToAddress (s : string) : Address := BytesToAddress (FromHex s).

End common.

Module state.

Record Account := { Nonce : Z; Balance : Z; Code : list byte }.

(** Modelled from the spec: the account-state store belongs to the
    package [core/state], which is not among the sources. It is a finite
    map from addresses to accounts with the operations the harness
    calls: create account and set code. *)
Abbreviation StateDB := (gmap (list byte) Account) (only parsing).

Definition newObject : Account := {| Nonce := 0; Balance := 0; Code := [] |}.

(** A freshly created account replaces the one at the address and
    carries its balance over. *)
Definition CreateAccount (addr : list byte) (s : StateDB) : StateDB :=
  match s !! addr with
  | Some prev => <[addr := {| Nonce := 0; Balance := Balance prev; Code := [] |}]> s
  | None => <[addr := newObject]> s
  end.

Definition getOrNewStateObject (addr : list byte) (s : StateDB) : Account :=
  match s !! addr with Some a => a | None => newObject end.

Definition SetCode (addr : list byte) (code : list byte) (s : StateDB) : StateDB :=
  let a := getOrNewStateObject addr s in
  <[addr := {| Nonce := Nonce a; Balance := Balance a; Code := code |}]> s.

Definition GetCode (addr : list byte) (s : StateDB) : list byte :=
  match s !! addr with Some a => Code a | None => [] end.

End state.

Module params.

Record ChainConfig := { ChainID : Z }.

(** The default chain configuration, substituted when the genesis
    description gives none. *)
Definition AllEthashProtocolChanges : ChainConfig := {| ChainID := 1337 |}.

End params.

Module core.

(** The fields of [core.Genesis] that the harness reads. *)
Record Genesis := {
  Config : option params.ChainConfig;
  Timestamp : Z;
  GasLimit : Z;
  Difficulty : option Z;
  Coinbase : list byte;
  Number : Z;
  Alloc : gmap (list byte) state.Account
}.

(** [new(core.Genesis)]: every field at its zero value. *)
Definition zero : Genesis :=
  {| Config := None; Timestamp := 0; GasLimit := 0; Difficulty := None;
     Coinbase := repeat x00 common.AddressLength; Number := 0; Alloc := ∅ |}.

End core.

Module logger.

Record Config := {
  EnableMemory : bool;
  DisableStack : bool;
  DisableStorage : bool;
  EnableReturnData : bool;
  Debug : bool
}.

Record StructLogger := { cfg : Config }.

Definition NewStructLogger (c : Config) : StructLogger := {| cfg := c |}.

End logger.

Module vm.

(** The implementations of the interface [vm.EVMLogger] that the harness
    constructs; the interface value [nil] is [None : option EVMLogger]. *)
Inductive EVMLogger :=
| JSONLogger (cfg : logger.Config)
| StructLogger (l : logger.StructLogger).

Record Config := { Tracer : option EVMLogger; Debug : bool }.

End vm.

Module runtime.

(** [runtime.Config] without its field [State]: the state store is the
    one of the process, see [Machine] below. *)
Record Config := {
  ChainConfig : option params.ChainConfig;
  Difficulty : option Z;
  Origin : list byte;
  Coinbase : list byte;
  BlockNumber : Z;
  Time : Z;
  GasLimit : Z;
  GasPrice : Z;
  Value : Z;
  EVMConfig : vm.Config
}.

End runtime.

Module cli.

(** The flags and positional arguments of one invocation, as
    [ctx.Bool], [ctx.String], [ctx.Uint64] and [ctx.Args] return them. *)
Record Context := {
  VerbosityFlag : Z;
  DisableMemoryFlag : bool;
  DisableStackFlag : bool;
  DisableStorageFlag : bool;
  DisableReturnDataFlag : bool;
  DebugFlag : bool;
  MachineFlag : bool;
  CreateFlag : bool;
  BenchFlag : bool;
  DumpFlag : bool;
  StatDumpFlag : bool;
  GenesisFlag : string;
  SenderFlag : string;
  ReceiverFlag : string;
  CodeFileFlag : string;
  CodeFlag : string;
  InputFileFlag : string;
  InputFlag : string;
  CPUProfileFlag : string;
  MemProfileFlag : string;
  GasFlag : Z;
  PriceFlag : Z;
  ValueFlag : Z;
  Args : list string
}.

(** [ctx.Args().First()] *)
Definition First (ctx : Context) : string :=
  match Args ctx with [] => "" | a :: _ => a end.

End cli.

(** ** The process

    What one run of the command can observe and change: the state store
    behind [statedb], the allocation counters that [runtime.ReadMemStats]
    reads, and the clock that [time.Now] reads. *)

Record Machine := {
  statedb : gmap (list byte) state.Account;
  Mallocs : Z;
  TotalAlloc : Z;
  now : Z
}.

Record execStats := {
  time : Z;
  allocs : Z;
  bytesAllocated : Z
}.

(** The two entry points of the engine with the arguments they are given. *)
Inductive Entry :=
| Create (input : list byte) (cfg : runtime.Config)
| Call (address : list byte) (input : list byte) (cfg : runtime.Config).

(** What the harness itself does to the outside, in order: its writes to
    the two streams, its profiling calls, and every invocation of the
    engine with the machine as it was immediately before. *)
Inductive Event :=
| Stdout (s : string)
| Stderr (s : string)
| WriteTrace (l : logger.StructLogger)
| WriteLogs
| WriteStats (gasUsed : Z) (stats : execStats)
| StartCPUProfile (path : string)
| StopCPUProfile
| WriteHeapProfile (path : string)
| Invoke (e : Entry) (before : Machine).

Record Proc := {
  trace : list Event;
  machine : Machine
}.

(** How a run ends early: [os.Exit], or [runCmd] returning an error. *)
Inductive Halt :=
| OsExit (code : Z)
| Return (err : error).

Inductive Res (A : Type) :=
| Val (a : A) (p : Proc)
| Halted (h : Halt) (p : Proc).
Arguments Val {A} a p.
Arguments Halted {A} h p.

Definition M (A : Type) : Type := Proc -> Res A.

#[global] Instance M_ret : MRet M := fun A a p => Val a p.

#[global] Instance M_bind : MBind M := fun A B k m p =>
  match m p with
  | Val a p' => k a p'
  | Halted h p' => Halted h p'
  end.

Definition emit (e : Event) : M unit := fun p =>
  Val tt {| trace := trace p ++ [e]; machine := machine p |}.

Definition Printf (s : string) : M unit := emit (Stdout s).

Definition os_Exit {A} (code : Z) : M A := fun p => Halted (OsExit code) p.

Definition return_err {A} (err : error) : M A := fun p => Halted (Return err) p.

(** Modelled from the spec: [utils.Fatalf] belongs to the package
    [cmd/utils], which is not among the sources. A fatal error is
    reported to the diagnostic stream and the process terminates with a
    nonzero status. *)
Definition Fatalf {A} (msg : string) : M A :=
  emit (Stderr ("Fatal: " ++ msg ++ nl));; os_Exit 1.

Definition get_machine : M Machine := fun p => Val (machine p) p.

Definition set_statedb (s : gmap (list byte) state.Account) : M unit := fun p =>
  Val tt {| trace := trace p;
            machine := {| statedb := s; Mallocs := Mallocs (machine p);
                          TotalAlloc := TotalAlloc (machine p);
                          now := now (machine p) |} |}.

Definition modify_statedb
    (f : gmap (list byte) state.Account -> gmap (list byte) state.Account) : M unit :=
  fun p => set_statedb (f (statedb (machine p))) p.

(** The external collaborators of the harness: the file system and the
    standard input, the genesis decoder, the assembler, the profiler, the
    engine behind the two entry points, the values of [b.N] that the
    benchmarking facility chooses after its first run with [b.N = 1], and
    what the state dump asks of the state store: to commit, to compute
    the root, both with their flag [deleteEmptyObjects], and to render
    the dump. *)
Record Host := {
  os_Open : string -> error + list byte;
  json_Decode : list byte -> error + core.Genesis;
  os_Stdin : error + list byte;
  os_ReadFile : string -> error + list byte;
  os_Create : string -> option error;
  compiler_Compile : string -> list byte -> bool -> error + string;
  pprof_StartCPUProfile : string -> option error;
  pprof_WriteHeapProfile : string -> option error;
  runtime_Create :
    list byte -> runtime.Config -> Machine ->
    (list byte * list byte * Z * option error) * Machine;
  runtime_Call :
    list byte -> list byte -> runtime.Config -> Machine ->
    (list byte * Z * option error) * Machine;
  testing_rounds : list nat;
  statedb_Commit :
    bool -> gmap (list byte) state.Account -> gmap (list byte) state.Account;
  statedb_IntermediateRoot :
    bool -> gmap (list byte) state.Account -> gmap (list byte) state.Account;
  statedb_Dump : gmap (list byte) state.Account -> string
}.

(** A unit of work: what [execFunc] returns, and the process after it. *)
Definition ExecResult : Type := list byte * Z * option error.
Definition Exec : Type := Proc -> ExecResult * Proc.

Module testing.

Record BenchmarkResult := { N : Z; T : Z; MemAllocs : Z; MemBytes : Z }.

Definition NsPerOp (r : BenchmarkResult) : Z :=
  if N r <=? 0 then 0 else Z.quot (T r) (N r).

Definition AllocsPerOp (r : BenchmarkResult) : Z :=
  if N r <=? 0 then 0 else Z.quot (int64 (MemAllocs r)) (N r).

Definition AllocedBytesPerOp (r : BenchmarkResult) : Z :=
  if N r <=? 0 then 0 else Z.quot (int64 (MemBytes r)) (N r).

(** [runN]: the benchmark function run with [b.N = n], measured. *)
Definition runN {S : Type} (f : nat -> S * Proc -> S * Proc) (n : nat)
    (s : S * Proc) : BenchmarkResult * (S * Proc) :=
  let before := machine (snd s) in
  let s' := f n s in
  let after := machine (snd s') in
  ({| N := Z.of_nat n;
      T := now after - now before;
      MemAllocs := uint64 (Mallocs after - Mallocs before);
      MemBytes := uint64 (TotalAlloc after - TotalAlloc before) |}, s').

Fixpoint launch {S : Type} (f : nat -> S * Proc -> S * Proc)
    (rounds : list nat) (acc : BenchmarkResult * (S * Proc))
    : BenchmarkResult * (S * Proc) :=
  match rounds with
  | [] => acc
  | n :: rest => launch f rest (runN f n (snd acc))
  end.

(** [testing.Benchmark]: one run with [b.N = 1], then one run for each
    further value of [b.N]; the result is that of the last run. The
    state [S] is that of the variables the function closes over. *)
Definition Benchmark {S : Type} (rounds : list nat)
    (f : nat -> S * Proc -> S * Proc) (s : S * Proc)
    : BenchmarkResult * (S * Proc) :=
  launch f rounds (runN f 1 s).

End testing.

(** ** The harness *)

Section Harness.

Context (host : Host).

(** [readGenesis] reads the given JSON format genesis file and returns
    the initialized Genesis structure. *)
Definition readGenesis (genesisPath : string) : M core.Genesis :=
  (if (String.length genesisPath =? 0)%nat
   then Fatalf "Must supply path to genesis JSON file"
   else mret tt);;
  match os_Open host genesisPath with
  | inl err => Fatalf ("Failed to read genesis file: " ++ err)
  | inr file =>
    match json_Decode host file with
    | inl err => Fatalf ("invalid genesis file: " ++ err)
    | inr genesis => mret genesis
    end
  end.

(** The loop [for i := 0; i < b.N; i++] of the benchmark function; its
    state is the named results [output], [gasLeft] and [err]. *)
Fixpoint benchLoop (execFunc : Exec) (N : nat) (s : ExecResult * Proc)
    : ExecResult * Proc :=
  match N with
  | O => s
  | S n => benchLoop execFunc n (execFunc (snd s))
  end.

Definition timedExec (bench : bool) (execFunc : Exec)
    : M (list byte * Z * execStats * option error) := fun p =>
  if bench then
    let '(result, ((output, gasLeft, err), p')) :=
      testing.Benchmark (testing_rounds host) (benchLoop execFunc)
        (([], 0, None), p) in
    let stats := {| time := testing.NsPerOp result;
                    allocs := testing.AllocsPerOp result;
                    bytesAllocated := testing.AllocedBytesPerOp result |} in
    Val (output, gasLeft, stats, err) p'
  else
    let memStatsBefore := machine p in
    let startTime := now (machine p) in
    let '((output, gasLeft, err), p') := execFunc p in
    let time := now (machine p') - startTime in
    let memStatsAfter := machine p' in
    let stats := {| time := time;
                    allocs := int64 (uint64 (Mallocs memStatsAfter - Mallocs memStatsBefore));
                    bytesAllocated :=
                      int64 (uint64 (TotalAlloc memStatsAfter - TotalAlloc memStatsBefore)) |} in
    Val (output, gasLeft, stats, err) p'.

(** *** The segments of [runCmd], in the order of the source *)

Definition logconfig (ctx : cli.Context) : logger.Config :=
  {| logger.EnableMemory := negb (cli.DisableMemoryFlag ctx);
     logger.DisableStack := cli.DisableStackFlag ctx;
     logger.DisableStorage := cli.DisableStorageFlag ctx;
     logger.EnableReturnData := negb (cli.DisableReturnDataFlag ctx);
     logger.Debug := cli.DebugFlag ctx |}.

(** The variables [tracer] and [debugLogger] after the selection. *)
Definition selectTracer (ctx : cli.Context)
    : option vm.EVMLogger * option logger.StructLogger :=
  if cli.MachineFlag ctx then
    (Some (vm.JSONLogger (logconfig ctx)), None)
  else if cli.DebugFlag ctx then
    let debugLogger := logger.NewStructLogger (logconfig ctx) in
    (Some (vm.StructLogger debugLogger), Some debugLogger)
  else
    (None, Some (logger.NewStructLogger (logconfig ctx))).

(** The state store and the variables [genesisConfig] and [chainConfig].
    The genesis that was read is committed to a fresh database and the
    state is opened at its root, so that it holds the accounts of the
    genesis; without a genesis the state is opened empty. *)
Definition openState (ctx : cli.Context)
    : M (core.Genesis * option params.ChainConfig) :=
  if nonempty (cli.GenesisFlag ctx) then
    gen ← readGenesis (cli.GenesisFlag ctx);
    set_statedb (core.Alloc gen);;
    mret (gen, core.Config gen)
  else
    set_statedb ∅;;
    mret (core.zero, None).

Definition sender (ctx : cli.Context) : list byte :=
  if nonempty (cli.SenderFlag ctx)
  then common.HexToAddress (cli.SenderFlag ctx)
  else common.BytesToAddress (bytes_of "sender").

Definition receiver (ctx : cli.Context) : list byte :=
  if nonempty (cli.ReceiverFlag ctx)
  then common.HexToAddress (cli.ReceiverFlag ctx)
  else common.BytesToAddress (bytes_of "receiver").

(** The variable [hexcode] when [--code] or [--codefile] is given. *)
Definition readHexcode (ctx : cli.Context) : M (list byte) :=
  let codeFileFlag := cli.CodeFileFlag ctx in
  let codeFlag := cli.CodeFlag ctx in
  if nonempty codeFileFlag then
    if String.eqb codeFileFlag "-" then
      match os_Stdin host with
      | inl err =>
        Printf ("Could not load code from stdin: " ++ err ++ nl);; os_Exit 1
      | inr hexcode => mret hexcode
      end
    else
      match os_ReadFile host codeFileFlag with
      | inl err =>
        Printf ("Could not load code from file: " ++ err ++ nl);; os_Exit 1
      | inr hexcode => mret hexcode
      end
  else mret (bytes_of codeFlag).

(** The variable [code]. *)
Definition loadCode (ctx : cli.Context) : M (list byte) :=
  let codeFileFlag := cli.CodeFileFlag ctx in
  let codeFlag := cli.CodeFlag ctx in
  if nonempty codeFileFlag || nonempty codeFlag then
    hexcode ← readHexcode ctx;
    let hexcode := bytes.TrimSpace hexcode in
    if negb (Z.rem (len hexcode) 2 =? 0) then
      Printf ("Invalid input length for hex data (" ++ fmt.Sprintd (len hexcode)
              ++ ")" ++ nl);;
      os_Exit 1
    else mret (common.FromHex (string_of hexcode))
  else
    let fn := cli.First ctx in
    if (0 <? String.length fn)%nat then
      match os_ReadFile host fn with
      | inl err => return_err err
      | inr src =>
        match compiler_Compile host fn src false with
        | inl err => return_err err
        | inr bin => mret (common.Hex2Bytes bin)
        end
      end
    else mret [].

Definition initialGas (ctx : cli.Context) (genesisConfig : core.Genesis) : Z :=
  if negb (core.GasLimit genesisConfig =? 0)
  then core.GasLimit genesisConfig
  else cli.GasFlag ctx.

(** The variable [runtimeConfig] as the unit of work sees it: the
    composite literal, then the assignment of [ChainConfig]. *)
Definition runtimeConfig (ctx : cli.Context) (genesisConfig : core.Genesis)
    (chainConfig : option params.ChainConfig) : runtime.Config :=
  {| runtime.Origin := sender ctx;
     runtime.GasLimit := initialGas ctx genesisConfig;
     runtime.GasPrice := cli.PriceFlag ctx;
     runtime.Value := cli.ValueFlag ctx;
     runtime.Difficulty := core.Difficulty genesisConfig;
     runtime.Time := core.Timestamp genesisConfig;
     runtime.Coinbase := core.Coinbase genesisConfig;
     runtime.BlockNumber := core.Number genesisConfig;
     runtime.EVMConfig :=
       {| vm.Tracer := fst (selectTracer ctx);
          vm.Debug := cli.DebugFlag ctx || cli.MachineFlag ctx |};
     runtime.ChainConfig :=
       match chainConfig with
       | Some c => Some c
       | None => Some params.AllEthashProtocolChanges
       end |}.

(** Whether [pprof.StopCPUProfile] has been deferred. *)
Definition startCPUProfile (ctx : cli.Context) : M bool :=
  let cpuProfilePath := cli.CPUProfileFlag ctx in
  if nonempty cpuProfilePath then
    match os_Create host cpuProfilePath with
    | Some err =>
      Printf ("could not create CPU profile: " ++ " " ++ err ++ nl);; os_Exit 1
    | None =>
      match pprof_StartCPUProfile host cpuProfilePath with
      | Some err =>
        Printf ("could not start CPU profile: " ++ " " ++ err ++ nl);; os_Exit 1
      | None => emit (StartCPUProfile cpuProfilePath);; mret true
      end
    end
  else mret false.

(** The variable [hexInput] before it is trimmed. *)
Definition readHexInput (ctx : cli.Context) : M (list byte) :=
  let inputFileFlag := cli.InputFileFlag ctx in
  if nonempty inputFileFlag then
    match os_ReadFile host inputFileFlag with
    | inl err =>
      Printf ("could not load input from file: " ++ err ++ nl);; os_Exit 1
    | inr hexInput => mret hexInput
    end
  else mret (bytes_of (cli.InputFlag ctx)).

(** The variable [input] before the dispatch. *)
Definition loadInput (ctx : cli.Context) : M (list byte) :=
  hexInput ← readHexInput ctx;
  let hexInput := bytes.TrimSpace hexInput in
  if negb (Z.rem (len hexInput) 2 =? 0) then
    Printf ("input length must be even" ++ nl);; os_Exit 1
  else mret (common.FromHex (string_of hexInput)).

(** One call of an entry point of the engine. *)
Definition invoke (e : Entry) : Exec := fun p =>
  let m := machine p in
  match e with
  | Create input cfg =>
    let '((output, _, gasLeft, err), m') := runtime_Create host input cfg m in
    ((output, gasLeft, err),
     {| trace := trace p ++ [Invoke e m]; machine := m' |})
  | Call address input cfg =>
    let '(r, m') := runtime_Call host address input cfg m in
    (r, {| trace := trace p ++ [Invoke e m]; machine := m' |})
  end.

(** The variable [execFunc]. *)
Definition dispatch (ctx : cli.Context) (code input : list byte)
    (cfg : runtime.Config) : M Exec :=
  if cli.CreateFlag ctx then
    let input := code ++ input in
    mret (invoke (Create input cfg))
  else
    (if 0 <? len code
     then modify_statedb (state.SetCode (receiver ctx) code)
     else mret tt);;
    mret (invoke (Call (receiver ctx) input cfg)).

(** The dump: the store is committed and its root computed, the results
    of both calls dropped, and the dump of the store so left is printed. *)
Definition dumpState (ctx : cli.Context) : M unit :=
  if cli.DumpFlag ctx then
    modify_statedb (statedb_Commit host true);;
    modify_statedb (statedb_IntermediateRoot host true);;
    m ← get_machine;
    Printf (statedb_Dump host (statedb m) ++ nl)
  else mret tt.

Definition writeMemProfile (ctx : cli.Context) : M unit :=
  let memProfilePath := cli.MemProfileFlag ctx in
  if nonempty memProfilePath then
    match os_Create host memProfilePath with
    | Some err =>
      Printf ("could not create memory profile: " ++ " " ++ err ++ nl);; os_Exit 1
    | None =>
      match pprof_WriteHeapProfile host memProfilePath with
      | Some err =>
        Printf ("could not write memory profile: " ++ " " ++ err ++ nl);; os_Exit 1
      | None => emit (WriteHeapProfile memProfilePath)
      end
    end
  else mret tt.

Definition writeDebug (ctx : cli.Context)
    (debugLogger : option logger.StructLogger) : M unit :=
  if cli.DebugFlag ctx then
    match debugLogger with
    | Some l => emit (Stderr ("#### TRACE ####" ++ nl));; emit (WriteTrace l)
    | None => mret tt
    end;;
    emit (Stderr ("#### LOGS ####" ++ nl));;
    emit WriteLogs
  else mret tt.

Definition writeStats (ctx : cli.Context) (initialGas leftOverGas : Z)
    (stats : execStats) : M unit :=
  if cli.BenchFlag ctx || cli.StatDumpFlag ctx
  then emit (WriteStats (uint64 (initialGas - leftOverGas)) stats)
  else mret tt.

(** The last statement before [return nil]. *)
Definition printResult (tracer : option vm.EVMLogger) (output : list byte)
    (err : option error) : M unit :=
  match tracer with
  | None =>
    Printf (fmt.Sprintx output ++ nl);;
    match err with
    | Some e => Printf (" error: " ++ e ++ nl)
    | None => mret tt
    end
  | Some _ => mret tt
  end.

(** The variables that the first half of [runCmd] leaves for the
    second: everything that is read from the flags, the files and the
    standard input. *)
Record Resolved := {
  genesisConfig : core.Genesis;
  chainConfig : option params.ChainConfig;
  code : list byte;
  profiling : bool;
  input : list byte
}.

(** [runCmd] from the genesis flag down to the decoded input. *)
Definition configure (ctx : cli.Context) : M Resolved :=
  '(genesisConfig, chainConfig) ← openState ctx;
  modify_statedb (state.CreateAccount (sender ctx));;
  code ← loadCode ctx;
  profiling ← startCPUProfile ctx;
  input ← loadInput ctx;
  mret {| genesisConfig := genesisConfig; chainConfig := chainConfig;
          code := code; profiling := profiling; input := input |}.

(** [runCmd] from the dispatch down to [return nil], where the deferred
    [pprof.StopCPUProfile] runs. *)
Definition execute (ctx : cli.Context) (r : Resolved) : M unit :=
  let '(tracer, debugLogger) := selectTracer ctx in
  let initialGas := initialGas ctx (genesisConfig r) in
  let runtimeConfig := runtimeConfig ctx (genesisConfig r) (chainConfig r) in
  execFunc ← dispatch ctx (code r) (input r) runtimeConfig;
  let bench := cli.BenchFlag ctx in
  '(output, leftOverGas, stats, err) ← timedExec bench execFunc;
  dumpState ctx;;
  writeMemProfile ctx;;
  writeDebug ctx debugLogger;;
  writeStats ctx initialGas leftOverGas stats;;
  printResult tracer output err;;
  (if profiling r then emit StopCPUProfile else mret tt).

Definition runCmd (ctx : cli.Context) : M unit :=
  r ← configure ctx;
  execute ctx r.

End Harness.

(** The process when a run ends, however it ends. *)
Definition final {A} (r : Res A) : Proc :=
  match r with Val _ p => p | Halted _ p => p end.

(** The invocations of the engine in a trace, oldest first. *)
Definition invocations (tr : list Event) : list (Entry * Machine) :=
  omap (fun e => match e with Invoke c m => Some (c, m) | _ => None end) tr.

(** What the harness wrote to the standard output. *)
Definition stdout (tr : list Event) : list string :=
  omap (fun e => match e with Stdout s => Some s | _ => None end) tr.

(** The process after [k] invocations of a unit of work. *)
Fixpoint after (execFunc : Exec) (k : nat) (p : Proc) : Proc :=
  match k with
  | O => p
  | S n => after execFunc n (snd (execFunc p))
  end.

(** The entry point and arguments that the dispatch selects. *)
Definition entry (ctx : cli.Context) (r : Resolved) : Entry :=
  let cfg := runtimeConfig ctx (genesisConfig r) (chainConfig r) in
  if cli.CreateFlag ctx
  then Create (code r ++ input r) cfg
  else Call (receiver ctx) (input r) cfg.

(** ** Observations

    The vocabulary in which the properties of a run are stated. *)

(** The configuration that an entry point is given. *)
Definition config_of (e : Entry) : runtime.Config :=
  match e with Create _ cfg => cfg | Call _ _ cfg => cfg end.

(** The three results of a unit of work. *)
Definition output_of (r : ExecResult) : list byte := fst (fst r).
Definition gasLeft_of (r : ExecResult) : Z := snd (fst r).
Definition err_of (r : ExecResult) : option error := snd r.

(** The process with one more event in its trace. *)
Definition logged (e : Event) (p : Proc) : Proc :=
  {| trace := trace p ++ [e]; machine := machine p |}.

(** The process once the account at [addr] is created. *)
Definition created (addr : list byte) (p : Proc) : Proc :=
  {| trace := trace p;
     machine := {| statedb := state.CreateAccount addr (statedb (machine p));
                   Mallocs := Mallocs (machine p);
                   TotalAlloc := TotalAlloc (machine p);
                   now := now (machine p) |} |}.

(** The process once [code] is installed at [addr]. *)
Definition install (addr code : list byte) (p : Proc) : Proc :=
  {| trace := trace p;
     machine := {| statedb := state.SetCode addr code (statedb (machine p));
                   Mallocs := Mallocs (machine p);
                   TotalAlloc := TotalAlloc (machine p);
                   now := now (machine p) |} |}.

(** The machine once the store is committed and its root computed, both
    with [deleteEmptyObjects], as the dump does before it prints. *)
Definition committed (host : Host) (m : Machine) : Machine :=
  {| statedb := statedb_IntermediateRoot host true
                  (statedb_Commit host true (statedb m));
     Mallocs := Mallocs m;
     TotalAlloc := TotalAlloc m;
     now := now m |}.

(** The machine that the dump stage leaves: committed with the dump
    flag, untouched without it. *)
Definition dumped (host : Host) (ctx : cli.Context) (m : Machine) : Machine :=
  if cli.DumpFlag ctx then committed host m else m.

(** The process on which the first invocation starts. *)
Definition dispatched (ctx : cli.Context) (r : Resolved) (p : Proc) : Proc :=
  if cli.CreateFlag ctx then p
  else if 0 <? len (code r) then install (receiver ctx) (code r) p
  else p.

(** The machines on which [k] successive runs of a unit of work start. *)
Fixpoint machines (f : Exec) (k : nat) (p : Proc) : list Machine :=
  match k with
  | O => []
  | S n => machine p :: machines f n (snd (f p))
  end.

(** How often a run invokes its unit of work. *)
Definition repetitions (host : Host) (ctx : cli.Context) : nat :=
  if cli.BenchFlag ctx then S (list_sum (testing_rounds host)) else 1%nat.

(** The bytes that a hexadecimal string resolves to once its length is
    validated. *)
Definition decoded (h : list byte) : list byte :=
  common.FromHex (string_of (bytes.TrimSpace h)).

(** The lines of the result: the output in hexadecimal, then the error. *)
Definition resultLines (output : list byte) (err : option error) : list string :=
  String.append (fmt.Sprintx output) nl
  :: match err with
     | Some e => [String.append " error: " (String.append e nl)]
     | None => []
     end.

(** One of the characters 0 to 9 and a to f. *)
Definition isLowerHexDigit (c : byte) : bool :=
  ((48 <=? byteZ c) && (byteZ c <=? 57)) || ((97 <=? byteZ c) && (byteZ c <=? 102)).

(** A character that [hex.fromHexChar] accepts. *)
Definition isHexDigit (c : byte) : bool :=
  match hex.fromHexChar c with Some _ => true | None => false end.

(** A computation is quiet when, however it ends, it has not invoked the
    engine. *)
Definition quiet {A} (m : M A) : Prop :=
  forall p, invocations (trace (final (m p))) = invocations (trace p).

(** A computation is silent when it writes nothing to the standard output
    unless it ends the run. *)
Definition silent {A} (m : M A) : Prop :=
  forall p a p', m p = Val a p' -> stdout (trace p') = stdout (trace p).

(** ** Events and selections

    What the stages of [runCmd] add to the trace, written as lists of
    events, and the selections of events that the properties compare.
    Each list is proved to be what the stage of the harness adds:
    [dumpState_logs], [writeMemProfile_logs], [writeDebug_logs],
    [writeStats_logs], [printResult_logs], [startCPUProfile_logs] and,
    for the whole report, [execute_logs]. *)

(** The machine that one call of an entry point leaves. *)
Definition engine (host : Host) (e : Entry) (m : Machine) : Machine :=
  match e with
  | Create input cfg => snd (runtime_Create host input cfg m)
  | Call address input cfg => snd (runtime_Call host address input cfg m)
  end.

(** [q] is [p] after the events [evs], on the same machine. *)
Definition extends (p : Proc) (evs : list Event) (q : Proc) : Prop :=
  trace q = trace p ++ evs /\ machine q = machine p.

(** What a successful configuration adds to the trace. *)
Definition startEvents (ctx : cli.Context) : list Event :=
  if nonempty (cli.CPUProfileFlag ctx)
  then [StartCPUProfile (cli.CPUProfileFlag ctx)]
  else [].

Definition dumpEvents (host : Host) (ctx : cli.Context) (m : Machine) : list Event :=
  if cli.DumpFlag ctx
  then [Stdout (String.append (statedb_Dump host (statedb (committed host m))) nl)]
  else [].

Definition heapEvents (ctx : cli.Context) : list Event :=
  if nonempty (cli.MemProfileFlag ctx)
  then [WriteHeapProfile (cli.MemProfileFlag ctx)]
  else [].

Definition debugEvents (ctx : cli.Context) : list Event :=
  if cli.DebugFlag ctx then
    (if cli.MachineFlag ctx then []
     else [Stderr (String.append "#### TRACE ####" nl);
           WriteTrace (logger.NewStructLogger (logconfig ctx))])
    ++ [Stderr (String.append "#### LOGS ####" nl); WriteLogs]
  else [].

Definition statsEvents (ctx : cli.Context) (initialGas leftOverGas : Z)
    (stats : execStats) : list Event :=
  if cli.BenchFlag ctx || cli.StatDumpFlag ctx
  then [WriteStats (uint64 (initialGas - leftOverGas)) stats]
  else [].

Definition resultEvents (ctx : cli.Context) (output : list byte)
    (err : option error) : list Event :=
  if cli.MachineFlag ctx || cli.DebugFlag ctx then []
  else map Stdout (resultLines output err).

(** The process after the events [evs]. *)
Definition logs (evs : list Event) (p : Proc) : Proc :=
  {| trace := trace p ++ evs; machine := machine p |}.

(** The process after the store operations of the dump stage. *)
Definition afterDump (host : Host) (ctx : cli.Context) (p : Proc) : Proc :=
  {| trace := trace p; machine := dumped host ctx (machine p) |}.

(** Whether the heap profile can be written: the error, if any. *)
Definition heapFailure (host : Host) (ctx : cli.Context) : option string :=
  let memProfilePath := cli.MemProfileFlag ctx in
  if nonempty memProfilePath then
    match os_Create host memProfilePath with
    | Some err => Some (("could not create memory profile: " ++ " " ++ err ++ nl)%string)
    | None =>
      match pprof_WriteHeapProfile host memProfilePath with
      | Some err => Some (("could not write memory profile: " ++ " " ++ err ++ nl)%string)
      | None => None
      end
    end
  else None.

(** Everything that follows the timed execution, as events. *)
Definition reportEvents (host : Host) (ctx : cli.Context) (r : Resolved)
    (output : list byte) (leftOverGas : Z) (stats : execStats)
    (err : option error) (m : Machine) : list Event :=
  dumpEvents host ctx m
  ++ heapEvents ctx
  ++ debugEvents ctx
  ++ statsEvents ctx (initialGas ctx (genesisConfig r)) leftOverGas stats
  ++ resultEvents ctx output err
  ++ (if profiling r then [StopCPUProfile] else []).

(** *** Events of one kind *)

(** A computation keeps the events that [sel] selects when, however it
    ends, it has added none of them. *)
Definition keeps (sel : Event -> bool) {A} (m : M A) : Prop :=
  forall p, List.filter sel (trace (final (m p))) = List.filter sel (trace p).

(** *** How a stage can end *)

(** A computation is abrupt when it can only end the run through
    [os.Exit(1)]. *)
Definition abrupt {A} (m : M A) : Prop :=
  forall p h q, m p = Halted h q -> h = OsExit 1.

(** The machines on which [k] successive calls of [step] start. *)
Fixpoint chain (step : Machine -> Machine) (k : nat) (m : Machine) : list Machine :=
  match k with
  | O => []
  | S n => m :: chain step n (step m)
  end.

Definition isStop (e : Event) : bool :=
  match e with StopCPUProfile => true | _ => false end.

Definition isCPUProfile (e : Event) : bool :=
  match e with StartCPUProfile _ | StopCPUProfile => true | _ => false end.

Definition isDebugOutput (e : Event) : bool :=
  match e with Stderr _ | WriteTrace _ | WriteLogs => true | _ => false end.

Definition isStats (e : Event) : bool :=
  match e with WriteStats _ _ => true | _ => false end.

(** The value of a computation that has returned, [d] otherwise. *)
Definition value {A} (d : A) (x : Res A) : A :=
  match x with Val a _ => a | Halted _ _ => d end.

Definition noResolved : Resolved :=
  {| genesisConfig := core.zero; chainConfig := None; code := [];
     profiling := false; input := [] |}.

(** An ASCII character that is not white space. *)
Definition isAsciiText (c : byte) : bool :=
  (byteZ c <? utf8.RuneSelf) && negb (unicode.IsSpace (byteZ c)).

(** The error of the start of the CPU profile, if any. *)
Definition cpuFailure (host : Host) (ctx : cli.Context) : option string :=
  let cpuProfilePath := cli.CPUProfileFlag ctx in
  if nonempty cpuProfilePath then
    match os_Create host cpuProfilePath with
    | Some err => Some (("could not create CPU profile: " ++ " " ++ err ++ nl)%string)
    | None =>
      match pprof_StartCPUProfile host cpuProfilePath with
      | Some err => Some (("could not start CPU profile: " ++ " " ++ err ++ nl)%string)
      | None => None
      end
    end
  else None.

(** ** A small host

    A file system with four files, a standard input, and an engine that
    echoes its input, fails on a receiver without code and counts its
    allocations; used to run the harness on concrete command lines. *)

Module Sample.

Definition genesis : core.Genesis :=
  {| core.Config := Some {| params.ChainID := 7 |};
     core.Timestamp := 10;
     core.GasLimit := 5000;
     core.Difficulty := Some 1;
     core.Coinbase := repeat x00 common.AddressLength;
     core.Number := 3;
     core.Alloc := ∅ |}.

Definition files (path : string) : error + list byte :=
  if String.eqb path "code.hex" then inr (bytes_of " 6001" ++ [x0a])
  else if String.eqb path "odd.hex" then inr (bytes_of "600")
  else if String.eqb path "prog.easm" then inr (bytes_of "push 5")
  else if String.eqb path "genesis.json" then inr (bytes_of "{}")
  else inl "no such file or directory"%string.

Definition tick (st : gmap (list byte) state.Account) (m : Machine) : Machine :=
  {| statedb := st; Mallocs := Mallocs m + 3;
     TotalAlloc := TotalAlloc m + 64; now := now m + 1000 |}.

Definition engineCreate (input : list byte) (cfg : runtime.Config) (m : Machine)
    : (list byte * list byte * Z * option error) * Machine :=
  let addr := common.BytesToAddress (bytes_of "created") in
  ((input, addr, uint64 (runtime.GasLimit cfg - len input), None),
   tick (state.SetCode addr input (statedb m)) m).

Definition engineCall (addr input : list byte) (cfg : runtime.Config) (m : Machine)
    : (list byte * Z * option error) * Machine :=
  let code := state.GetCode addr (statedb m) in
  ((input, uint64 (runtime.GasLimit cfg - len code),
    match code with [] => Some "no code at receiver"%string | _ => None end),
   tick (statedb m) m).

(** Whether an account is empty: no nonce, no balance, no code. *)
Definition isEmpty (a : state.Account) : bool :=
  (state.Nonce a =? 0) && (state.Balance a =? 0)
  && match state.Code a with [] => true | _ => false end.

(** The commit of the sample store drops the empty accounts when it is
    asked to delete them. *)
Definition commit (deleteEmptyObjects : bool)
    (st : gmap (list byte) state.Account) : gmap (list byte) state.Account :=
  if deleteEmptyObjects
  then omap (fun a => if isEmpty a then None else Some a) st
  else st.

Definition host : Host :=
  {| os_Open := files;
     json_Decode := fun _ => inr genesis;
     os_Stdin := inr (bytes_of "0X6003");
     os_ReadFile := files;
     os_Create := fun _ => None;
     compiler_Compile := fun _ _ _ => inr "6005"%string;
     pprof_StartCPUProfile := fun _ => None;
     pprof_WriteHeapProfile := fun _ => None;
     runtime_Create := engineCreate;
     runtime_Call := engineCall;
     testing_rounds := [2%nat; 3%nat];
     statedb_Commit := commit;
     statedb_IntermediateRoot := fun _ st => st;
     statedb_Dump := fun _ => "{}"%string |}.

(** A command line: the flags that matter here, the others at their
    defaults. *)
Definition context (machine debug create bench : bool)
    (genesis codefile code input : string) (args : list string) : cli.Context :=
  {| cli.VerbosityFlag := 0;
     cli.DisableMemoryFlag := false;
     cli.DisableStackFlag := false;
     cli.DisableStorageFlag := false;
     cli.DisableReturnDataFlag := false;
     cli.DebugFlag := debug;
     cli.MachineFlag := machine;
     cli.CreateFlag := create;
     cli.BenchFlag := bench;
     cli.DumpFlag := false;
     cli.StatDumpFlag := false;
     cli.GenesisFlag := genesis;
     cli.SenderFlag := "";
     cli.ReceiverFlag := "";
     cli.CodeFileFlag := codefile;
     cli.CodeFlag := code;
     cli.InputFileFlag := "";
     cli.InputFlag := input;
     cli.CPUProfileFlag := "";
     cli.MemProfileFlag := "";
     cli.GasFlag := 10000000000;
     cli.PriceFlag := 0;
     cli.ValueFlag := 0;
     cli.Args := args |}.

Definition start : Proc :=
  {| trace := [];
     machine := {| statedb := ∅; Mallocs := 100; TotalAlloc := 4096; now := 0 |} |}.

End Sample.

(** A host on which no file can be created. *)
Definition readOnlyHost : Host :=
  {| os_Open := os_Open Sample.host;
     json_Decode := json_Decode Sample.host;
     os_Stdin := os_Stdin Sample.host;
     os_ReadFile := os_ReadFile Sample.host;
     os_Create := fun _ => Some "permission denied"%string;
     compiler_Compile := compiler_Compile Sample.host;
     pprof_StartCPUProfile := pprof_StartCPUProfile Sample.host;
     pprof_WriteHeapProfile := pprof_WriteHeapProfile Sample.host;
     runtime_Create := runtime_Create Sample.host;
     runtime_Call := runtime_Call Sample.host;
     testing_rounds := testing_rounds Sample.host;
     statedb_Commit := statedb_Commit Sample.host;
     statedb_IntermediateRoot := statedb_IntermediateRoot Sample.host;
     statedb_Dump := statedb_Dump Sample.host |}.

(** A host whose genesis installs code at the default receiver. *)
Definition seededHost : Host :=
  {| os_Open := os_Open Sample.host;
     json_Decode := fun _ =>
       inr {| core.Config := None; core.Timestamp := 0; core.GasLimit := 0;
              core.Difficulty := None;
              core.Coinbase := repeat x00 common.AddressLength;
              core.Number := 0;
              core.Alloc :=
                {[ common.BytesToAddress (bytes_of "receiver") :=
                     {| state.Nonce := 1; state.Balance := 5;
                        state.Code := [x60; x02] |} ]} |};
     os_Stdin := os_Stdin Sample.host;
     os_ReadFile := os_ReadFile Sample.host;
     os_Create := os_Create Sample.host;
     compiler_Compile := compiler_Compile Sample.host;
     pprof_StartCPUProfile := pprof_StartCPUProfile Sample.host;
     pprof_WriteHeapProfile := pprof_WriteHeapProfile Sample.host;
     runtime_Create := runtime_Create Sample.host;
     runtime_Call := runtime_Call Sample.host;
     testing_rounds := testing_rounds Sample.host;
     statedb_Commit := statedb_Commit Sample.host;
     statedb_IntermediateRoot := statedb_IntermediateRoot Sample.host;
     statedb_Dump := statedb_Dump Sample.host |}.

(** ** Command lines for the sample host *)

Module Cases.

Definition absentSource : cli.Context :=
  Sample.context false false false false "" "" "" "" ["absent.easm"%string].

Definition absentSource_end : Proc :=
  Eval vm_compute in final (runCmd Sample.host absentSource Sample.start).

Definition noCode : cli.Context :=
  Sample.context false false false false "" "" "" "0x01" [].

Definition noCode_resolved : Resolved :=
  Eval vm_compute in value noResolved (configure Sample.host noCode Sample.start).

Definition noCode_configured : Proc :=
  Eval vm_compute in final (configure Sample.host noCode Sample.start).

Definition dumpAndHeap : cli.Context :=
  {| cli.VerbosityFlag := 0; cli.DisableMemoryFlag := false;
     cli.DisableStackFlag := false; cli.DisableStorageFlag := false;
     cli.DisableReturnDataFlag := false; cli.DebugFlag := false;
     cli.MachineFlag := false; cli.CreateFlag := false; cli.BenchFlag := false;
     cli.DumpFlag := true; cli.StatDumpFlag := false; cli.GenesisFlag := "";
     cli.SenderFlag := ""; cli.ReceiverFlag := ""; cli.CodeFileFlag := "";
     cli.CodeFlag := "6001"; cli.InputFileFlag := ""; cli.InputFlag := "";
     cli.CPUProfileFlag := ""; cli.MemProfileFlag := "mem.prof";
     cli.GasFlag := 100; cli.PriceFlag := 0; cli.ValueFlag := 0;
     cli.Args := [] |}.

Definition dumpAndHeap_resolved : Resolved :=
  Eval vm_compute in value noResolved (configure readOnlyHost dumpAndHeap Sample.start).

Definition dumpAndHeap_configured : Proc :=
  Eval vm_compute in final (configure readOnlyHost dumpAndHeap Sample.start).

Definition bench : cli.Context :=
  Sample.context false false false true "" "" "6001" "" [].

Definition bench_resolved : Resolved :=
  Eval vm_compute in value noResolved (configure Sample.host bench Sample.start).

Definition bench_configured : Proc :=
  Eval vm_compute in final (configure Sample.host bench Sample.start).

Definition debugMachine : cli.Context :=
  Sample.context true true false false "" "" "6001" "" [].

Definition debugMachine_end : Proc :=
  Eval vm_compute in final (runCmd Sample.host debugMachine Sample.start).

Definition statdump : cli.Context :=
  {| cli.VerbosityFlag := 0; cli.DisableMemoryFlag := false;
     cli.DisableStackFlag := false; cli.DisableStorageFlag := false;
     cli.DisableReturnDataFlag := false; cli.DebugFlag := false;
     cli.MachineFlag := false; cli.CreateFlag := false; cli.BenchFlag := false;
     cli.DumpFlag := false; cli.StatDumpFlag := true; cli.GenesisFlag := "";
     cli.SenderFlag := ""; cli.ReceiverFlag := ""; cli.CodeFileFlag := "";
     cli.CodeFlag := "6001"; cli.InputFileFlag := ""; cli.InputFlag := "";
     cli.CPUProfileFlag := "cpu.prof"; cli.MemProfileFlag := "";
     cli.GasFlag := 10000000000; cli.PriceFlag := 0; cli.ValueFlag := 0;
     cli.Args := [] |}.

Definition statdump_resolved : Resolved :=
  Eval vm_compute in value noResolved (configure Sample.host statdump Sample.start).

Definition statdump_configured : Proc :=
  Eval vm_compute in final (configure Sample.host statdump Sample.start).

Definition statdump_timed : Proc :=
  Eval vm_compute in
    final (timedExec Sample.host false
             (invoke Sample.host (entry statdump statdump_resolved))
             (dispatched statdump statdump_resolved statdump_configured)).

Definition statdump_stats : execStats :=
  {| time := 1000; allocs := 3; bytesAllocated := 64 |}.

Definition statdump_end : Proc :=
  Eval vm_compute in final (runCmd Sample.host statdump Sample.start).

Definition inputFile : cli.Context :=
  {| cli.VerbosityFlag := 0; cli.DisableMemoryFlag := false;
     cli.DisableStackFlag := false; cli.DisableStorageFlag := false;
     cli.DisableReturnDataFlag := false; cli.DebugFlag := false;
     cli.MachineFlag := false; cli.CreateFlag := false; cli.BenchFlag := false;
     cli.DumpFlag := false; cli.StatDumpFlag := false; cli.GenesisFlag := "";
     cli.SenderFlag := ""; cli.ReceiverFlag := ""; cli.CodeFileFlag := "";
     cli.CodeFlag := ""; cli.InputFileFlag := "code.hex"; cli.InputFlag := "0xff";
     cli.CPUProfileFlag := ""; cli.MemProfileFlag := "";
     cli.GasFlag := 100; cli.PriceFlag := 0; cli.ValueFlag := 0;
     cli.Args := [] |}.

Definition absentCodeFile : cli.Context :=
  Sample.context false false false false "" "absent.hex" "6001" "" [].

Definition seeded : cli.Context :=
  Sample.context false false false false "genesis.json" "" "" "" [].

Definition seeded_resolved : Resolved :=
  Eval vm_compute in value noResolved (configure seededHost seeded Sample.start).

Definition seeded_configured : Proc :=
  Eval vm_compute in final (configure seededHost seeded Sample.start).

(** The genesis file of the seeded host, and the receiver named as the
    sender. *)
Definition sameAccount : cli.Context :=
  {| cli.VerbosityFlag := 0; cli.DisableMemoryFlag := false;
     cli.DisableStackFlag := false; cli.DisableStorageFlag := false;
     cli.DisableReturnDataFlag := false; cli.DebugFlag := false;
     cli.MachineFlag := false; cli.CreateFlag := false; cli.BenchFlag := false;
     cli.DumpFlag := false; cli.StatDumpFlag := false;
     cli.GenesisFlag := "genesis.json";
     cli.SenderFlag := "0x7265636569766572"; cli.ReceiverFlag := "";
     cli.CodeFileFlag := ""; cli.CodeFlag := ""; cli.InputFileFlag := "";
     cli.InputFlag := ""; cli.CPUProfileFlag := ""; cli.MemProfileFlag := "";
     cli.GasFlag := 100; cli.PriceFlag := 0; cli.ValueFlag := 0;
     cli.Args := [] |}.

Definition sameAccount_resolved : Resolved :=
  Eval vm_compute in value noResolved (configure seededHost sameAccount Sample.start).

Definition sameAccount_configured : Proc :=
  Eval vm_compute in final (configure seededHost sameAccount Sample.start).

Definition create : cli.Context :=
  Sample.context false false true false "" "" "6001" "0x02" [].

Definition create_resolved : Resolved :=
  Eval vm_compute in value noResolved (configure Sample.host create Sample.start).

Definition create_configured : Proc :=
  Eval vm_compute in final (configure Sample.host create Sample.start).

Definition cpuProfile : cli.Context :=
  {| cli.VerbosityFlag := 0; cli.DisableMemoryFlag := false;
     cli.DisableStackFlag := false; cli.DisableStorageFlag := false;
     cli.DisableReturnDataFlag := false; cli.DebugFlag := false;
     cli.MachineFlag := false; cli.CreateFlag := false; cli.BenchFlag := false;
     cli.DumpFlag := false; cli.StatDumpFlag := false; cli.GenesisFlag := "";
     cli.SenderFlag := ""; cli.ReceiverFlag := ""; cli.CodeFileFlag := "";
     cli.CodeFlag := "6001"; cli.InputFileFlag := ""; cli.InputFlag := "";
     cli.CPUProfileFlag := "cpu.prof"; cli.MemProfileFlag := "";
     cli.GasFlag := 100; cli.PriceFlag := 0; cli.ValueFlag := 0;
     cli.Args := [] |}.

End Cases.

(** ** The library models on small inputs *)

Example TrimSpace_ascii :
  bytes.TrimSpace (x20 :: x09 :: bytes_of "0x6001" ++ [x0d; x0a]) = bytes_of "0x6001".
Proof. reflexivity. Qed.

Example TrimSpace_keeps_inner_space :
  bytes.TrimSpace (bytes_of " 60 01 ") = bytes_of "60 01".
Proof. reflexivity. Qed.

Example TrimSpace_unicode :
  bytes.TrimSpace ([xc2; xa0] ++ bytes_of "60" ++ [xe2; x80; x83]) = bytes_of "60".
Proof. reflexivity. Qed.

Example TrimSpace_invalid_utf8 :
  bytes.TrimSpace [x20; xc2; x61; xe2; x80; x20] = [xc2; x61; xe2; x80].
Proof. reflexivity. Qed.

Example TrimSpace_all_space : bytes.TrimSpace [x20; x0a; x20] = [].
Proof. reflexivity. Qed.

Example Decode_stops_at_invalid : hex.Decode (bytes_of "60zz01") = [x60].
Proof. reflexivity. Qed.

Example Decode_drops_dangling : hex.Decode (bytes_of "600") = [x60].
Proof. reflexivity. Qed.

Example FromHex_prefixed_code : common.FromHex "0x600052" = [x60; x00; x52].
Proof. reflexivity. Qed.

Example FromHex_odd_digits : common.FromHex "0X1fF" = [x01; xff].
Proof. reflexivity. Qed.

Example Sprintx_bytes : fmt.Sprintx [x60; xff; x0a] = "0x60ff0a"%string.
Proof. reflexivity. Qed.

Example Sprintx_empty : fmt.Sprintx [] = ""%string.
Proof. reflexivity. Qed.

Example Sprintd_length : fmt.Sprintd 13 = "13"%string.
Proof. reflexivity. Qed.

Example BytesToAddress_long :
  common.BytesToAddress (bytes_of "0123456789abcdefghijklmn")
  = bytes_of "456789abcdefghijklmn".
Proof. reflexivity. Qed.

Example CreateAccount_keeps_balance :
  state.CreateAccount [x01]
    {[ [x01] := {| state.Nonce := 5; state.Balance := 7; state.Code := [x60] |} ]}
  !! [x01]
  = Some {| state.Nonce := 0; state.Balance := 7; state.Code := [] |}.
Proof. reflexivity. Qed.

(** ** The harness on small command lines *)

Example run_call_prints_output :
  stdout (trace (final (runCmd Sample.host
    (Sample.context false false false false "" "" "0x6001" "0xff" []) Sample.start)))
  = [String.append "0xff" nl].
Proof. vm_compute. reflexivity. Qed.

Example run_bench_invokes_six_times :
  List.length (invocations (trace (final (runCmd Sample.host
    (Sample.context false false false true "" "" "6001" "" []) Sample.start))))
  = 6%nat.
Proof. vm_compute. reflexivity. Qed.

Example run_odd_code_exits :
  exists p,
    runCmd Sample.host
      (Sample.context false false false false "" "odd.hex" "" "" []) Sample.start
    = Halted (OsExit 1) p
    /\ stdout (trace p) = [String.append "Invalid input length for hex data (3)" nl]
    /\ invocations (trace p) = [].
Proof. eexists. split; [vm_compute; reflexivity | split; reflexivity]. Qed.

Example run_missing_genesis_is_fatal :
  exists p,
    runCmd Sample.host
      (Sample.context false false false false "absent.json" "" "" "" []) Sample.start
    = Halted (OsExit 1) p
    /\ trace p
       = [Stderr (String.append
                    "Fatal: Failed to read genesis file: no such file or directory" nl)].
Proof. eexists. split; [vm_compute; reflexivity | reflexivity]. Qed.

(** ** Reasoning about runs *)

Lemma bind_Val {A B} (m : M A) (k : A -> M B) p a p' :
  m p = Val a p' -> (m ≫= k) p = k a p'.
Proof. intros E. unfold mbind, M_bind. now rewrite E. Qed.

Lemma bind_Halted {A B} (m : M A) (k : A -> M B) p h p' :
  m p = Halted h p' -> (m ≫= k) p = Halted h p'.
Proof. intros E. unfold mbind, M_bind. now rewrite E. Qed.

Lemma invocations_app tr1 tr2 :
  invocations (tr1 ++ tr2) = invocations tr1 ++ invocations tr2.
Proof. apply omap_app. Qed.

Lemma quiet_ret {A} (a : A) : quiet (mret a).
Proof. now intros p. Qed.

Lemma quiet_bind {A B} (m : M A) (k : A -> M B) :
  quiet m -> (forall a, quiet (k a)) -> quiet (m ≫= k).
Proof.
  intros Hm Hk p. specialize (Hm p). unfold mbind, M_bind.
  destruct (m p) as [a p'|h p']; simpl in *.
  - now rewrite Hk.
  - exact Hm.
Qed.

Lemma quiet_emit e :
  (forall c m, e <> Invoke c m) -> quiet (emit e).
Proof.
  intros He p. unfold emit. simpl. rewrite invocations_app.
  destruct e; simpl; try apply app_nil_r. now destruct (He e before).
Qed.

Lemma quiet_Printf s : quiet (Printf s).
Proof. now apply quiet_emit. Qed.

Lemma quiet_os_Exit {A} code : quiet (@os_Exit A code).
Proof. now intros p. Qed.

Lemma quiet_return_err {A} err : quiet (@return_err A err).
Proof. now intros p. Qed.

Lemma quiet_set_statedb s : quiet (set_statedb s).
Proof. now intros p. Qed.

Lemma quiet_modify_statedb f : quiet (modify_statedb f).
Proof. now intros p. Qed.

Lemma quiet_Fatalf {A} msg : quiet (@Fatalf A msg).
Proof.
  apply quiet_bind; [now apply quiet_emit | intros; apply quiet_os_Exit].
Qed.

Create HintDb quiet.
#[global] Hint Resolve quiet_ret quiet_Printf quiet_os_Exit quiet_return_err
  quiet_set_statedb quiet_modify_statedb quiet_Fatalf : quiet.

(** Splits a computation along its binds and its case distinctions. *)
Ltac quiet_step :=
  match goal with
  | |- quiet (_ ≫= _) => apply quiet_bind; [| intros]
  | |- quiet (emit _) => now apply quiet_emit
  | |- quiet (if ?b then _ else _) => destruct b
  | |- quiet (match ?x with _ => _ end) => destruct x
  | |- quiet _ => solve [auto with quiet]
  end.

Section Quiet.

Context (host : Host).

Lemma quiet_readGenesis path : quiet (readGenesis host path).
Proof. unfold readGenesis. repeat quiet_step. Qed.

Lemma quiet_openState ctx : quiet (openState host ctx).
Proof.
  unfold openState. destruct (nonempty _).
  - apply quiet_bind; [apply quiet_readGenesis | intros; repeat quiet_step].
  - repeat quiet_step.
Qed.

Lemma quiet_readHexcode ctx : quiet (readHexcode host ctx).
Proof. unfold readHexcode. repeat quiet_step. Qed.

Lemma quiet_loadCode ctx : quiet (loadCode host ctx).
Proof.
  unfold loadCode. destruct (_ || _).
  - apply quiet_bind; [apply quiet_readHexcode | intros; repeat quiet_step].
  - repeat quiet_step.
Qed.

Lemma quiet_startCPUProfile ctx : quiet (startCPUProfile host ctx).
Proof. unfold startCPUProfile. repeat quiet_step. Qed.

Lemma quiet_readHexInput ctx : quiet (readHexInput host ctx).
Proof. unfold readHexInput. repeat quiet_step. Qed.

Lemma quiet_loadInput ctx : quiet (loadInput host ctx).
Proof.
  unfold loadInput.
  apply quiet_bind; [apply quiet_readHexInput | intros; repeat quiet_step].
Qed.

Lemma quiet_configure ctx : quiet (configure host ctx).
Proof.
  unfold configure.
  apply quiet_bind; [apply quiet_openState | intros [g cc]].
  apply quiet_bind; [apply quiet_modify_statedb | intros _].
  apply quiet_bind; [apply quiet_loadCode | intros c].
  apply quiet_bind; [apply quiet_startCPUProfile | intros prof].
  apply quiet_bind; [apply quiet_loadInput | intros i].
  apply quiet_ret.
Qed.

Lemma quiet_dumpState ctx : quiet (dumpState host ctx).
Proof.
  unfold dumpState. destruct (cli.DumpFlag ctx); [| apply quiet_ret].
  apply quiet_bind; [apply quiet_modify_statedb | intros _].
  apply quiet_bind; [apply quiet_modify_statedb | intros _].
  apply quiet_bind; [now intros p | intros; apply quiet_Printf].
Qed.

Lemma quiet_writeMemProfile ctx : quiet (writeMemProfile host ctx).
Proof. unfold writeMemProfile. repeat quiet_step. Qed.

End Quiet.

Lemma quiet_writeDebug ctx l : quiet (writeDebug ctx l).
Proof. unfold writeDebug. repeat quiet_step. Qed.

Lemma quiet_writeStats ctx g1 g2 st : quiet (writeStats ctx g1 g2 st).
Proof. unfold writeStats. repeat quiet_step. Qed.

Lemma quiet_printResult tr out err : quiet (printResult tr out err).
Proof. unfold printResult. repeat quiet_step. Qed.

(** *** Repeated invocation *)

Lemma after_S_r (f : Exec) n p : after f (S n) p = snd (f (after f n p)).
Proof. revert p. induction n as [|n IH]; intros p; [reflexivity|]. simpl in *. now rewrite IH. Qed.

Lemma after_add (f : Exec) a b p : after f (a + b) p = after f b (after f a p).
Proof. revert p. induction a as [|a IH]; intros p; simpl; [reflexivity | apply IH]. Qed.

Lemma benchLoop_snd (f : Exec) n s : snd (benchLoop f n s) = after f n (snd s).
Proof. revert s. induction n as [|n IH]; intros s; simpl; [reflexivity | now rewrite IH]. Qed.

Lemma benchLoop_fst (f : Exec) n s :
  fst (benchLoop f (S n) s) = fst (f (after f n (snd s))).
Proof.
  revert s. induction n as [|n IH]; intros s; [reflexivity|].
  change (benchLoop f (S (S n)) s) with (benchLoop f (S n) (f (snd s))).
  now rewrite IH.
Qed.

Lemma benchLoop_add (f : Exec) a b s :
  benchLoop f b (benchLoop f a s) = benchLoop f (a + b) s.
Proof. revert s. induction a as [|a IH]; intros s; simpl; [reflexivity | apply IH]. Qed.

Lemma launch_snd (f : Exec) rounds acc :
  snd (testing.launch (benchLoop f) rounds acc)
  = benchLoop f (list_sum rounds) (snd acc).
Proof.
  revert acc. induction rounds as [|n rest IH]; intros acc; simpl; [reflexivity|].
  rewrite IH. unfold testing.runN. simpl. apply benchLoop_add.
Qed.

Lemma Benchmark_snd (f : Exec) rounds s :
  snd (testing.Benchmark rounds (benchLoop f) s)
  = benchLoop f (S (list_sum rounds)) s.
Proof.
  unfold testing.Benchmark. rewrite launch_snd. unfold testing.runN.
  cbn [snd]. apply (benchLoop_add f 1).
Qed.

(** [timedExec] in benchmark mode: the unit of work runs once and then
    once more for every iteration of every round; what is returned is
    what its last run returned. *)
Lemma timedExec_bench host (f : Exec) p :
  let n := list_sum (testing_rounds host) in
  exists stats,
    timedExec host true f p
    = Val (fst (fst (fst (f (after f n p)))), snd (fst (fst (f (after f n p)))),
           stats, snd (fst (f (after f n p))))
          (after f (S n) p).
Proof.
  intros n. unfold timedExec.
  pose proof (Benchmark_snd f (testing_rounds host) (([], 0, None), p)) as E.
  destruct (testing.Benchmark _ _ _) as [result [[[o g] e] q]].
  cbn [snd] in E. fold n in E.
  pose proof (f_equal fst E) as Ef. pose proof (f_equal snd E) as Eq.
  rewrite benchLoop_fst in Ef. rewrite benchLoop_snd in Eq.
  cbn [fst snd] in Ef, Eq. eexists. rewrite <- Ef, <- Eq. reflexivity.
Qed.

(** [timedExec] outside benchmark mode: one run, measured. *)
Lemma timedExec_once host (f : Exec) p :
  timedExec host false f p
  = Val (fst (fst (fst (f p))), snd (fst (fst (f p))),
         {| time := now (machine (snd (f p))) - now (machine p);
            allocs := int64 (uint64 (Mallocs (machine (snd (f p))) - Mallocs (machine p)));
            bytesAllocated :=
              int64 (uint64 (TotalAlloc (machine (snd (f p))) - TotalAlloc (machine p))) |},
         snd (fst (f p)))
        (snd (f p)).
Proof. unfold timedExec. now destruct (f p) as [[[o g] e] q]. Qed.

Lemma timedExec_after host bench (f : Exec) p :
  exists res,
    timedExec host bench f p
    = Val res (after f (if bench then S (list_sum (testing_rounds host)) else 1%nat) p).
Proof.
  destruct bench.
  - destruct (timedExec_bench host f p) as [stats E]. eexists. exact E.
  - eexists. apply timedExec_once.
Qed.

Lemma invoke_trace host e p :
  trace (snd (invoke host e p)) = trace p ++ [Invoke e (machine p)].
Proof.
  unfold invoke. destruct e as [i cfg|a i cfg].
  - now destruct (runtime_Create host i cfg (machine p)) as [[[[o ad] g] er] m'].
  - now destruct (runtime_Call host a i cfg (machine p)) as [res m'].
Qed.

Lemma after_invoke host e k p :
  invocations (trace (after (invoke host e) k p))
  = invocations (trace p) ++ map (pair e) (machines (invoke host e) k p).
Proof.
  revert p. induction k as [|k IH]; intros p; simpl.
  - now rewrite app_nil_r.
  - rewrite IH, invoke_trace, invocations_app. simpl. now rewrite <- app_assoc.
Qed.

(** *** From the resolved configuration to the invocations *)

Lemma dispatched_trace ctx r p : trace (dispatched ctx r p) = trace p.
Proof. unfold dispatched. now destruct (cli.CreateFlag ctx), (0 <? len (code r)). Qed.

Lemma dispatch_Val host ctx r p :
  dispatch host ctx (code r) (input r)
    (runtimeConfig ctx (genesisConfig r) (chainConfig r)) p
  = Val (invoke host (entry ctx r)) (dispatched ctx r p).
Proof.
  unfold dispatch, entry, dispatched.
  destruct (cli.CreateFlag ctx); [reflexivity|].
  now destruct (0 <? len (code r)).
Qed.

Lemma quiet_report host ctx l g1 g2 st tr out err (prof : bool) :
  quiet (dumpState host ctx;;
         writeMemProfile host ctx;;
         writeDebug ctx l;;
         writeStats ctx g1 g2 st;;
         printResult tr out err;;
         (if prof then emit StopCPUProfile else mret tt)).
Proof.
  apply quiet_bind; [apply quiet_dumpState | intros _].
  apply quiet_bind; [apply quiet_writeMemProfile | intros _].
  apply quiet_bind; [apply quiet_writeDebug | intros _].
  apply quiet_bind; [apply quiet_writeStats | intros _].
  apply quiet_bind; [apply quiet_printResult | intros _].
  destruct prof; [now apply quiet_emit | apply quiet_ret].
Qed.

Lemma runCmd_configured host ctx p r p' :
  configure host ctx p = Val r p' -> runCmd host ctx p = execute host ctx r p'.
Proof. intros E. unfold runCmd. now apply bind_Val. Qed.

Lemma runCmd_not_configured host ctx p h p' :
  configure host ctx p = Halted h p' -> runCmd host ctx p = Halted h p'.
Proof. intros E. unfold runCmd. now apply bind_Halted. Qed.

(** Every run that gets through its configuration invokes the selected
    entry point, with the same arguments each time, as often as the mode
    says, and nothing else. *)
Lemma runCmd_invocations host ctx p r p' :
  configure host ctx p = Val r p' ->
  invocations (trace (final (runCmd host ctx p)))
  = invocations (trace p)
    ++ map (pair (entry ctx r))
         (machines (invoke host (entry ctx r)) (repetitions host ctx)
                   (dispatched ctx r p')).
Proof.
  intros E. rewrite (runCmd_configured _ _ _ _ _ E). unfold execute.
  destruct (selectTracer ctx) as [tracer debugLogger].
  rewrite (bind_Val _ _ _ _ _ (dispatch_Val host ctx r p')).
  destruct (timedExec_after host (cli.BenchFlag ctx) (invoke host (entry ctx r))
              (dispatched ctx r p')) as [[[[out gas] st] err] T].
  rewrite (bind_Val _ _ _ _ _ T).
  rewrite quiet_report. fold (repetitions host ctx).
  rewrite after_invoke, dispatched_trace.
  pose proof (quiet_configure host ctx p) as Q. rewrite E in Q. simpl in Q.
  now rewrite Q.
Qed.

Lemma repetitions_pos host ctx : exists k, repetitions host ctx = S k.
Proof. unfold repetitions. destruct (cli.BenchFlag ctx); eauto. Qed.

(** *** The stages of the configuration *)

Lemma readHexcode_Val host ctx p h p' :
  readHexcode host ctx p = Val h p' ->
  p' = p /\ forall q, readHexcode host ctx q = Val h q.
Proof.
  unfold readHexcode. destruct (nonempty _).
  - destruct (String.eqb _ _).
    + destruct (os_Stdin host); [discriminate|]. intros [= <- <-]. now split.
    + destruct (os_ReadFile host _); [discriminate|]. intros [= <- <-]. now split.
  - intros [= <- <-]. now split.
Qed.

Lemma readHexInput_Val host ctx p h p' :
  readHexInput host ctx p = Val h p' ->
  p' = p /\ forall q, readHexInput host ctx q = Val h q.
Proof.
  unfold readHexInput. destruct (nonempty _).
  - destruct (os_ReadFile host _); [discriminate|]. intros [= <- <-]. now split.
  - intros [= <- <-]. now split.
Qed.

Lemma loadCode_Val host ctx p c p' :
  loadCode host ctx p = Val c p' ->
  p' = p /\ forall q, loadCode host ctx q = Val c q.
Proof.
  unfold loadCode. destruct (_ || _).
  - unfold mbind, M_bind. destruct (readHexcode host ctx p) as [h p1|] eqn:E; [|discriminate].
    apply readHexcode_Val in E as [-> E].
    destruct (negb _) eqn:Odd; [discriminate|]. intros [= <- <-].
    split; [reflexivity|]. intros q. now rewrite E, Odd.
  - destruct (_ <? _)%nat.
    + destruct (os_ReadFile host _); [discriminate|].
      destruct (compiler_Compile host _ _ _); [discriminate|].
      intros [= <- <-]. now split.
    + intros [= <- <-]. now split.
Qed.

Lemma loadInput_Val host ctx p i p' :
  loadInput host ctx p = Val i p' ->
  p' = p /\ forall q, loadInput host ctx q = Val i q.
Proof.
  unfold loadInput, mbind, M_bind.
  destruct (readHexInput host ctx p) as [h p1|] eqn:E; [|discriminate].
  apply readHexInput_Val in E as [-> E].
  destruct (negb _) eqn:Odd; [discriminate|]. intros [= <- <-].
  split; [reflexivity|]. intros q. now rewrite E, Odd.
Qed.

(** What a successful configuration has gone through. *)
Lemma configure_Val host ctx p r p' :
  configure host ctx p = Val r p' ->
  exists p1,
    openState host ctx p = Val (genesisConfig r, chainConfig r) p1
    /\ (forall q, loadCode host ctx q = Val (code r) q)
    /\ startCPUProfile host ctx (created (sender ctx) p1) = Val (profiling r) p'
    /\ (forall q, loadInput host ctx q = Val (input r) q).
Proof.
  unfold configure, mbind, M_bind.
  destruct (openState host ctx p) as [[g cc] p1|] eqn:E1; [|discriminate].
  change (modify_statedb (state.CreateAccount (sender ctx)) p1)
    with (Val tt (created (sender ctx) p1)).
  cbv beta iota.
  destruct (loadCode host ctx _) as [c p2|] eqn:E2; [|discriminate].
  apply loadCode_Val in E2 as [-> E2].
  destruct (startCPUProfile host ctx _) as [prof p3|] eqn:E3; [|discriminate].
  destruct (loadInput host ctx p3) as [i p4|] eqn:E4; [|discriminate].
  apply loadInput_Val in E4 as [-> E4].
  intros [= <- <-]. exists p1. simpl. auto.
Qed.

Lemma readGenesis_machine host path p g p' :
  readGenesis host path p = Val g p' -> machine p' = machine p.
Proof.
  unfold readGenesis, mbind, M_bind.
  destruct (_ =? _)%nat; [discriminate|]. cbv beta iota.
  destruct (os_Open host path); [discriminate|].
  destruct (json_Decode host _); [discriminate|].
  now intros [= _ <-].
Qed.

Lemma openState_statedb host ctx p g cc p1 :
  openState host ctx p = Val (g, cc) p1 -> statedb (machine p1) = core.Alloc g.
Proof.
  unfold openState, mbind, M_bind. destruct (nonempty _).
  - destruct (readGenesis host _ p) as [gen p0|]; [|discriminate].
    intros E. injection E as <- _ <-. reflexivity.
  - intros E. injection E as <- _ <-. reflexivity.
Qed.

Lemma startCPUProfile_machine host ctx p b p' :
  startCPUProfile host ctx p = Val b p' -> machine p' = machine p.
Proof.
  unfold startCPUProfile, mbind, M_bind. destruct (nonempty _).
  - destruct (os_Create host _); [discriminate|].
    destruct (pprof_StartCPUProfile host _); [discriminate|].
    intros E. injection E as _ <-. reflexivity.
  - now intros [= _ <-].
Qed.

(** The state store that a successful configuration leaves: the accounts
    of the genesis, with the account of the sender created. *)
Lemma configure_statedb host ctx p r p' :
  configure host ctx p = Val r p' ->
  statedb (machine p')
  = state.CreateAccount (sender ctx) (core.Alloc (genesisConfig r)).
Proof.
  intros E. apply configure_Val in E as (p1 & Ho & _ & Hp & _).
  apply startCPUProfile_machine in Hp. rewrite Hp. simpl.
  now rewrite (openState_statedb _ _ _ _ _ _ Ho).
Qed.

(** ** The properties of the harness *)

(** C8. The tracer is selected once, before the state is opened, with the
    precedence machine flag, then debug flag: with the machine flag the
    JSON logger is the tracer; otherwise with the debug flag a structured
    logger is both the tracer and the debug logger; otherwise the tracer
    stays empty and a structured logger is still constructed as the debug
    logger. The tracer so selected is the one of the execution
    configuration. *)
Theorem tracer_selection (ctx : cli.Context) :
  let l := logger.NewStructLogger (logconfig ctx) in
  (cli.MachineFlag ctx = true ->
     selectTracer ctx = (Some (vm.JSONLogger (logconfig ctx)), None))
  /\ (cli.MachineFlag ctx = false -> cli.DebugFlag ctx = true ->
     selectTracer ctx = (Some (vm.StructLogger l), Some l))
  /\ (cli.MachineFlag ctx = false -> cli.DebugFlag ctx = false ->
     selectTracer ctx = (None, Some l))
  /\ (forall g cc,
     vm.Tracer (runtime.EVMConfig (runtimeConfig ctx g cc)) = fst (selectTracer ctx)).
Proof.
  intros l. unfold selectTracer. split; [|split; [|split]].
  - now intros ->.
  - now intros -> ->.
  - now intros -> ->.
  - reflexivity.
Qed.

Lemma tracer_selection_witness :
  fst (selectTracer (Sample.context true true false false "" "" "" "" []))
  = Some (vm.JSONLogger
            (logconfig (Sample.context true true false false "" "" "" "" [])))
  /\ fst (selectTracer (Sample.context false true false false "" "" "" "" []))
     = Some (vm.StructLogger
               (logger.NewStructLogger
                  (logconfig (Sample.context false true false false "" "" "" "" []))))
  /\ fst (selectTracer (Sample.context false false false false "" "" "" "" [])) = None.
Proof.
  split; [|split].
  - pose proof (tracer_selection (Sample.context true true false false "" "" "" "" []))
      as (H & _). rewrite H; reflexivity.
  - pose proof (tracer_selection (Sample.context false true false false "" "" "" "" []))
      as (_ & H & _). rewrite H; reflexivity.
  - pose proof (tracer_selection (Sample.context false false false false "" "" "" "" []))
      as (_ & _ & H & _). rewrite H; reflexivity.
Defined.

(** C9. Without the sender flag the sender is the address of the ASCII
    bytes of "sender", 0x000000000000000000000000000073656e646572; without
    the receiver flag the receiver is the address of the ASCII bytes of
    "receiver"; a flag that is given replaces the default by the address
    it spells. The sender is the origin of the execution configuration. *)
Theorem default_addresses (ctx : cli.Context) :
  (cli.SenderFlag ctx = "" ->
     sender ctx = repeat x00 14 ++ bytes_of "sender")
  /\ (cli.ReceiverFlag ctx = "" ->
     receiver ctx = repeat x00 12 ++ bytes_of "receiver")
  /\ (nonempty (cli.SenderFlag ctx) = true ->
     sender ctx = common.HexToAddress (cli.SenderFlag ctx))
  /\ (nonempty (cli.ReceiverFlag ctx) = true ->
     receiver ctx = common.HexToAddress (cli.ReceiverFlag ctx))
  /\ fmt.Sprintx (repeat x00 14 ++ bytes_of "sender")
     = "0x000000000000000000000000000073656e646572"
  /\ fmt.Sprintx (repeat x00 12 ++ bytes_of "receiver")
     = "0x0000000000000000000000007265636569766572"
  /\ (forall g cc, runtime.Origin (runtimeConfig ctx g cc) = sender ctx).
Proof.
  unfold sender, receiver. split; [|split; [|split; [|split; [|split; [|split]]]]].
  - now intros ->.
  - now intros ->.
  - now intros ->.
  - now intros ->.
  - reflexivity.
  - reflexivity.
  - reflexivity.
Qed.

Lemma default_addresses_witness :
  sender (Sample.context false false false false "" "" "" "" [])
  = repeat x00 14 ++ bytes_of "sender"
  /\ receiver (Sample.context false false false false "" "" "" "" [])
     = repeat x00 12 ++ bytes_of "receiver".
Proof.
  pose proof (default_addresses (Sample.context false false false false "" "" "" "" []))
    as (Hs & Hr & _).
  split; [apply Hs | apply Hr]; reflexivity.
Defined.

(** C4. The gas limit of the execution configuration is the gas limit of
    the genesis whenever that is not zero, whatever the gas flag says, and
    the value of the gas flag when it is zero, which it is when no genesis
    file is given; every invocation of the engine in the run is given that
    configuration. *)
Theorem initial_gas_from_genesis host ctx p r p'
    (Hcfg : configure host ctx p = Val r p') :
  let cfg := runtimeConfig ctx (genesisConfig r) (chainConfig r) in
  (core.GasLimit (genesisConfig r) <> 0 ->
     runtime.GasLimit cfg = core.GasLimit (genesisConfig r))
  /\ (core.GasLimit (genesisConfig r) = 0 ->
     runtime.GasLimit cfg = cli.GasFlag ctx)
  /\ (cli.GenesisFlag ctx = "" -> runtime.GasLimit cfg = cli.GasFlag ctx)
  /\ (forall e m,
     In (e, m) (invocations (trace (final (runCmd host ctx p)))) ->
     In (e, m) (invocations (trace p)) \/ config_of e = cfg).
Proof.
  intros cfg. unfold cfg at 1 2 3. unfold runtimeConfig, initialGas. cbn [runtime.GasLimit].
  split; [|split; [|split]].
  - intros H. apply Z.eqb_neq in H. now rewrite H.
  - intros H. now rewrite H.
  - intros H. apply configure_Val in Hcfg as (p1 & Ho & _).
    unfold openState in Ho. rewrite H in Ho. simpl in Ho.
    injection Ho as <- _ _. reflexivity.
  - intros e m Hin. rewrite (runCmd_invocations _ _ _ _ _ Hcfg) in Hin.
    apply in_app_or in Hin as [Hin|Hin]; [now left | right].
    apply in_map_iff in Hin as (m' & [= <- _] & _).
    unfold entry. now destruct (cli.CreateFlag ctx).
Qed.

Lemma initial_gas_from_genesis_witness :
  exists r p',
    configure Sample.host
      (Sample.context false false false false "genesis.json" "" "6001" "" [])
      Sample.start = Val r p'
    /\ runtime.GasLimit
         (runtimeConfig
            (Sample.context false false false false "genesis.json" "" "6001" "" [])
            (genesisConfig r) (chainConfig r)) = 5000.
Proof.
  eexists. eexists. split; [vm_compute; reflexivity|].
  refine (proj1 (initial_gas_from_genesis Sample.host
            (Sample.context false false false false "genesis.json" "" "6001" "" [])
            Sample.start _ _ eq_refl) _).
  vm_compute. discriminate.
Defined.

(** C6. In benchmark mode the unit of work runs once and then once more
    for every iteration of every further round of the benchmark, each run
    on the process the previous one left, and the output, gas left and
    error that [timedExec] returns are those of the last of these runs;
    outside benchmark mode it runs exactly once, the statistics are the
    differences of the clock and of the allocation counters across that
    one run, and its output, gas left and error are returned. *)
Theorem timedExec_returns_last_run host (execFunc : Exec) p :
  let n := list_sum (testing_rounds host) in
  let last := execFunc (after execFunc n p) in
  let once := execFunc p in
  (exists stats,
     timedExec host true execFunc p
     = Val (output_of (fst last), gasLeft_of (fst last), stats, err_of (fst last))
           (after execFunc (S n) p))
  /\ timedExec host false execFunc p
     = Val (output_of (fst once), gasLeft_of (fst once),
            {| time := now (machine (snd once)) - now (machine p);
               allocs :=
                 int64 (uint64 (Mallocs (machine (snd once)) - Mallocs (machine p)));
               bytesAllocated :=
                 int64 (uint64 (TotalAlloc (machine (snd once))
                                - TotalAlloc (machine p))) |},
            err_of (fst once))
           (after execFunc 1 p).
Proof.
  intros n last once. split.
  - apply timedExec_bench.
  - apply timedExec_once.
Qed.

(** C2. In create mode every invocation of the engine in the run is of
    its create entry point, and the byte string it is given is the
    resolved code followed by the resolved input. *)
Theorem create_input_is_code_then_input host ctx p r p'
    (Hcfg : configure host ctx p = Val r p')
    (Hcreate : cli.CreateFlag ctx = true) :
  (forall q, loadCode host ctx q = Val (code r) q)
  /\ (forall q, loadInput host ctx q = Val (input r) q)
  /\ exists m ms,
       invocations (trace (final (runCmd host ctx p)))
       = invocations (trace p)
         ++ map (pair (Create (code r ++ input r)
                         (runtimeConfig ctx (genesisConfig r) (chainConfig r))))
              (m :: ms).
Proof.
  pose proof (configure_Val _ _ _ _ _ Hcfg) as (p1 & _ & Hc & _ & Hi).
  split; [exact Hc | split; [exact Hi |]].
  rewrite (runCmd_invocations _ _ _ _ _ Hcfg).
  destruct (repetitions_pos host ctx) as [k ->].
  unfold entry. rewrite Hcreate. cbn [machines]. eauto.
Qed.

Lemma create_input_is_code_then_input_witness :
  exists r p' m ms,
    configure Sample.host
      (Sample.context false false true false "" "" "6001" "0x02" [])
      Sample.start = Val r p'
    /\ invocations
         (trace (final (runCmd Sample.host
            (Sample.context false false true false "" "" "6001" "0x02" [])
            Sample.start)))
       = map (pair (Create [x60; x01; x02]
                      (runtimeConfig
                         (Sample.context false false true false "" "" "6001" "0x02" [])
                         (genesisConfig r) (chainConfig r))))
           (m :: ms).
Proof.
  destruct (create_input_is_code_then_input Sample.host
              (Sample.context false false true false "" "" "6001" "0x02" [])
              Sample.start _ _ eq_refl eq_refl) as (_ & _ & m & ms & H).
  eexists. eexists. exists m, ms. split; [reflexivity | exact H].
Defined.

Lemma GetCode_SetCode (addr c : list byte) (s : gmap (list byte) state.Account) :
  state.GetCode addr (state.SetCode addr c s) = c.
Proof. unfold state.GetCode, state.SetCode. now rewrite lookup_insert_eq. Qed.

Lemma GetCode_CreateAccount_other (a b : list byte) (s : gmap (list byte) state.Account) :
  a <> b -> state.GetCode b (state.CreateAccount a s) = state.GetCode b s.
Proof.
  intros Hne. unfold state.GetCode, state.CreateAccount.
  destruct (s !! a); now rewrite lookup_insert_ne.
Qed.

Lemma GetCode_CreateAccount (a : list byte) (s : gmap (list byte) state.Account) :
  state.GetCode a (state.CreateAccount a s) = [].
Proof.
  unfold state.GetCode, state.CreateAccount.
  destruct (s !! a); now rewrite lookup_insert_eq.
Qed.

(** C3, as the code has it. In call mode every invocation of the engine
    in the run is of its call entry point at the receiver, with the
    resolved input. The store is written before the invocation whatever
    the code: the account of the sender is created on the store that was
    opened from the genesis. When the resolved code is not empty, the
    first invocation starts on that store with the code set at the
    receiver, so the code of the receiver is the resolved code. When the
    resolved code is empty, no code is set and the first invocation starts
    on the machine exactly as the configuration left it: the receiver has
    the code that the genesis gives it if it is not the sender, and no
    code at all if it is the sender, whose account is created anew. *)
Theorem call_installs_code host ctx p r p'
    (Hcfg : configure host ctx p = Val r p')
    (Hcall : cli.CreateFlag ctx = false) :
  let genesisStore := core.Alloc (genesisConfig r) in
  let opened := state.CreateAccount (sender ctx) genesisStore in
  exists m ms,
    invocations (trace (final (runCmd host ctx p)))
    = invocations (trace p)
      ++ map (pair (Call (receiver ctx) (input r)
                      (runtimeConfig ctx (genesisConfig r) (chainConfig r))))
           (m :: ms)
    /\ statedb (machine p') = opened
    /\ (code r <> [] ->
        statedb m = state.SetCode (receiver ctx) (code r) opened
        /\ state.GetCode (receiver ctx) (statedb m) = code r)
    /\ (code r = [] ->
        m = machine p' /\ statedb m = opened
        /\ (receiver ctx <> sender ctx ->
            state.GetCode (receiver ctx) (statedb m)
            = state.GetCode (receiver ctx) genesisStore)
        /\ (receiver ctx = sender ctx ->
            state.GetCode (receiver ctx) (statedb m) = [])).
Proof.
  intros genesisStore opened. pose proof (configure_statedb _ _ _ _ _ Hcfg) as Hst.
  fold genesisStore opened in Hst.
  rewrite (runCmd_invocations _ _ _ _ _ Hcfg).
  destruct (repetitions_pos host ctx) as [k ->].
  unfold entry, dispatched. rewrite Hcall. cbn [machines].
  eexists. eexists. split; [reflexivity|]. split; [exact Hst|]. split.
  - intros Hne. destruct (code r) as [|c0 rest] eqn:E; [contradiction|].
    assert ((0 <? len (c0 :: rest)) = true) as -> by (apply Z.ltb_lt; unfold len; simpl; lia).
    simpl. rewrite Hst. split; [reflexivity | apply GetCode_SetCode].
  - intros ->. split; [reflexivity|]. split; [exact Hst|].
    change (0 <? len []) with false. cbv iota. rewrite Hst. unfold opened. split.
    + intros Hne. apply GetCode_CreateAccount_other. congruence.
    + intros ->. apply GetCode_CreateAccount.
Qed.

Lemma call_installs_code_witness :
  exists r p' m ms,
    configure Sample.host
      (Sample.context false false false true "" "code.hex" "" "" [])
      Sample.start = Val r p'
    /\ invocations
         (trace (final (runCmd Sample.host
            (Sample.context false false false true "" "code.hex" "" "" [])
            Sample.start)))
       = map (pair (Call (repeat x00 12 ++ bytes_of "receiver") []
                      (runtimeConfig
                         (Sample.context false false false true "" "code.hex" "" "" [])
                         (genesisConfig r) (chainConfig r))))
           (m :: ms)
    /\ state.GetCode (repeat x00 12 ++ bytes_of "receiver") (statedb m) = [x60; x01].
Proof.
  destruct (call_installs_code Sample.host
              (Sample.context false false false true "" "code.hex" "" "" [])
              Sample.start _ _ eq_refl eq_refl) as (m & ms & H & _ & Hcode & _).
  eexists. eexists. exists m, ms. split; [reflexivity|]. split; [exact H|].
  apply Hcode. discriminate.
Defined.

(** C3, as it is claimed, fails in its last part: with empty resolved
    code the store is still written before the invocation. The genesis
    gives the receiver the code 0x6002 and the sender flag names the
    receiver. No code is resolved, and the one invocation of the run, a
    call at the receiver, starts on a store in which the receiver has no
    code: the creation of the account of the sender has replaced the
    account of the genesis. *)
Lemma empty_code_run_still_writes_store :
  cli.CreateFlag Cases.sameAccount = false
  /\ sender Cases.sameAccount = receiver Cases.sameAccount
  /\ configure seededHost Cases.sameAccount Sample.start
     = Val Cases.sameAccount_resolved Cases.sameAccount_configured
  /\ code Cases.sameAccount_resolved = []
  /\ invocations (trace (final (runCmd seededHost Cases.sameAccount Sample.start)))
     = [(Call (receiver Cases.sameAccount) []
           (runtimeConfig Cases.sameAccount
              (genesisConfig Cases.sameAccount_resolved)
              (chainConfig Cases.sameAccount_resolved)),
         machine Cases.sameAccount_configured)]
  /\ state.GetCode (receiver Cases.sameAccount)
       (core.Alloc (genesisConfig Cases.sameAccount_resolved)) = [x60; x02]
  /\ state.GetCode (receiver Cases.sameAccount)
       (statedb (machine Cases.sameAccount_configured)) = []
  /\ statedb (machine Cases.sameAccount_configured)
     <> core.Alloc (genesisConfig Cases.sameAccount_resolved).
Proof.
  split; [reflexivity|].
  split; [vm_compute; reflexivity|].
  split; [vm_compute; reflexivity|].
  split; [reflexivity|].
  split; [vm_compute; reflexivity|].
  split; [vm_compute; reflexivity|].
  split; [vm_compute; reflexivity|].
  intros H.
  apply (f_equal (state.GetCode (receiver Cases.sameAccount))) in H.
  vm_compute in H. discriminate H.
Qed.

(** *** Validation of the length *)

Lemma odd_len b : negb (Z.rem (len b) 2 =? 0) = Z.odd (len b).
Proof.
  unfold len. rewrite Z.rem_mod_nonneg by lia. rewrite Zmod_odd.
  now destruct (Z.odd _).
Qed.

Lemma loadCode_odd host ctx h
    (Hflag : nonempty (cli.CodeFileFlag ctx) || nonempty (cli.CodeFlag ctx) = true)
    (Hread : forall q, readHexcode host ctx q = Val h q)
    (Hodd : Z.odd (len (bytes.TrimSpace h)) = true) q :
  loadCode host ctx q
  = Halted (OsExit 1)
      (logged (Stdout ("Invalid input length for hex data ("
                       ++ fmt.Sprintd (len (bytes.TrimSpace h)) ++ ")" ++ nl)) q).
Proof.
  unfold loadCode. rewrite Hflag. rewrite (bind_Val _ _ _ _ _ (Hread q)).
  now rewrite odd_len, Hodd.
Qed.

Lemma loadInput_odd host ctx h
    (Hread : forall q, readHexInput host ctx q = Val h q)
    (Hodd : Z.odd (len (bytes.TrimSpace h)) = true) q :
  loadInput host ctx q
  = Halted (OsExit 1) (logged (Stdout ("input length must be even" ++ nl)) q).
Proof.
  unfold loadInput. rewrite (bind_Val _ _ _ _ _ (Hread q)).
  now rewrite odd_len, Hodd.
Qed.

Lemma configure_halts_at_code host ctx p :
  (forall q, exists hlt q', loadCode host ctx q = Halted hlt q') ->
  exists hlt q', configure host ctx p = Halted hlt q'.
Proof.
  intros Hc. unfold configure, mbind, M_bind.
  destruct (openState host ctx p) as [[g cc] p1|]; [|eauto].
  change (modify_statedb (state.CreateAccount (sender ctx)) p1)
    with (Val tt (created (sender ctx) p1)).
  cbv beta iota.
  destruct (Hc (created (sender ctx) p1)) as (hlt & q' & ->). eauto.
Qed.

Lemma configure_halts_at_input host ctx p :
  (forall q, exists hlt q', loadInput host ctx q = Halted hlt q') ->
  exists hlt q', configure host ctx p = Halted hlt q'.
Proof.
  intros Hi. unfold configure, mbind, M_bind.
  destruct (openState host ctx p) as [[g cc] p1|]; [|eauto].
  change (modify_statedb (state.CreateAccount (sender ctx)) p1)
    with (Val tt (created (sender ctx) p1)).
  cbv beta iota.
  destruct (loadCode host ctx _) as [c p2|]; [|eauto].
  destruct (startCPUProfile host ctx p2) as [prof p3|]; [|eauto].
  destruct (Hi p3) as (hlt & q' & ->). eauto.
Qed.

Lemma halted_configuration_is_quiet host ctx p :
  (exists hlt q, configure host ctx p = Halted hlt q) ->
  exists hlt q,
    runCmd host ctx p = Halted hlt q
    /\ invocations (trace q) = invocations (trace p).
Proof.
  intros (hlt & q & E). exists hlt, q. split.
  - now apply runCmd_not_configured.
  - pose proof (quiet_configure host ctx p) as Q. now rewrite E in Q.
Qed.

(** C5. When the hexadecimal string of the code, read as the code flags
    say, has an odd length once it is trimmed, the resolution of the code
    prints the length error and exits with status 1; likewise for the
    hexadecimal string of the input. In both cases the run ends without
    returning and without a single invocation of the engine, so no byte
    string, truncated or not, is ever executed. *)
Theorem odd_hex_is_rejected host ctx p h
    (Hodd : Z.odd (len (bytes.TrimSpace h)) = true) :
  (nonempty (cli.CodeFileFlag ctx) || nonempty (cli.CodeFlag ctx) = true ->
   readHexcode host ctx p = Val h p ->
   loadCode host ctx p
   = Halted (OsExit 1)
       (logged (Stdout ("Invalid input length for hex data ("
                        ++ fmt.Sprintd (len (bytes.TrimSpace h)) ++ ")" ++ nl)) p)
   /\ exists hlt q,
        runCmd host ctx p = Halted hlt q
        /\ invocations (trace q) = invocations (trace p))
  /\ (readHexInput host ctx p = Val h p ->
   loadInput host ctx p
   = Halted (OsExit 1) (logged (Stdout ("input length must be even" ++ nl)) p)
   /\ exists hlt q,
        runCmd host ctx p = Halted hlt q
        /\ invocations (trace q) = invocations (trace p)).
Proof.
  split.
  - intros Hflag Hread. apply readHexcode_Val in Hread as [_ Hread].
    split; [exact (loadCode_odd host ctx h Hflag Hread Hodd p)|].
    apply halted_configuration_is_quiet, configure_halts_at_code.
    intros q. rewrite (loadCode_odd host ctx h Hflag Hread Hodd q). eauto.
  - intros Hread. apply readHexInput_Val in Hread as [_ Hread].
    split; [exact (loadInput_odd host ctx h Hread Hodd p)|].
    apply halted_configuration_is_quiet, configure_halts_at_input.
    intros q. rewrite (loadInput_odd host ctx h Hread Hodd q). eauto.
Qed.

Lemma odd_hex_is_rejected_witness :
  (exists msg,
     loadCode Sample.host
       (Sample.context false false false false "" "odd.hex" "" "" []) Sample.start
     = Halted (OsExit 1) (logged (Stdout msg) Sample.start))
  /\ (exists hlt q,
     runCmd Sample.host
       (Sample.context false false false false "" "" "6001" "0x1" []) Sample.start
     = Halted hlt q
     /\ invocations (trace q) = []).
Proof.
  split.
  - eexists.
    refine (proj1 (proj1 (odd_hex_is_rejected Sample.host
              (Sample.context false false false false "" "odd.hex" "" "" [])
              Sample.start (bytes_of "600") eq_refl) eq_refl eq_refl)).
  - refine (proj2 (proj2 (odd_hex_is_rejected Sample.host
              (Sample.context false false false false "" "" "6001" "0x1" [])
              Sample.start (bytes_of "0x1") eq_refl) eq_refl)).
Defined.

(** *** The order of the code sources *)

Lemma even_len b : Z.even (len b) = true -> negb (Z.rem (len b) 2 =? 0) = false.
Proof. intros H. rewrite odd_len, <- Z.negb_even. now rewrite H. Qed.

Lemma nonempty_length s : (0 <? String.length s)%nat = nonempty s.
Proof. now destruct s. Qed.

Lemma loadCode_even host ctx h p
    (Hflag : nonempty (cli.CodeFileFlag ctx) || nonempty (cli.CodeFlag ctx) = true)
    (Hread : readHexcode host ctx p = Val h p)
    (Heven : Z.even (len (bytes.TrimSpace h)) = true) :
  loadCode host ctx p = Val (decoded h) p.
Proof.
  unfold loadCode. rewrite Hflag. rewrite (bind_Val _ _ _ _ _ Hread).
  now rewrite even_len.
Qed.

Lemma loadInput_even host ctx h p
    (Hread : readHexInput host ctx p = Val h p)
    (Heven : Z.even (len (bytes.TrimSpace h)) = true) :
  loadInput host ctx p = Val (decoded h) p.
Proof.
  unfold loadInput. rewrite (bind_Val _ _ _ _ _ Hread).
  now rewrite even_len.
Qed.

(** C1, as the code has it. The code-file flag comes first: when it is
    given, the hexadecimal string is read from the standard input if the
    flag is "-" and from the named file otherwise, whatever the inline
    code flag and the positional argument say. The inline code flag is
    used when the code-file flag is not given. The positional source is
    compiled only when neither flag is given, and without it the resolved
    code is empty. *)
Theorem code_resolution_precedence host ctx p :
  (forall h,
     cli.CodeFileFlag ctx = "-" ->
     os_Stdin host = inr h ->
     Z.even (len (bytes.TrimSpace h)) = true ->
     loadCode host ctx p = Val (decoded h) p)
  /\ (forall h,
     nonempty (cli.CodeFileFlag ctx) = true ->
     cli.CodeFileFlag ctx <> "-" ->
     os_ReadFile host (cli.CodeFileFlag ctx) = inr h ->
     Z.even (len (bytes.TrimSpace h)) = true ->
     loadCode host ctx p = Val (decoded h) p)
  /\ (cli.CodeFileFlag ctx = "" ->
     nonempty (cli.CodeFlag ctx) = true ->
     Z.even (len (bytes.TrimSpace (bytes_of (cli.CodeFlag ctx)))) = true ->
     loadCode host ctx p = Val (decoded (bytes_of (cli.CodeFlag ctx))) p)
  /\ (forall src bin,
     cli.CodeFileFlag ctx = "" ->
     cli.CodeFlag ctx = "" ->
     nonempty (cli.First ctx) = true ->
     os_ReadFile host (cli.First ctx) = inr src ->
     compiler_Compile host (cli.First ctx) src false = inr bin ->
     loadCode host ctx p = Val (common.Hex2Bytes bin) p)
  /\ (cli.CodeFileFlag ctx = "" ->
     cli.CodeFlag ctx = "" ->
     cli.First ctx = "" ->
     loadCode host ctx p = Val [] p).
Proof.
  split; [|split; [|split; [|split]]].
  - intros h Hdash Hin Heven. apply loadCode_even; [now rewrite Hdash | | exact Heven].
    unfold readHexcode. now rewrite Hdash, Hin.
  - intros h Hne Hdash Hin Heven. apply loadCode_even; [now rewrite Hne | | exact Heven].
    unfold readHexcode. apply String.eqb_neq in Hdash. now rewrite Hne, Hdash, Hin.
  - intros Hfile Hne Heven. apply loadCode_even; [now rewrite Hfile, Hne | | exact Heven].
    unfold readHexcode. now rewrite Hfile.
  - intros src bin Hfile Hcode Hfn Hsrc Hbin. unfold loadCode.
    now rewrite Hfile, Hcode, nonempty_length, Hfn, Hsrc, Hbin.
  - intros Hfile Hcode Hfn. unfold loadCode.
    now rewrite Hfile, Hcode, Hfn.
Qed.

Lemma code_resolution_precedence_witness :
  loadCode Sample.host
    (Sample.context false false false false "" "-" "6002" "" ["prog.easm"%string])
    Sample.start = Val [x60; x03] Sample.start
  /\ loadCode Sample.host
       (Sample.context false false false false "" "code.hex" "6002" "" ["prog.easm"%string])
       Sample.start = Val [x60; x01] Sample.start
  /\ loadCode Sample.host
       (Sample.context false false false false "" "" "6002" "" ["prog.easm"%string])
       Sample.start = Val [x60; x02] Sample.start
  /\ loadCode Sample.host
       (Sample.context false false false false "" "" "" "" ["prog.easm"%string])
       Sample.start = Val [x60; x05] Sample.start.
Proof.
  split; [|split; [|split]].
  - exact (proj1 (code_resolution_precedence Sample.host
             (Sample.context false false false false "" "-" "6002" "" ["prog.easm"%string])
             Sample.start) (bytes_of "0X6003") eq_refl eq_refl eq_refl).
  - refine (proj1 (proj2 (code_resolution_precedence Sample.host
             (Sample.context false false false false "" "code.hex" "6002" "" ["prog.easm"%string])
             Sample.start)) (bytes_of " 6001" ++ [x0a]) eq_refl _ eq_refl eq_refl).
    discriminate.
  - exact (proj1 (proj2 (proj2 (code_resolution_precedence Sample.host
             (Sample.context false false false false "" "" "6002" "" ["prog.easm"%string])
             Sample.start))) eq_refl eq_refl eq_refl).
  - exact (proj1 (proj2 (proj2 (proj2 (code_resolution_precedence Sample.host
             (Sample.context false false false false "" "" "" "" ["prog.easm"%string])
             Sample.start)))) (bytes_of "push 5") "6005"%string
             eq_refl eq_refl eq_refl eq_refl eq_refl).
Defined.

(** C1, as it is claimed, fails: with both flags given, the file named by
    the code-file flag holds 6001 and the inline code flag is 6002; the
    resolved code is that of the file. *)
Lemma inline_code_flag_yields_to_codefile :
  nonempty (cli.CodeFlag
              (Sample.context false false false false "" "code.hex" "6002" "" [])) = true
  /\ decoded (bytes_of (cli.CodeFlag
                (Sample.context false false false false "" "code.hex" "6002" "" [])))
     = [x60; x02]
  /\ loadCode Sample.host
       (Sample.context false false false false "" "code.hex" "6002" "" [])
       Sample.start = Val [x60; x01] Sample.start.
Proof. repeat split. Qed.

(** *** What reaches the standard output *)

Lemma stdout_app tr1 tr2 : stdout (tr1 ++ tr2) = stdout tr1 ++ stdout tr2.
Proof. apply omap_app. Qed.

Lemma silent_ret {A} (a : A) : silent (mret a).
Proof. now intros p a' p' [= _ <-]. Qed.

Lemma silent_bind {A B} (m : M A) (k : A -> M B) :
  silent m -> (forall a, silent (k a)) -> silent (m ≫= k).
Proof.
  intros Hm Hk p b p'. unfold mbind, M_bind.
  destruct (m p) as [a p1|] eqn:E; [|discriminate].
  intros E2. rewrite (Hk _ _ _ _ E2). eapply Hm, E.
Qed.

Lemma silent_then_exit {A B} (m : M A) code : silent (m ≫= fun _ => @os_Exit B code).
Proof. intros p b p'. unfold mbind, M_bind. now destruct (m p). Qed.

Lemma silent_return_err {A} err : silent (@return_err A err).
Proof. now intros p a p'. Qed.

Lemma silent_emit e : (forall s, e <> Stdout s) -> silent (emit e).
Proof.
  intros He p a p' E. injection E as _ <-. simpl. rewrite stdout_app.
  destruct e; simpl; try apply app_nil_r. now destruct (He s).
Qed.

Lemma silent_set_statedb s : silent (set_statedb s).
Proof. intros p a p' E. now injection E as _ <-. Qed.

Lemma silent_modify_statedb f : silent (modify_statedb f).
Proof. intros p a p' E. now injection E as _ <-. Qed.

Create HintDb silent.
#[global] Hint Resolve silent_ret silent_return_err silent_set_statedb
  silent_modify_statedb : silent.

Ltac silent_step :=
  match goal with
  | |- silent (_ ≫= fun _ => os_Exit _) => apply silent_then_exit
  | |- silent (Fatalf _) => apply silent_then_exit
  | |- silent (_ ≫= _) => apply silent_bind; [| intros]
  | |- silent (emit _) => now apply silent_emit
  | |- silent (if ?b then _ else _) => destruct b
  | |- silent (match ?x with _ => _ end) => destruct x
  | |- silent _ => solve [auto with silent]
  end.

Section Silent.

Context (host : Host).

Lemma silent_readGenesis path : silent (readGenesis host path).
Proof. unfold readGenesis. repeat silent_step. Qed.

Lemma silent_openState ctx : silent (openState host ctx).
Proof.
  unfold openState. destruct (nonempty _).
  - apply silent_bind; [apply silent_readGenesis | intros; repeat silent_step].
  - repeat silent_step.
Qed.

Lemma silent_loadCode ctx : silent (loadCode host ctx).
Proof. intros p a p' E. now apply loadCode_Val in E as [-> _]. Qed.

Lemma silent_loadInput ctx : silent (loadInput host ctx).
Proof. intros p a p' E. now apply loadInput_Val in E as [-> _]. Qed.

Lemma silent_startCPUProfile ctx : silent (startCPUProfile host ctx).
Proof. unfold startCPUProfile. repeat silent_step. Qed.

Lemma silent_configure ctx : silent (configure host ctx).
Proof.
  unfold configure.
  apply silent_bind; [apply silent_openState | intros [g cc]].
  apply silent_bind; [apply silent_modify_statedb | intros _].
  apply silent_bind; [apply silent_loadCode | intros c].
  apply silent_bind; [apply silent_startCPUProfile | intros prof].
  apply silent_bind; [apply silent_loadInput | intros i].
  apply silent_ret.
Qed.

Lemma silent_writeMemProfile ctx : silent (writeMemProfile host ctx).
Proof. unfold writeMemProfile. repeat silent_step. Qed.

Lemma stdout_after_invoke e k p :
  stdout (trace (after (invoke host e) k p)) = stdout (trace p).
Proof.
  revert p. induction k as [|k IH]; intros p; simpl; [reflexivity|].
  rewrite IH, invoke_trace, stdout_app. apply app_nil_r.
Qed.

End Silent.

Lemma silent_writeDebug ctx l : silent (writeDebug ctx l).
Proof. unfold writeDebug. repeat silent_step. Qed.

Lemma silent_writeStats ctx g1 g2 st : silent (writeStats ctx g1 g2 st).
Proof. unfold writeStats. repeat silent_step. Qed.

Lemma bind_inv {A B} (m : M A) (k : A -> M B) p b q :
  (m ≫= k) p = Val b q -> exists a p1, m p = Val a p1 /\ k a p1 = Val b q.
Proof.
  unfold mbind, M_bind. destruct (m p) as [a p1|]; [|discriminate]. eauto.
Qed.

Lemma Encode_byte (c : byte) :
  let hi := Z.shiftr (byteZ c) 4 in
  let lo := Z.land (byteZ c) 15 in
  hex.fromHexChar (hex.digit hi) = Some hi
  /\ hex.fromHexChar (hex.digit lo) = Some lo
  /\ ofZ (Z.lor (Z.shiftl hi 4) lo) = c
  /\ isLowerHexDigit (hex.digit hi) = true
  /\ isLowerHexDigit (hex.digit lo) = true.
Proof. destruct c; vm_compute; auto. Qed.

Lemma Decode_Encode (b : list byte) : hex.Decode (hex.Encode b) = b.
Proof.
  induction b as [|c rest IH]; [reflexivity|].
  destruct (Encode_byte c) as (Hhi & Hlo & Hc & _).
  cbn [hex.Encode hex.Decode]. now rewrite Hhi, Hlo, Hc, IH.
Qed.

Lemma Encode_lower (b : list byte) : forallb isLowerHexDigit (hex.Encode b) = true.
Proof.
  induction b as [|c rest IH]; [reflexivity|].
  destruct (Encode_byte c) as (_ & _ & _ & Hhi & Hlo).
  cbn [hex.Encode forallb]. now rewrite Hhi, Hlo, IH.
Qed.

Lemma printResult_stdout tracer output err p a p' :
  printResult tracer output err p = Val a p' ->
  stdout (trace p')
  = stdout (trace p)
    ++ match tracer with None => resultLines output err | Some _ => [] end.
Proof.
  unfold printResult, resultLines. destruct tracer as [t|].
  - intros [= _ <-]. now rewrite app_nil_r.
  - destruct err as [e|]; intros E; injection E as _ <-; simpl;
      rewrite ?stdout_app; simpl; now rewrite <- ?app_assoc.
Qed.

Lemma dumpState_stdout host ctx p a p' :
  dumpState host ctx p = Val a p' ->
  stdout (trace p')
  = stdout (trace p)
    ++ (if cli.DumpFlag ctx
        then [String.append (statedb_Dump host (statedb (committed host (machine p)))) nl]
        else [])
  /\ machine p' = dumped host ctx (machine p).
Proof.
  unfold dumpState, dumped. destruct (cli.DumpFlag ctx).
  - intros E. injection E as _ <-. simpl. now rewrite stdout_app.
  - intros [= _ <-]. now rewrite app_nil_r.
Qed.

Lemma selectTracer_None ctx :
  fst (selectTracer ctx) = None
  <-> cli.MachineFlag ctx = false /\ cli.DebugFlag ctx = false.
Proof.
  unfold selectTracer.
  destruct (cli.MachineFlag ctx), (cli.DebugFlag ctx); simpl; split;
    try discriminate; try tauto; intros [? ?]; discriminate.
Qed.

(** The standard output of a run that returns. *)
Lemma runCmd_stdout host ctx p r p' output gas stats err q1 q
    (Hcfg : configure host ctx p = Val r p')
    (Hexec : timedExec host (cli.BenchFlag ctx) (invoke host (entry ctx r))
               (dispatched ctx r p') = Val (output, gas, stats, err) q1)
    (Hrun : runCmd host ctx p = Val tt q) :
  stdout (trace q)
  = stdout (trace p)
    ++ (if cli.DumpFlag ctx
        then [String.append (statedb_Dump host (statedb (committed host (machine q1)))) nl]
        else [])
    ++ match fst (selectTracer ctx) with
       | None => resultLines output err
       | Some _ => []
       end.
Proof.
  rewrite (runCmd_configured _ _ _ _ _ Hcfg) in Hrun. unfold execute in Hrun.
  destruct (selectTracer ctx) as [tracer debugLogger]. cbn [fst].
  rewrite (bind_Val _ _ _ _ _ (dispatch_Val host ctx r p')) in Hrun.
  rewrite (bind_Val _ _ _ _ _ Hexec) in Hrun.
  apply bind_inv in Hrun as (a1 & s1 & H1 & Hrun).
  apply bind_inv in Hrun as (a2 & s2 & H2 & Hrun).
  apply bind_inv in Hrun as (a3 & s3 & H3 & Hrun).
  apply bind_inv in Hrun as (a4 & s4 & H4 & Hrun).
  apply bind_inv in Hrun as (a5 & s5 & H5 & Hrun).
  assert (Hq : stdout (trace q) = stdout (trace s5)).
  { destruct (profiling r).
    - injection Hrun as <-. simpl. rewrite stdout_app. apply app_nil_r.
    - now injection Hrun as <-. }
  rewrite Hq, (printResult_stdout _ _ _ _ _ _ H5).
  rewrite (silent_writeStats _ _ _ _ _ _ _ H4), (silent_writeDebug _ _ _ _ _ H3).
  rewrite (silent_writeMemProfile _ _ _ _ _ H2).
  destruct (dumpState_stdout _ _ _ _ _ H1) as [-> _].
  destruct (timedExec_after host (cli.BenchFlag ctx) (invoke host (entry ctx r))
              (dispatched ctx r p')) as [res T].
  rewrite T in Hexec. injection Hexec as _ <-.
  rewrite stdout_after_invoke, dispatched_trace.
  rewrite (silent_configure _ _ _ _ _ Hcfg). now rewrite <- app_assoc.
Qed.

(** C7, as the code has it. In a run that returns, with neither the
    machine flag nor the debug flag, the harness ends its standard output
    with the result line and, if the execution returned an error, a second
    line made of " error: " and the message. The result line is 0x, the
    lowercase hexadecimal digits of the output bytes and a line feed when
    there is at least one output byte, and the line feed alone when the
    output is empty. Before these lines the harness has written only the
    state dump, of the store once it is committed and its root computed,
    and only with the dump flag. With either tracer flag the
    harness prints no result line: nothing of its own follows the dump. *)
Theorem result_line_without_tracer host ctx p r p' output gas stats err q1 q
    (Hcfg : configure host ctx p = Val r p')
    (Hexec : timedExec host (cli.BenchFlag ctx) (invoke host (entry ctx r))
               (dispatched ctx r p') = Val (output, gas, stats, err) q1)
    (Hrun : runCmd host ctx p = Val tt q) :
  let dump :=
    if cli.DumpFlag ctx
    then [String.append (statedb_Dump host (statedb (committed host (machine q1)))) nl]
    else [] in
  let errLine :=
    match err with
    | Some e => [String.append " error: " (String.append e nl)]
    | None => []
    end in
  (cli.MachineFlag ctx = false -> cli.DebugFlag ctx = false -> output <> [] ->
     stdout (trace q)
     = stdout (trace p) ++ dump
       ++ String.append "0x" (String.append (string_of (hex.Encode output)) nl)
          :: errLine)
  /\ (cli.MachineFlag ctx = false -> cli.DebugFlag ctx = false -> output = [] ->
     stdout (trace q) = stdout (trace p) ++ dump ++ nl :: errLine)
  /\ (cli.MachineFlag ctx || cli.DebugFlag ctx = true ->
     stdout (trace q) = stdout (trace p) ++ dump)
  /\ hex.Decode (hex.Encode output) = output
  /\ forallb isLowerHexDigit (hex.Encode output) = true.
Proof.
  intros dump errLine.
  pose proof (runCmd_stdout _ _ _ _ _ _ _ _ _ _ _ Hcfg Hexec Hrun) as H.
  fold dump in H. split; [|split; [|split; [|split]]].
  - intros Hm Hd Hne. rewrite H.
    rewrite (proj2 (selectTracer_None ctx) (conj Hm Hd)).
    unfold resultLines, fmt.Sprintx. destruct output; [contradiction | reflexivity].
  - intros Hm Hd ->. rewrite H.
    now rewrite (proj2 (selectTracer_None ctx) (conj Hm Hd)).
  - intros Hflag. rewrite H. destruct (fst (selectTracer ctx)) eqn:E.
    + now rewrite app_nil_r.
    + apply selectTracer_None in E as [Hm Hd]. now rewrite Hm, Hd in Hflag.
  - apply Decode_Encode.
  - apply Encode_lower.
Qed.

Lemma result_line_without_tracer_witness :
  exists q,
    runCmd Sample.host
      (Sample.context false false false false "" "code.hex" "" "0x01" [])
      Sample.start = Val tt q
    /\ stdout (trace q) = [String.append "0x01" nl].
Proof.
  eexists. split; [vm_compute; reflexivity|].
  eassert (Hcfg : configure Sample.host
             (Sample.context false false false false "" "code.hex" "" "0x01" [])
             Sample.start = Val _ _) by (vm_compute; reflexivity).
  match type of Hcfg with
  | _ = Val ?r ?p' =>
    eassert (Hexec : timedExec Sample.host false
               (invoke Sample.host
                  (entry (Sample.context false false false false "" "code.hex" "" "0x01" []) r))
               (dispatched
                  (Sample.context false false false false "" "code.hex" "" "0x01" []) r p')
             = Val ([x01], _, _, None) _) by (vm_compute; reflexivity)
  end.
  refine (proj1 (result_line_without_tracer _ _ _ _ _ _ _ _ _ _ _ Hcfg Hexec _)
            eq_refl eq_refl _).
  - vm_compute; reflexivity.
  - discriminate.
Defined.

(** C7, as it is claimed, fails: without code and without input the
    execution returns no output byte and an error; neither tracer flag is
    set, and the standard output is an empty line and the error line, with
    no 0x. *)
Lemma empty_output_prints_no_prefix :
  cli.MachineFlag (Sample.context false false false false "" "" "" "" []) = false
  /\ cli.DebugFlag (Sample.context false false false false "" "" "" "" []) = false
  /\ (exists r p' gas stats q1,
        configure Sample.host
          (Sample.context false false false false "" "" "" "" []) Sample.start
        = Val r p'
        /\ timedExec Sample.host false
             (invoke Sample.host
                (entry (Sample.context false false false false "" "" "" "" []) r))
             (dispatched (Sample.context false false false false "" "" "" "" []) r p')
           = Val ([], gas, stats, Some "no code at receiver"%string) q1)
  /\ stdout (trace (final (runCmd Sample.host
               (Sample.context false false false false "" "" "" "" [])
               Sample.start)))
     = [nl; String.append " error: no code at receiver" nl]
  /\ stdout (trace (final (runCmd Sample.host
               (Sample.context false false false false "" "" "" "" [])
               Sample.start)))
     <> [String.append "0x" nl; String.append " error: no code at receiver" nl].
Proof.
  split; [reflexivity|]. split; [reflexivity|]. split.
  - do 5 eexists. split; [vm_compute; reflexivity | vm_compute; reflexivity].
  - split; [vm_compute; reflexivity | vm_compute; discriminate].
Qed.

(** *** The prefix of a hexadecimal string *)

Lemma hex_digit_is_not_x (c : byte) :
  isHexDigit c = true -> (byteZ c =? 120) || (byteZ c =? 88) = false.
Proof. destruct c; vm_compute; congruence. Qed.

Lemma has0xPrefix_digits (d : list byte) :
  forallb isHexDigit d = true -> common.has0xPrefix d = false.
Proof.
  destruct d as [|c0 [|c1 rest]]; try reflexivity.
  cbn [forallb common.has0xPrefix]. intros H.
  apply andb_prop in H as [_ H]. apply andb_prop in H as [H _].
  rewrite (hex_digit_is_not_x c1 H). apply andb_false_r.
Qed.

Lemma Decode_digits_length (d : list byte) :
  forallb isHexDigit d = true ->
  Z.even (len d) = true ->
  len (hex.Decode d) = len d / 2.
Proof.
  assert (H : forall n (d : list byte), (List.length d <= n)%nat ->
            forallb isHexDigit d = true -> Z.even (len d) = true ->
            len (hex.Decode d) = len d / 2).
  { clear d. induction n as [|n IH]; intros d Hn Hd He.
    - destruct d; [reflexivity | simpl in Hn; lia].
    - destruct d as [|c0 [|c1 rest]]; [reflexivity | discriminate He |].
      cbn [forallb] in Hd.
      apply andb_prop in Hd as [H0 Hd]. apply andb_prop in Hd as [H1 Hd].
      unfold isHexDigit in H0, H1. cbn [hex.Decode].
      destruct (hex.fromHexChar c0); [|discriminate].
      destruct (hex.fromHexChar c1); [|discriminate].
      assert (Hr : Z.even (len rest) = true).
      { unfold len in *. cbn [List.length] in He.
        rewrite !Nat2Z.inj_succ in He. rewrite <- Z.add_1_r, <- Z.add_1_r in He.
        replace (Z.of_nat (List.length rest) + 1 + 1)
          with (Z.of_nat (List.length rest) + 2 * 1) in He by lia.
        now rewrite Z.even_add_mul_2 in He. }
      specialize (IH rest ltac:(simpl in Hn; lia) Hd Hr).
      unfold len in *. cbn [List.length]. rewrite !Nat2Z.inj_succ, IH.
      replace (Z.succ (Z.succ (Z.of_nat (List.length rest))))
        with (Z.of_nat (List.length rest) + 1 * 2) by lia.
      rewrite Z.div_add by lia. lia. }
  apply (H (List.length d)). lia.
Qed.

Lemma string_of_bytes (b : list byte) : bytes_of (string_of b) = b.
Proof. apply list_byte_of_string_of_list_byte. Qed.

Lemma even_odd_false z : Z.even z = true -> Z.odd z = false.
Proof. intros H. now rewrite <- Z.negb_even, H. Qed.

Lemma FromHex_digits (d : list byte) :
  forallb isHexDigit d = true ->
  Z.even (len d) = true ->
  common.FromHex (string_of d) = hex.Decode d.
Proof.
  intros Hd He. unfold common.FromHex. cbv zeta. rewrite string_of_bytes.
  rewrite (has0xPrefix_digits d Hd). now rewrite (even_odd_false _ He).
Qed.

Lemma FromHex_prefixed (x : byte) (d : list byte) :
  (byteZ x =? 120) || (byteZ x =? 88) = true ->
  Z.even (len d) = true ->
  common.FromHex (string_of (x30 :: x :: d)) = hex.Decode d.
Proof.
  intros Hx He. unfold common.FromHex. cbv zeta. rewrite string_of_bytes.
  cbn [common.has0xPrefix]. rewrite Hx.
  change (byteZ x30 =? 48) with true. cbn [andb].
  change (skipn 2 (x30 :: x :: d)) with d.
  now rewrite (even_odd_false _ He).
Qed.

Lemma even_prefixed (x y : byte) (d : list byte) :
  Z.even (len d) = true -> Z.even (len (x :: y :: d)) = true.
Proof.
  unfold len. cbn [List.length]. rewrite !Nat2Z.inj_succ. intros H.
  replace (Z.succ (Z.succ (Z.of_nat (List.length d))))
    with (Z.of_nat (List.length d) + 2 * 1) by lia.
  now rewrite Z.even_add_mul_2.
Qed.

(** What a string of hexadecimal digits of even length resolves to, with
    or without the prefix. *)
Lemma decoded_digits (h d : list byte) :
  forallb isHexDigit d = true ->
  Z.even (len d) = true ->
  bytes.TrimSpace h = d
  \/ bytes.TrimSpace h = bytes_of "0x" ++ d
  \/ bytes.TrimSpace h = bytes_of "0X" ++ d ->
  Z.even (len (bytes.TrimSpace h)) = true /\ decoded h = hex.Decode d.
Proof.
  intros Hd He Ht. unfold decoded. destruct Ht as [-> | [-> | ->]].
  - split; [exact He | now apply FromHex_digits].
  - split; [now apply even_prefixed | now apply FromHex_prefixed].
  - split; [now apply even_prefixed | now apply FromHex_prefixed].
Qed.

(** C10. A hexadecimal string for the code or for the input that, once
    trimmed, is an even number of hexadecimal digits, alone or after 0x or
    0X, is accepted, and it resolves to the bytes that the digits spell:
    the same bytes with the prefix as without it, one byte for every two
    digits. *)
Theorem hex_prefix_is_stripped host ctx p h d
    (Hdigits : forallb isHexDigit d = true)
    (Heven : Z.even (len d) = true)
    (Htrim : bytes.TrimSpace h = d
             \/ bytes.TrimSpace h = bytes_of "0x" ++ d
             \/ bytes.TrimSpace h = bytes_of "0X" ++ d) :
  (nonempty (cli.CodeFileFlag ctx) || nonempty (cli.CodeFlag ctx) = true ->
   readHexcode host ctx p = Val h p ->
   loadCode host ctx p = Val (hex.Decode d) p)
  /\ (readHexInput host ctx p = Val h p ->
   loadInput host ctx p = Val (hex.Decode d) p)
  /\ len (hex.Decode d) = len d / 2.
Proof.
  destruct (decoded_digits h d Hdigits Heven Htrim) as [He Hdec].
  split; [|split].
  - intros Hflag Hread. rewrite <- Hdec. now apply loadCode_even.
  - intros Hread. rewrite <- Hdec. now apply loadInput_even.
  - now apply Decode_digits_length.
Qed.

Lemma hex_prefix_is_stripped_witness :
  loadCode Sample.host
    (Sample.context false false false false "" "-" "" "" []) Sample.start
  = Val [x60; x03] Sample.start
  /\ loadCode Sample.host
       (Sample.context false false false false "" "" "6003" "" []) Sample.start
     = Val [x60; x03] Sample.start
  /\ loadInput Sample.host
       (Sample.context false false false false "" "" "" "0x6003" []) Sample.start
     = Val [x60; x03] Sample.start.
Proof.
  split; [|split].
  - exact (proj1 (hex_prefix_is_stripped Sample.host
             (Sample.context false false false false "" "-" "" "" []) Sample.start
             (bytes_of "0X6003") (bytes_of "6003") eq_refl eq_refl
             (or_intror (or_intror eq_refl))) eq_refl eq_refl).
  - exact (proj1 (hex_prefix_is_stripped Sample.host
             (Sample.context false false false false "" "" "6003" "" []) Sample.start
             (bytes_of "6003") (bytes_of "6003") eq_refl eq_refl
             (or_introl eq_refl)) eq_refl eq_refl).
  - exact (proj1 (proj2 (hex_prefix_is_stripped Sample.host
             (Sample.context false false false false "" "" "" "0x6003" []) Sample.start
             (bytes_of "0x6003") (bytes_of "6003") eq_refl eq_refl
             (or_intror (or_introl eq_refl)))) eq_refl).
Defined.

(** ** Further properties of the harness *)

Lemma extends_refl p : extends p [] p.
Proof. split; [now rewrite app_nil_r | reflexivity]. Qed.

Lemma readGenesis_same host path p g p' :
  readGenesis host path p = Val g p' -> p' = p.
Proof.
  unfold readGenesis, mbind, M_bind.
  destruct (_ =? _)%nat; [discriminate|]. cbv beta iota.
  destruct (os_Open host path); [discriminate|].
  destruct (json_Decode host _); [discriminate|].
  now intros [= _ <-].
Qed.

Lemma openState_trace host ctx p x p1 :
  openState host ctx p = Val x p1 -> trace p1 = trace p.
Proof.
  unfold openState, mbind, M_bind. destruct (nonempty _).
  - destruct (readGenesis host _ p) as [gen p0|] eqn:E; [|discriminate].
    apply readGenesis_same in E as ->.
    intros E. injection E as _ <-. reflexivity.
  - intros E. injection E as _ <-. reflexivity.
Qed.

Lemma startCPUProfile_extends host ctx p b p' :
  startCPUProfile host ctx p = Val b p' ->
  extends p (startEvents ctx) p' /\ b = nonempty (cli.CPUProfileFlag ctx).
Proof.
  unfold startCPUProfile, startEvents, mbind, M_bind. destruct (nonempty _).
  - destruct (os_Create host _); [discriminate|].
    destruct (pprof_StartCPUProfile host _); [discriminate|].
    intros E. injection E as <- <-. split; [now split | reflexivity].
  - intros E. injection E as <- <-. split; [apply extends_refl | reflexivity].
Qed.

(** What a successful configuration has done to the process: the state is
    opened with the account of the sender created, and the only event is
    the start of the CPU profile, when one is asked for. *)
Lemma configure_trace host ctx p r p' :
  configure host ctx p = Val r p' ->
  trace p' = trace p ++ startEvents ctx
  /\ profiling r = nonempty (cli.CPUProfileFlag ctx).
Proof.
  intros E. apply configure_Val in E as (p1 & Ho & _ & Hp & _).
  apply startCPUProfile_extends in Hp as [[T _] Hb].
  simpl in T. rewrite (openState_trace _ _ _ _ _ Ho) in T. now split.
Qed.

Lemma invoke_machine host e p :
  machine (snd (invoke host e p)) = engine host e (machine p).
Proof.
  unfold invoke, engine. destruct e as [i cfg|a i cfg].
  - now destruct (runtime_Create host i cfg (machine p)) as [[[[o ad] g] er] m'].
  - now destruct (runtime_Call host a i cfg (machine p)) as [res m'].
Qed.

Lemma after_invoke_trace host e k p :
  trace (after (invoke host e) k p)
  = trace p ++ map (Invoke e) (machines (invoke host e) k p).
Proof.
  revert p. induction k as [|k IH]; intros p; simpl.
  - now rewrite app_nil_r.
  - rewrite IH, invoke_trace. now rewrite <- app_assoc.
Qed.

Lemma logs_nil p : logs [] p = p.
Proof. destruct p. unfold logs. simpl. now rewrite app_nil_r. Qed.

Lemma logs_logs evs1 evs2 p : logs evs2 (logs evs1 p) = logs (evs1 ++ evs2) p.
Proof. unfold logs. simpl. now rewrite app_assoc. Qed.

Lemma emit_logs e p : emit e p = Val tt (logs [e] p).
Proof. reflexivity. Qed.

Lemma dumpState_logs host ctx p :
  dumpState host ctx p
  = Val tt (logs (dumpEvents host ctx (machine p)) (afterDump host ctx p)).
Proof.
  unfold dumpState, dumpEvents, afterDump, dumped. destruct (cli.DumpFlag ctx).
  - reflexivity.
  - rewrite logs_nil. now destruct p.
Qed.

Lemma writeMemProfile_logs host ctx p :
  writeMemProfile host ctx p
  = match heapFailure host ctx with
    | Some msg => Halted (OsExit 1) (logs [Stdout msg] p)
    | None => Val tt (logs (heapEvents ctx) p)
    end.
Proof.
  unfold writeMemProfile, heapFailure, heapEvents. destruct (nonempty _).
  - destruct (os_Create host _); [reflexivity|].
    destruct (pprof_WriteHeapProfile host _); reflexivity.
  - now rewrite logs_nil.
Qed.

Lemma writeDebug_logs ctx p :
  writeDebug ctx (snd (selectTracer ctx)) p = Val tt (logs (debugEvents ctx) p).
Proof.
  unfold writeDebug, debugEvents, selectTracer.
  destruct (cli.DebugFlag ctx); [|now rewrite logs_nil].
  destruct (cli.MachineFlag ctx); cbn [snd];
    unfold logs, mbind, M_bind, mret, M_ret, emit; simpl;
    now rewrite <- ?app_assoc.
Qed.

Lemma writeStats_logs ctx g1 g2 st p :
  writeStats ctx g1 g2 st p = Val tt (logs (statsEvents ctx g1 g2 st) p).
Proof.
  unfold writeStats, statsEvents. destruct (_ || _); [reflexivity|].
  now rewrite logs_nil.
Qed.

Lemma printResult_logs ctx output err p :
  printResult (fst (selectTracer ctx)) output err p
  = Val tt (logs (resultEvents ctx output err) p).
Proof.
  unfold printResult, resultEvents, resultLines, selectTracer.
  destruct (cli.MachineFlag ctx); cbn [fst orb]; [now rewrite logs_nil|].
  destruct (cli.DebugFlag ctx); cbn [fst]; [now rewrite logs_nil|].
  destruct err; unfold logs, mbind, M_bind, mret, M_ret, Printf, emit; simpl;
    now rewrite <- ?app_assoc.
Qed.

(** The second half of [runCmd], once the timed execution has returned. *)
Lemma execute_logs host ctx r p' output gas stats err q1
    (Hexec : timedExec host (cli.BenchFlag ctx) (invoke host (entry ctx r))
               (dispatched ctx r p') = Val (output, gas, stats, err) q1) :
  execute host ctx r p'
  = match heapFailure host ctx with
    | Some msg =>
      Halted (OsExit 1)
        (logs (dumpEvents host ctx (machine q1) ++ [Stdout msg]) (afterDump host ctx q1))
    | None =>
      Val tt (logs (reportEvents host ctx r output gas stats err (machine q1))
                (afterDump host ctx q1))
    end.
Proof.
  unfold execute, reportEvents.
  rewrite (surjective_pairing (selectTracer ctx)).
  rewrite (bind_Val _ _ _ _ _ (dispatch_Val host ctx r p')).
  rewrite (bind_Val _ _ _ _ _ Hexec).
  rewrite (bind_Val _ _ _ _ _ (dumpState_logs host ctx q1)).
  unfold mbind at 1, M_bind at 1. rewrite writeMemProfile_logs.
  destruct (heapFailure host ctx) as [msg|].
  - now rewrite logs_logs.
  - rewrite (bind_Val _ _ _ _ _ (writeDebug_logs ctx _)).
    rewrite (bind_Val _ _ _ _ _ (writeStats_logs ctx _ _ _ _)).
    rewrite (bind_Val _ _ _ _ _ (printResult_logs ctx _ _ _)).
    destruct (profiling r).
    + rewrite emit_logs. now rewrite !logs_logs.
    + unfold mret, M_ret. rewrite !logs_logs. now rewrite app_nil_r.
Qed.

Section Keeps.

Context (sel : Event -> bool).

Lemma keeps_ret {A} (a : A) : keeps sel (mret a).
Proof. now intros p. Qed.

Lemma keeps_bind {A B} (m : M A) (k : A -> M B) :
  keeps sel m -> (forall a, keeps sel (k a)) -> keeps sel (m ≫= k).
Proof.
  intros Hm Hk p. specialize (Hm p). unfold mbind, M_bind.
  destruct (m p) as [a p'|h p']; simpl in *.
  - now rewrite Hk.
  - exact Hm.
Qed.

Lemma keeps_emit e : sel e = false -> keeps sel (emit e).
Proof.
  intros He p. simpl. rewrite List.filter_app. simpl. rewrite He. apply app_nil_r.
Qed.

Lemma keeps_os_Exit {A} code : keeps sel (@os_Exit A code).
Proof. now intros p. Qed.

Lemma keeps_return_err {A} err : keeps sel (@return_err A err).
Proof. now intros p. Qed.

Lemma keeps_set_statedb s : keeps sel (set_statedb s).
Proof. now intros p. Qed.

Lemma keeps_modify_statedb f : keeps sel (modify_statedb f).
Proof. now intros p. Qed.

(** The configuration writes to the two streams and starts the CPU
    profile; it adds no event of another kind. *)
Context (Hout : forall s, sel (Stdout s) = false)
        (Herr : forall s, sel (Stderr s) = false)
        (Hstart : forall path, sel (StartCPUProfile path) = false).

Ltac keeps_step :=
  match goal with
  | |- keeps _ (_ ≫= _) => apply keeps_bind; [| intros]
  | |- keeps _ (Fatalf _) => apply keeps_bind; [| intros]
  | |- keeps _ (Printf _) => apply keeps_emit, Hout
  | |- keeps _ (emit (Stderr _)) => apply keeps_emit, Herr
  | |- keeps _ (emit (StartCPUProfile _)) => apply keeps_emit, Hstart
  | |- keeps _ (os_Exit _) => apply keeps_os_Exit
  | |- keeps _ (return_err _) => apply keeps_return_err
  | |- keeps _ (mret _) => apply keeps_ret
  | |- keeps _ (set_statedb _) => apply keeps_set_statedb
  | |- keeps _ (modify_statedb _) => apply keeps_modify_statedb
  | |- keeps _ (if ?b then _ else _) => destruct b
  | |- keeps _ (match ?x with _ => _ end) => destruct x
  end.

Context (host : Host).

Lemma keeps_readGenesis path : keeps sel (readGenesis host path).
Proof. unfold readGenesis. repeat keeps_step. Qed.

Lemma keeps_openState ctx : keeps sel (openState host ctx).
Proof.
  unfold openState. destruct (nonempty _).
  - apply keeps_bind; [apply keeps_readGenesis | intros; repeat keeps_step].
  - repeat keeps_step.
Qed.

Lemma keeps_loadCode ctx : keeps sel (loadCode host ctx).
Proof.
  unfold loadCode, readHexcode. repeat keeps_step.
Qed.

Lemma keeps_startCPUProfile ctx : keeps sel (startCPUProfile host ctx).
Proof. unfold startCPUProfile. repeat keeps_step. Qed.

Lemma keeps_loadInput ctx : keeps sel (loadInput host ctx).
Proof. unfold loadInput, readHexInput. repeat keeps_step. Qed.

Lemma keeps_configure ctx : keeps sel (configure host ctx).
Proof.
  unfold configure.
  apply keeps_bind; [apply keeps_openState | intros [g cc]].
  apply keeps_bind; [apply keeps_modify_statedb | intros _].
  apply keeps_bind; [apply keeps_loadCode | intros c].
  apply keeps_bind; [apply keeps_startCPUProfile | intros prof].
  apply keeps_bind; [apply keeps_loadInput | intros i].
  apply keeps_ret.
Qed.

End Keeps.

Lemma abrupt_ret {A} (a : A) : abrupt (mret a).
Proof. now intros p h q. Qed.

Lemma abrupt_bind {A B} (m : M A) (k : A -> M B) :
  abrupt m -> (forall a, abrupt (k a)) -> abrupt (m ≫= k).
Proof.
  intros Hm Hk p h q. unfold mbind, M_bind.
  destruct (m p) as [a p'|h' p'] eqn:E.
  - apply Hk.
  - intros [= <- _]. eapply Hm, E.
Qed.

Lemma abrupt_emit e : abrupt (emit e).
Proof. now intros p h q. Qed.

Lemma abrupt_os_Exit {A} : abrupt (@os_Exit A 1).
Proof. now intros p h q [= <- _]. Qed.

Lemma abrupt_set_statedb s : abrupt (set_statedb s).
Proof. now intros p h q. Qed.

Lemma abrupt_modify_statedb f : abrupt (modify_statedb f).
Proof. now intros p h q. Qed.

Ltac abrupt_step :=
  match goal with
  | |- abrupt (_ ≫= _) => apply abrupt_bind; [| intros]
  | |- abrupt (Fatalf _) => apply abrupt_bind; [| intros]
  | |- abrupt (Printf _) => apply abrupt_emit
  | |- abrupt (emit _) => apply abrupt_emit
  | |- abrupt (os_Exit 1) => apply abrupt_os_Exit
  | |- abrupt (mret _) => apply abrupt_ret
  | |- abrupt (set_statedb _) => apply abrupt_set_statedb
  | |- abrupt (modify_statedb _) => apply abrupt_modify_statedb
  | |- abrupt (if ?b then _ else _) => destruct b
  | |- abrupt (match ?x with _ => _ end) => destruct x
  end.

Section Abrupt.

Context (host : Host).

Lemma abrupt_openState ctx : abrupt (openState host ctx).
Proof. unfold openState, readGenesis. repeat abrupt_step. Qed.

Lemma abrupt_startCPUProfile ctx : abrupt (startCPUProfile host ctx).
Proof. unfold startCPUProfile. repeat abrupt_step. Qed.

Lemma abrupt_loadInput ctx : abrupt (loadInput host ctx).
Proof. unfold loadInput, readHexInput. repeat abrupt_step. Qed.

(** The resolution of the code is the one stage that can make [runCmd]
    return an error: the positional source could not be read or compiled.
    It has printed nothing then. *)
Lemma loadCode_Halted ctx p h q :
  loadCode host ctx p = Halted h q ->
  h = OsExit 1
  \/ exists err,
       h = Return err /\ q = p
       /\ nonempty (cli.CodeFileFlag ctx) = false
       /\ nonempty (cli.CodeFlag ctx) = false
       /\ nonempty (cli.First ctx) = true
       /\ (os_ReadFile host (cli.First ctx) = inl err
           \/ exists src,
                os_ReadFile host (cli.First ctx) = inr src
                /\ compiler_Compile host (cli.First ctx) src false = inl err).
Proof.
  unfold loadCode.
  destruct (nonempty (cli.CodeFileFlag ctx)) eqn:Ef;
    [|destruct (nonempty (cli.CodeFlag ctx)) eqn:Ec]; cbn [orb].
  - match goal with
    | |- ?m p = _ -> _ => assert (Hab : abrupt m)
    end.
    { unfold readHexcode. repeat abrupt_step. }
    intros E. left. eapply Hab, E.
  - match goal with
    | |- ?m p = _ -> _ => assert (Hab : abrupt m)
    end.
    { unfold readHexcode. repeat abrupt_step. }
    intros E. left. eapply Hab, E.
  - rewrite nonempty_length. destruct (nonempty (cli.First ctx)) eqn:Ea; [|discriminate].
    destruct (os_ReadFile host (cli.First ctx)) as [err|src] eqn:Er.
    + intros [= <- <-]. right. exists err. eauto 10.
    + destruct (compiler_Compile host _ src false) as [err|bin] eqn:Eb; [|discriminate].
      intros [= <- <-]. right. exists err. eauto 10.
Qed.

End Abrupt.

Lemma machines_chain host e k p :
  machines (invoke host e) k p = chain (engine host e) k (machine p).
Proof.
  revert p. induction k as [|k IH]; intros p; [reflexivity|].
  cbn [machines chain]. now rewrite IH, invoke_machine.
Qed.

(** The process that the timed execution leaves, and its trace. *)
Lemma timedExec_trace host ctx r p' res q1 :
  timedExec host (cli.BenchFlag ctx) (invoke host (entry ctx r))
    (dispatched ctx r p') = Val res q1 ->
  trace q1
  = trace p'
    ++ map (Invoke (entry ctx r))
         (chain (engine host (entry ctx r)) (repetitions host ctx)
                (machine (dispatched ctx r p'))).
Proof.
  intros E.
  destruct (timedExec_after host (cli.BenchFlag ctx) (invoke host (entry ctx r))
              (dispatched ctx r p')) as [res' T].
  rewrite T in E. injection E as _ <-. fold (repetitions host ctx).
  now rewrite after_invoke_trace, machines_chain, dispatched_trace.
Qed.

(** A run that returns has gone through its configuration and its timed
    execution, and the heap profile, if asked for, could be written. *)
Lemma runCmd_Val_inv host ctx p q :
  runCmd host ctx p = Val tt q ->
  exists r p' output gas stats err q1,
    configure host ctx p = Val r p'
    /\ timedExec host (cli.BenchFlag ctx) (invoke host (entry ctx r))
         (dispatched ctx r p') = Val (output, gas, stats, err) q1
    /\ heapFailure host ctx = None
    /\ q = logs (reportEvents host ctx r output gas stats err (machine q1))
             (afterDump host ctx q1).
Proof.
  intros E. destruct (configure host ctx p) as [r p'|h p'] eqn:Hcfg.
  2:{ rewrite (runCmd_not_configured _ _ _ _ _ Hcfg) in E. discriminate. }
  rewrite (runCmd_configured _ _ _ _ _ Hcfg) in E.
  destruct (timedExec_after host (cli.BenchFlag ctx) (invoke host (entry ctx r))
              (dispatched ctx r p')) as [[[[output gas] stats] err] T].
  rewrite (execute_logs _ _ _ _ _ _ _ _ _ T) in E.
  destruct (heapFailure host ctx) as [msg|] eqn:Hh; [discriminate|].
  injection E as <-. exists r, p', output, gas, stats, err. eauto 10.
Qed.

(** The whole trace of a run that returns. *)
Lemma runCmd_Val_trace host ctx p r p' output gas stats err q1 q
    (Hcfg : configure host ctx p = Val r p')
    (Hexec : timedExec host (cli.BenchFlag ctx) (invoke host (entry ctx r))
               (dispatched ctx r p') = Val (output, gas, stats, err) q1)
    (Hrun : runCmd host ctx p = Val tt q) :
  trace q
  = trace p
    ++ startEvents ctx
    ++ map (Invoke (entry ctx r))
         (chain (engine host (entry ctx r)) (repetitions host ctx)
                (machine (dispatched ctx r p')))
    ++ reportEvents host ctx r output gas stats err (machine q1).
Proof.
  rewrite (runCmd_configured _ _ _ _ _ Hcfg) in Hrun.
  rewrite (execute_logs _ _ _ _ _ _ _ _ _ Hexec) in Hrun.
  destruct (heapFailure host ctx); [discriminate|]. injection Hrun as <-.
  cbn [logs trace afterDump]. rewrite (timedExec_trace _ _ _ _ _ _ Hexec).
  destruct (configure_trace _ _ _ _ _ Hcfg) as [-> _].
  now rewrite <- !app_assoc.
Qed.

(** How a run that does not return has ended. *)
Lemma runCmd_Halted_inv host ctx p h q :
  runCmd host ctx p = Halted h q ->
  configure host ctx p = Halted h q
  \/ exists r p' output gas stats err q1 msg,
       configure host ctx p = Val r p'
       /\ timedExec host (cli.BenchFlag ctx) (invoke host (entry ctx r))
            (dispatched ctx r p') = Val (output, gas, stats, err) q1
       /\ heapFailure host ctx = Some msg
       /\ h = OsExit 1
       /\ q = logs (dumpEvents host ctx (machine q1) ++ [Stdout msg])
                (afterDump host ctx q1).
Proof.
  intros E. destruct (configure host ctx p) as [r p'|h' p'] eqn:Hcfg.
  2:{ rewrite (runCmd_not_configured _ _ _ _ _ Hcfg) in E.
      left. now injection E as -> ->. }
  right. rewrite (runCmd_configured _ _ _ _ _ Hcfg) in E.
  destruct (timedExec_after host (cli.BenchFlag ctx) (invoke host (entry ctx r))
              (dispatched ctx r p')) as [[[[output gas] stats] err] T].
  rewrite (execute_logs _ _ _ _ _ _ _ _ _ T) in E.
  destruct (heapFailure host ctx) as [msg|] eqn:Hh; [|discriminate].
  injection E as <- <-. exists r, p', output, gas, stats, err. eauto 10.
Qed.

Lemma configure_Halted host ctx p h q :
  configure host ctx p = Halted h q ->
  h = OsExit 1
  \/ exists err,
       h = Return err /\ trace q = trace p
       /\ nonempty (cli.CodeFileFlag ctx) = false
       /\ nonempty (cli.CodeFlag ctx) = false
       /\ nonempty (cli.First ctx) = true
       /\ (os_ReadFile host (cli.First ctx) = inl err
           \/ exists src,
                os_ReadFile host (cli.First ctx) = inr src
                /\ compiler_Compile host (cli.First ctx) src false = inl err).
Proof.
  unfold configure, mbind, M_bind.
  destruct (openState host ctx p) as [[g cc] p1|h1 q1] eqn:Ho.
  2:{ intros [= <- _]. left. eapply abrupt_openState, Ho. }
  change (modify_statedb (state.CreateAccount (sender ctx)) p1)
    with (Val tt (created (sender ctx) p1)).
  cbv beta iota.
  destruct (loadCode host ctx _) as [c p2|h2 q2] eqn:Hc.
  2:{ intros [= <- <-]. apply loadCode_Halted in Hc as [->|(err & -> & -> & H)].
      - now left.
      - right. exists err. split; [reflexivity|]. split; [|exact H].
        simpl. eapply openState_trace, Ho. }
  destruct (startCPUProfile host ctx p2) as [prof p3|h3 q3] eqn:Hp.
  2:{ intros [= <- _]. left. eapply abrupt_startCPUProfile, Hp. }
  destruct (loadInput host ctx p3) as [i p4|h4 q4] eqn:Hi.
  2:{ intros [= <- _]. left. eapply abrupt_loadInput, Hi. }
  discriminate.
Qed.

Section Filters.

Context (sel : Event -> bool).

Lemma filter_Invoke e ms :
  (forall c m, sel (Invoke c m) = false) ->
  List.filter sel (map (Invoke e) ms) = [].
Proof. intros H. induction ms as [|m ms IH]; simpl; [reflexivity | now rewrite H]. Qed.

Lemma filter_Stdout l :
  (forall s, sel (Stdout s) = false) -> List.filter sel (map Stdout l) = [].
Proof. intros H. induction l as [|s l IH]; simpl; [reflexivity | now rewrite H]. Qed.

Lemma filter_startEvents ctx :
  (forall path, sel (StartCPUProfile path) = false) ->
  List.filter sel (startEvents ctx) = [].
Proof. intros H. unfold startEvents. destruct (nonempty _); simpl; now rewrite ?H. Qed.

Lemma filter_dumpEvents host ctx m :
  (forall s, sel (Stdout s) = false) -> List.filter sel (dumpEvents host ctx m) = [].
Proof. intros H. unfold dumpEvents. destruct (cli.DumpFlag ctx); simpl; now rewrite ?H. Qed.

Lemma filter_heapEvents ctx :
  (forall path, sel (WriteHeapProfile path) = false) ->
  List.filter sel (heapEvents ctx) = [].
Proof. intros H. unfold heapEvents. destruct (nonempty _); simpl; now rewrite ?H. Qed.

Lemma filter_debugEvents ctx :
  (forall s, sel (Stderr s) = false) ->
  (forall l, sel (WriteTrace l) = false) ->
  sel WriteLogs = false ->
  List.filter sel (debugEvents ctx) = [].
Proof.
  intros H1 H2 H3. unfold debugEvents.
  destruct (cli.DebugFlag ctx), (cli.MachineFlag ctx); simpl; now rewrite ?H1, ?H2, ?H3.
Qed.

Lemma filter_statsEvents ctx g1 g2 st :
  (forall g s, sel (WriteStats g s) = false) ->
  List.filter sel (statsEvents ctx g1 g2 st) = [].
Proof. intros H. unfold statsEvents. destruct (_ || _); simpl; now rewrite ?H. Qed.

Lemma filter_resultEvents ctx output err :
  (forall s, sel (Stdout s) = false) ->
  List.filter sel (resultEvents ctx output err) = [].
Proof.
  intros H. unfold resultEvents. destruct (_ || _); [reflexivity|].
  now apply filter_Stdout.
Qed.

End Filters.

(** X1. A run ends in one of three ways: it returns nil, it exits with
    status 1, or it returns an error. It returns an error only when
    neither code flag is given and the positional source could not be read
    or compiled; the error is that of the read or of the compiler, and the
    run has printed nothing. *)
Theorem runCmd_returns_error_only_for_source host ctx p h q
    (Hrun : runCmd host ctx p = Halted h q) :
  h = OsExit 1
  \/ exists err,
       h = Return err /\ trace q = trace p
       /\ nonempty (cli.CodeFileFlag ctx) = false
       /\ nonempty (cli.CodeFlag ctx) = false
       /\ nonempty (cli.First ctx) = true
       /\ (os_ReadFile host (cli.First ctx) = inl err
           \/ exists src,
                os_ReadFile host (cli.First ctx) = inr src
                /\ compiler_Compile host (cli.First ctx) src false = inl err).
Proof.
  apply runCmd_Halted_inv in Hrun as [Hc|(r & p' & o & g & s & e & q1 & msg & H)].
  - now apply configure_Halted in Hc.
  - left. tauto.
Qed.

Lemma runCmd_returns_error_only_for_source_witness :
  runCmd Sample.host Cases.absentSource Sample.start
  = Halted (Return "no such file or directory") Cases.absentSource_end
  /\ trace Cases.absentSource_end = [].
Proof.
  assert (Hrun : runCmd Sample.host Cases.absentSource Sample.start
                 = Halted (Return "no such file or directory") Cases.absentSource_end)
    by (vm_compute; reflexivity).
  split; [exact Hrun|].
  destruct (runCmd_returns_error_only_for_source _ _ _ _ _ Hrun)
    as [H|(err & _ & H & _)].
  - discriminate H.
  - exact H.
Defined.

(** X2. An error of the execution is not fatal: once the configuration is
    through, the run returns nil whatever the engine returns, an error
    included, provided no heap profile is asked for. Without the dump flag
    it leaves the machine as the timed execution left it; with the dump
    flag the store has been committed and its root computed, both with
    [deleteEmptyObjects], and nothing else of the machine has changed. *)
Theorem execution_error_is_not_fatal host ctx p r p'
    (Hcfg : configure host ctx p = Val r p')
    (Hmem : cli.MemProfileFlag ctx = ""%string) :
  exists output gas stats err q1 q,
    timedExec host (cli.BenchFlag ctx) (invoke host (entry ctx r))
      (dispatched ctx r p') = Val (output, gas, stats, err) q1
    /\ runCmd host ctx p = Val tt q
    /\ (cli.DumpFlag ctx = false -> machine q = machine q1)
    /\ (cli.DumpFlag ctx = true ->
        statedb (machine q)
        = statedb_IntermediateRoot host true
            (statedb_Commit host true (statedb (machine q1)))
        /\ Mallocs (machine q) = Mallocs (machine q1)
        /\ TotalAlloc (machine q) = TotalAlloc (machine q1)
        /\ now (machine q) = now (machine q1)).
Proof.
  destruct (timedExec_after host (cli.BenchFlag ctx) (invoke host (entry ctx r))
              (dispatched ctx r p')) as [[[[output gas] stats] err] T].
  rewrite (runCmd_configured _ _ _ _ _ Hcfg).
  rewrite (execute_logs _ _ _ _ _ _ _ _ _ T).
  unfold heapFailure. rewrite Hmem. cbn [nonempty]. cbv zeta iota.
  do 6 eexists. split; [exact T|]. split; [reflexivity|].
  cbn [logs afterDump machine]. unfold dumped. split.
  - now intros ->.
  - intros ->. repeat split.
Qed.

Lemma execution_error_is_not_fatal_witness :
  exists q, runCmd Sample.host Cases.noCode Sample.start = Val tt q.
Proof.
  assert (Hcfg : configure Sample.host Cases.noCode Sample.start
                 = Val Cases.noCode_resolved Cases.noCode_configured)
    by (vm_compute; reflexivity).
  destruct (execution_error_is_not_fatal _ _ _ _ _ Hcfg eq_refl)
    as (o & g & s & e & q1 & q & _ & H & _).
  exists q. exact H.
Defined.

(** X3. When the heap profile cannot be created or written, the run exits
    with status 1 after the execution: the engine has been invoked, the
    store has been committed and the state dump printed if the dump is
    asked for, the last line on the standard output is the profile error,
    and the result line is never printed. *)
Theorem heap_profile_failure_loses_result host ctx p r p'
    (Hcfg : configure host ctx p = Val r p')
    (Hflag : nonempty (cli.MemProfileFlag ctx) = true) :
  exists output gas stats err q1,
    timedExec host (cli.BenchFlag ctx) (invoke host (entry ctx r))
      (dispatched ctx r p') = Val (output, gas, stats, err) q1
    /\ let dump :=
         if cli.DumpFlag ctx
         then [String.append (statedb_Dump host (statedb (committed host (machine q1)))) nl]
         else [] in
       (forall e,
          os_Create host (cli.MemProfileFlag ctx) = Some e ->
          exists q,
            runCmd host ctx p = Halted (OsExit 1) q
            /\ machine q = dumped host ctx (machine q1)
            /\ stdout (trace q)
               = stdout (trace p) ++ dump
                 ++ [("could not create memory profile: " ++ " " ++ e ++ nl)%string])
       /\ (forall e,
          os_Create host (cli.MemProfileFlag ctx) = None ->
          pprof_WriteHeapProfile host (cli.MemProfileFlag ctx) = Some e ->
          exists q,
            runCmd host ctx p = Halted (OsExit 1) q
            /\ machine q = dumped host ctx (machine q1)
            /\ stdout (trace q)
               = stdout (trace p) ++ dump
                 ++ [("could not write memory profile: " ++ " " ++ e ++ nl)%string]).
Proof.
  destruct (timedExec_after host (cli.BenchFlag ctx) (invoke host (entry ctx r))
              (dispatched ctx r p')) as [[[[output gas] stats] err] T].
  do 5 eexists. split; [exact T|]. intros dump.
  assert (Hq1 : stdout (trace (after (invoke host (entry ctx r))
                  (if cli.BenchFlag ctx then S (list_sum (testing_rounds host)) else 1%nat)
                  (dispatched ctx r p'))) = stdout (trace p)).
  { rewrite stdout_after_invoke, dispatched_trace.
    apply (silent_configure _ _ _ _ _ Hcfg). }
  assert (Hd : forall m, stdout (dumpEvents host ctx m)
                = if cli.DumpFlag ctx
                  then [String.append (statedb_Dump host (statedb (committed host m))) nl]
                  else []).
  { intros m. unfold dumpEvents. now destruct (cli.DumpFlag ctx). }
  rewrite (runCmd_configured _ _ _ _ _ Hcfg).
  rewrite (execute_logs _ _ _ _ _ _ _ _ _ T).
  unfold heapFailure. rewrite Hflag. cbv zeta iota. split.
  - intros e ->. eexists. split; [reflexivity|]. split; [reflexivity|].
    cbn [logs trace afterDump]. rewrite !stdout_app, Hq1, Hd. reflexivity.
  - intros e -> ->. eexists. split; [reflexivity|]. split; [reflexivity|].
    cbn [logs trace afterDump]. rewrite !stdout_app, Hq1, Hd. reflexivity.
Qed.

Lemma heap_profile_failure_loses_result_witness :
  exists q,
    runCmd readOnlyHost Cases.dumpAndHeap Sample.start = Halted (OsExit 1) q
    /\ stdout (trace q)
       = [String.append "{}" nl;
          String.append "could not create memory profile:  permission denied" nl].
Proof.
  assert (Hcfg : configure readOnlyHost Cases.dumpAndHeap Sample.start
                 = Val Cases.dumpAndHeap_resolved Cases.dumpAndHeap_configured)
    by (vm_compute; reflexivity).
  destruct (heap_profile_failure_loses_result _ _ _ _ _ Hcfg eq_refl)
    as (o & g & s & e & q1 & _ & H & _).
  destruct (H "permission denied"%string eq_refl) as (q & Hq & _ & Hs).
  exists q. split; [exact Hq | exact Hs].
Defined.

Lemma filter_reportEvents_CPU host ctx r o g s e m :
  List.filter isCPUProfile (reportEvents host ctx r o g s e m)
  = if profiling r then [StopCPUProfile] else [].
Proof.
  unfold reportEvents. rewrite !List.filter_app.
  rewrite filter_dumpEvents, filter_heapEvents, filter_debugEvents,
    filter_statsEvents, filter_resultEvents by reflexivity.
  now destruct (profiling r).
Qed.

(** X4. The CPU profile is stopped by a deferred call, which [os.Exit]
    skips: a run that returns has started and stopped the profile exactly
    once, in this order, when the flag is given, and has done neither
    without the flag; a run that ends otherwise has never stopped it. *)
Theorem cpu_profile_is_stopped_only_on_return host ctx p :
  match runCmd host ctx p with
  | Val _ q =>
    List.filter isCPUProfile (trace q)
    = List.filter isCPUProfile (trace p)
      ++ (if nonempty (cli.CPUProfileFlag ctx)
          then [StartCPUProfile (cli.CPUProfileFlag ctx); StopCPUProfile]
          else [])
  | Halted _ q => List.filter isStop (trace q) = List.filter isStop (trace p)
  end.
Proof.
  destruct (runCmd host ctx p) as [[] q|h q] eqn:E.
  - pose proof (runCmd_Val_inv _ _ _ _ E) as (r & p' & o & g & s & e & q1 & Hc & Ht & _ & _).
    rewrite (runCmd_Val_trace _ _ _ _ _ _ _ _ _ _ _ Hc Ht E).
    rewrite !List.filter_app, filter_Invoke, filter_reportEvents_CPU by reflexivity.
    destruct (configure_trace _ _ _ _ _ Hc) as [_ ->].
    unfold startEvents. now destruct (nonempty _).
  - apply runCmd_Halted_inv in E
      as [Hc|(r & p' & o & g & s & e & q1 & msg & Hc & Ht & _ & _ & ->)].
    + pose proof (keeps_configure isStop ltac:(reflexivity) ltac:(reflexivity)
                    ltac:(reflexivity) host ctx p) as K.
      now rewrite Hc in K.
    + cbn [logs trace afterDump]. rewrite (timedExec_trace _ _ _ _ _ _ Ht).
      destruct (configure_trace _ _ _ _ _ Hc) as [-> _].
      rewrite !List.filter_app, filter_Invoke, filter_startEvents, filter_dumpEvents
        by reflexivity.
      simpl. now rewrite !app_nil_r.
Qed.

(** X5. When the genesis file cannot be opened or decoded the run is over
    before anything else happens: one line on the diagnostic stream, exit
    status 1, and the process otherwise as it was: no state is opened, no
    account created, nothing printed, no invocation. *)
Theorem genesis_failure_is_fatal host ctx p
    (Hflag : nonempty (cli.GenesisFlag ctx) = true) :
  (forall err,
     os_Open host (cli.GenesisFlag ctx) = inl err ->
     runCmd host ctx p
     = Halted (OsExit 1)
         (logs [Stderr ("Fatal: " ++ ("Failed to read genesis file: " ++ err) ++ nl)] p))
  /\ (forall file err,
     os_Open host (cli.GenesisFlag ctx) = inr file ->
     json_Decode host file = inl err ->
     runCmd host ctx p
     = Halted (OsExit 1)
         (logs [Stderr ("Fatal: " ++ ("invalid genesis file: " ++ err) ++ nl)] p)).
Proof.
  assert (Hlen : (String.length (cli.GenesisFlag ctx) =? 0)%nat = false).
  { destruct (cli.GenesisFlag ctx); [discriminate | reflexivity]. }
  split.
  - intros err Ho. apply runCmd_not_configured.
    unfold configure, openState. rewrite Hflag.
    apply bind_Halted, bind_Halted. unfold readGenesis. rewrite Hlen, Ho. reflexivity.
  - intros file err Ho Hd. apply runCmd_not_configured.
    unfold configure, openState. rewrite Hflag.
    apply bind_Halted, bind_Halted. unfold readGenesis. rewrite Hlen, Ho, Hd. reflexivity.
Qed.

Lemma genesis_failure_is_fatal_witness :
  runCmd Sample.host
    (Sample.context false false false false "absent.json" "" "6001" "" []) Sample.start
  = Halted (OsExit 1)
      (logs [Stderr ("Fatal: Failed to read genesis file: no such file or directory" ++ nl)]
         Sample.start).
Proof.
  exact (proj1 (genesis_failure_is_fatal Sample.host
           (Sample.context false false false false "absent.json" "" "6001" "" [])
           Sample.start eq_refl) "no such file or directory"%string eq_refl).
Defined.

(** X6. A run that gets through its configuration invokes the selected
    entry point, always with the same arguments, exactly once outside
    benchmark mode and once plus the sum of the further rounds in
    benchmark mode. The first invocation starts on the machine that the
    dispatch left and every later one on the machine that the one before
    it left: nothing is reset between the iterations. *)
Theorem invocations_thread_the_machine host ctx p r p'
    (Hcfg : configure host ctx p = Val r p') :
  let e := entry ctx r in
  let k := if cli.BenchFlag ctx then S (list_sum (testing_rounds host)) else 1%nat in
  invocations (trace (final (runCmd host ctx p)))
  = invocations (trace p)
    ++ map (pair e) (chain (engine host e) k (machine (dispatched ctx r p')))
  /\ (cli.BenchFlag ctx = false ->
      invocations (trace (final (runCmd host ctx p)))
      = invocations (trace p) ++ [(e, machine (dispatched ctx r p'))]).
Proof.
  intros e k.
  assert (H : invocations (trace (final (runCmd host ctx p)))
              = invocations (trace p)
                ++ map (pair e) (chain (engine host e) k (machine (dispatched ctx r p')))).
  { rewrite (runCmd_invocations _ _ _ _ _ Hcfg). now rewrite machines_chain. }
  split; [exact H|]. intros Hb. rewrite H. unfold k. now rewrite Hb.
Qed.

Lemma invocations_thread_the_machine_witness :
  List.length (invocations (trace (final (runCmd Sample.host Cases.bench Sample.start))))
  = 6%nat.
Proof.
  assert (Hcfg : configure Sample.host Cases.bench Sample.start
                 = Val Cases.bench_resolved Cases.bench_configured)
    by (vm_compute; reflexivity).
  rewrite (proj1 (invocations_thread_the_machine _ _ _ _ _ Hcfg)).
  reflexivity.
Defined.

Lemma filter_reportEvents_debug host ctx r o g s e m :
  List.filter isDebugOutput (reportEvents host ctx r o g s e m) = debugEvents ctx.
Proof.
  unfold reportEvents. rewrite !List.filter_app.
  rewrite filter_dumpEvents, filter_heapEvents,
    filter_statsEvents, filter_resultEvents by reflexivity.
  assert (List.filter isDebugOutput (debugEvents ctx) = debugEvents ctx) as ->.
  { unfold debugEvents. now destruct (cli.DebugFlag ctx), (cli.MachineFlag ctx). }
  destruct (profiling r); simpl; now rewrite app_nil_r.
Qed.

(** X7. What a run that returns writes about the trace: without the
    debug flag, nothing; with the debug flag alone, the trace header and
    the trace of the structured logger, then the logs header and the logs;
    with the debug flag and the machine flag, the logs header and the logs
    only, since no structured logger was constructed. *)
Theorem debug_sections host ctx p q (Hrun : runCmd host ctx p = Val tt q) :
  let before := List.filter isDebugOutput (trace p) in
  let logs := [Stderr ("#### LOGS ####" ++ nl); WriteLogs] in
  (cli.DebugFlag ctx = false ->
     List.filter isDebugOutput (trace q) = before)
  /\ (cli.DebugFlag ctx = true -> cli.MachineFlag ctx = false ->
     List.filter isDebugOutput (trace q)
     = before
       ++ [Stderr ("#### TRACE ####" ++ nl);
           WriteTrace (logger.NewStructLogger (logconfig ctx))]
       ++ logs)
  /\ (cli.DebugFlag ctx = true -> cli.MachineFlag ctx = true ->
     List.filter isDebugOutput (trace q) = before ++ logs).
Proof.
  intros before logs.
  pose proof (runCmd_Val_inv _ _ _ _ Hrun) as (r & p' & o & g & s & e & q1 & Hc & Ht & _ & _).
  assert (H : List.filter isDebugOutput (trace q) = before ++ debugEvents ctx).
  { rewrite (runCmd_Val_trace _ _ _ _ _ _ _ _ _ _ _ Hc Ht Hrun).
    rewrite !List.filter_app, filter_Invoke, filter_startEvents,
      filter_reportEvents_debug by reflexivity.
    reflexivity. }
  rewrite H. unfold debugEvents. split; [|split].
  - intros ->. apply app_nil_r.
  - now intros -> ->.
  - now intros -> ->.
Qed.

Lemma debug_sections_witness :
  List.filter isDebugOutput (trace Cases.debugMachine_end)
  = [Stderr ("#### LOGS ####" ++ nl); WriteLogs].
Proof.
  assert (Hrun : runCmd Sample.host Cases.debugMachine Sample.start
                 = Val tt Cases.debugMachine_end) by (vm_compute; reflexivity).
  exact (proj2 (proj2 (debug_sections _ _ _ _ Hrun)) eq_refl eq_refl).
Defined.

Lemma filter_reportEvents_stats host ctx r o g s e m :
  List.filter isStats (reportEvents host ctx r o g s e m)
  = statsEvents ctx (initialGas ctx (genesisConfig r)) g s.
Proof.
  unfold reportEvents. rewrite !List.filter_app.
  rewrite filter_dumpEvents, filter_heapEvents, filter_debugEvents,
    filter_resultEvents by reflexivity.
  assert (forall a b c, List.filter isStats (statsEvents ctx a b c) = statsEvents ctx a b c)
    as ->.
  { intros. unfold statsEvents. now destruct (_ || _). }
  destruct (profiling r); simpl; now rewrite app_nil_r.
Qed.

(** X8. The statistics are written exactly once when the run returns in
    benchmark mode or with the statdump flag, and not at all otherwise.
    The gas used is the gas limit handed to the engine minus the gas that
    the timed execution left, in 64-bit unsigned arithmetic: the plain
    difference when the gas left does not exceed the limit, and the
    difference plus 2^64 when it does. *)
Theorem stats_report_gas_used host ctx p r p' output gas stats err q1 q
    (Hcfg : configure host ctx p = Val r p')
    (Hexec : timedExec host (cli.BenchFlag ctx) (invoke host (entry ctx r))
               (dispatched ctx r p') = Val (output, gas, stats, err) q1)
    (Hrun : runCmd host ctx p = Val tt q) :
  let limit :=
    runtime.GasLimit (runtimeConfig ctx (genesisConfig r) (chainConfig r)) in
  List.filter isStats (trace q)
  = List.filter isStats (trace p)
    ++ (if cli.BenchFlag ctx || cli.StatDumpFlag ctx
        then [WriteStats (uint64 (limit - gas)) stats]
        else [])
  /\ (0 <= gas <= limit -> limit < 2 ^ 64 -> uint64 (limit - gas) = limit - gas)
  /\ (0 <= limit < gas -> gas < 2 ^ 64 -> uint64 (limit - gas) = limit - gas + 2 ^ 64).
Proof.
  intros limit. split; [|split].
  - rewrite (runCmd_Val_trace _ _ _ _ _ _ _ _ _ _ _ Hcfg Hexec Hrun).
    rewrite !List.filter_app, filter_Invoke, filter_startEvents,
      filter_reportEvents_stats by reflexivity.
    reflexivity.
  - intros H1 H2. unfold uint64. apply Z.mod_small. lia.
  - intros H1 H2. unfold uint64.
    rewrite <- (Z.mod_add _ 1) by lia. apply Z.mod_small. lia.
Qed.

Lemma stats_report_gas_used_witness :
  List.filter isStats (trace Cases.statdump_end)
  = [WriteStats 2 Cases.statdump_stats].
Proof.
  assert (Hcfg : configure Sample.host Cases.statdump Sample.start
                 = Val Cases.statdump_resolved Cases.statdump_configured)
    by (vm_compute; reflexivity).
  assert (Hexec : timedExec Sample.host (cli.BenchFlag Cases.statdump)
                    (invoke Sample.host (entry Cases.statdump Cases.statdump_resolved))
                    (dispatched Cases.statdump Cases.statdump_resolved
                       Cases.statdump_configured)
                  = Val ([], 9999999998, Cases.statdump_stats, None) Cases.statdump_timed)
    by (vm_compute; reflexivity).
  assert (Hrun : runCmd Sample.host Cases.statdump Sample.start
                 = Val tt Cases.statdump_end) by (vm_compute; reflexivity).
  exact (proj1 (stats_report_gas_used _ _ _ _ _ _ _ _ _ _ _ Hcfg Hexec Hrun)).
Defined.

Lemma configure_chainConfig host ctx p r p' :
  configure host ctx p = Val r p' ->
  chainConfig r = core.Config (genesisConfig r)
  /\ (cli.GenesisFlag ctx = ""%string -> genesisConfig r = core.zero).
Proof.
  intros E. apply configure_Val in E as (p1 & Ho & _).
  unfold openState, mbind, M_bind in Ho. destruct (nonempty _) eqn:En.
  - destruct (readGenesis host _ p) as [gen p0|]; [|discriminate].
    injection Ho as -> -> _. split; [reflexivity|].
    intros H. rewrite H in En. discriminate.
  - injection Ho as <- <- _. split; reflexivity.
Qed.

(** X9. Every invocation is given a chain configuration: the one of the
    genesis when the genesis has one, and the default one otherwise.
    Without a genesis file the block environment of the configuration is
    the zero one: number 0, time 0, no difficulty, the zero coinbase. *)
Theorem chain_configuration_is_never_missing host ctx p r p'
    (Hcfg : configure host ctx p = Val r p') :
  let cfg := runtimeConfig ctx (genesisConfig r) (chainConfig r) in
  runtime.ChainConfig cfg
  = Some (match core.Config (genesisConfig r) with
          | Some c => c
          | None => params.AllEthashProtocolChanges
          end)
  /\ (cli.GenesisFlag ctx = ""%string ->
      runtime.ChainConfig cfg = Some params.AllEthashProtocolChanges
      /\ runtime.BlockNumber cfg = 0
      /\ runtime.Time cfg = 0
      /\ runtime.Difficulty cfg = None
      /\ runtime.Coinbase cfg = repeat x00 20)
  /\ (forall e m,
      In (e, m) (invocations (trace (final (runCmd host ctx p)))) ->
      In (e, m) (invocations (trace p)) \/ config_of e = cfg).
Proof.
  intros cfg. destruct (configure_chainConfig _ _ _ _ _ Hcfg) as [Hcc Hz].
  split; [|split].
  - unfold cfg, runtimeConfig. cbn [runtime.ChainConfig]. rewrite Hcc.
    now destruct (core.Config (genesisConfig r)).
  - intros Hg. specialize (Hz Hg). unfold cfg, runtimeConfig.
    cbn [runtime.ChainConfig runtime.BlockNumber runtime.Time runtime.Difficulty
         runtime.Coinbase].
    rewrite Hcc, Hz. repeat split.
  - intros e m Hin. rewrite (runCmd_invocations _ _ _ _ _ Hcfg) in Hin.
    apply in_app_or in Hin as [Hin|Hin]; [now left | right].
    apply in_map_iff in Hin as (m' & [= <- _] & _).
    unfold entry. now destruct (cli.CreateFlag ctx).
Qed.

Lemma chain_configuration_is_never_missing_witness :
  runtime.ChainConfig
    (runtimeConfig Cases.noCode (genesisConfig Cases.noCode_resolved)
       (chainConfig Cases.noCode_resolved))
  = Some params.AllEthashProtocolChanges.
Proof.
  assert (Hcfg : configure Sample.host Cases.noCode Sample.start
                 = Val Cases.noCode_resolved Cases.noCode_configured)
    by (vm_compute; reflexivity).
  exact (proj1 (proj1 (proj2 (chain_configuration_is_never_missing _ _ _ _ _ Hcfg))
                  eq_refl)).
Defined.

(** X10. The debug switch of the interpreter and the tracer go together:
    the switch is on exactly when a tracer is registered. The structured
    debug logger is missing exactly with the machine flag, and it is the
    registered tracer exactly with the debug flag and without the machine
    flag. *)
Theorem debug_switch_follows_tracer (ctx : cli.Context) g cc :
  let evm := runtime.EVMConfig (runtimeConfig ctx g cc) in
  (vm.Debug evm = true <-> vm.Tracer evm <> None)
  /\ (snd (selectTracer ctx) = None <-> cli.MachineFlag ctx = true)
  /\ (vm.Tracer evm = option_map vm.StructLogger (snd (selectTracer ctx))
      <-> (cli.MachineFlag ctx = false /\ cli.DebugFlag ctx = true)).
Proof.
  unfold runtimeConfig, selectTracer. cbn [runtime.EVMConfig vm.Debug vm.Tracer].
  destruct (cli.MachineFlag ctx), (cli.DebugFlag ctx); cbn;
    repeat split; intros; try discriminate; try congruence; try tauto;
    try (destruct H; discriminate).
Qed.

(** X11. The input file comes before the inline input: when the input
    file flag is given, the call data are read from that file, whatever
    the input flag says; the input flag is used when it is not given, and
    without either the call data are empty. *)
Theorem input_resolution_precedence host ctx p :
  (forall h,
     nonempty (cli.InputFileFlag ctx) = true ->
     os_ReadFile host (cli.InputFileFlag ctx) = inr h ->
     Z.even (len (bytes.TrimSpace h)) = true ->
     loadInput host ctx p = Val (decoded h) p)
  /\ (cli.InputFileFlag ctx = ""%string ->
     Z.even (len (bytes.TrimSpace (bytes_of (cli.InputFlag ctx)))) = true ->
     loadInput host ctx p = Val (decoded (bytes_of (cli.InputFlag ctx))) p)
  /\ (cli.InputFileFlag ctx = ""%string ->
     cli.InputFlag ctx = ""%string ->
     loadInput host ctx p = Val [] p).
Proof.
  split; [|split].
  - intros h Hf Hr He. apply loadInput_even; [|exact He].
    unfold readHexInput. now rewrite Hf, Hr.
  - intros Hf He. apply loadInput_even; [|exact He].
    unfold readHexInput. now rewrite Hf.
  - intros Hf Hi.
    change (@nil byte) with (decoded (bytes_of ""%string)). rewrite <- Hi.
    apply loadInput_even; [unfold readHexInput; now rewrite Hf | now rewrite Hi].
Qed.

Lemma input_resolution_precedence_witness :
  loadInput Sample.host Cases.inputFile Sample.start = Val [x60; x01] Sample.start.
Proof.
  refine (proj1 (input_resolution_precedence Sample.host Cases.inputFile Sample.start)
            (bytes_of " 6001" ++ [x0a]) eq_refl eq_refl eq_refl).
Defined.

(** X12. A source of code or of input that cannot be read ends the run:
    the stage prints which source failed and why and exits with status 1,
    and the run ends without returning and without an invocation. *)
Theorem unreadable_source_exits host ctx p err :
  (cli.CodeFileFlag ctx = "-"%string ->
   os_Stdin host = inl err ->
   loadCode host ctx p
   = Halted (OsExit 1)
       (logs [Stdout ("Could not load code from stdin: " ++ err ++ nl)] p)
   /\ exists q,
        runCmd host ctx p = Halted (OsExit 1) q
        /\ invocations (trace q) = invocations (trace p))
  /\ (nonempty (cli.CodeFileFlag ctx) = true ->
   cli.CodeFileFlag ctx <> "-"%string ->
   os_ReadFile host (cli.CodeFileFlag ctx) = inl err ->
   loadCode host ctx p
   = Halted (OsExit 1)
       (logs [Stdout ("Could not load code from file: " ++ err ++ nl)] p)
   /\ exists q,
        runCmd host ctx p = Halted (OsExit 1) q
        /\ invocations (trace q) = invocations (trace p))
  /\ (nonempty (cli.InputFileFlag ctx) = true ->
   os_ReadFile host (cli.InputFileFlag ctx) = inl err ->
   loadInput host ctx p
   = Halted (OsExit 1)
       (logs [Stdout ("could not load input from file: " ++ err ++ nl)] p)
   /\ exists h q,
        runCmd host ctx p = Halted h q
        /\ invocations (trace q) = invocations (trace p)).
Proof.
  assert (Hcode : forall msg,
            nonempty (cli.CodeFileFlag ctx) = true ->
            (forall s, loadCode host ctx s = Halted (OsExit 1) (logs [Stdout msg] s)) ->
            exists q, runCmd host ctx p = Halted (OsExit 1) q
                      /\ invocations (trace q) = invocations (trace p)).
  { intros msg Hf Hl.
    destruct (halted_configuration_is_quiet host ctx p) as (h & q & Hr & Hq).
    { apply configure_halts_at_code. intros s. rewrite Hl. eauto. }
    exists q. split; [|exact Hq].
    pose proof Hr as Hr'.
    apply runCmd_Halted_inv in Hr' as [Hc|(r & p' & _ & _ & _ & _ & _ & _ & _ & _ & _ & -> & _)];
      [|exact Hr].
    apply configure_Halted in Hc as [->|(e & _ & _ & Hn & _)]; [exact Hr|].
    rewrite Hf in Hn. discriminate. }
  split; [|split].
  - intros Hd Hs.
    assert (Hl : forall s, loadCode host ctx s
              = Halted (OsExit 1)
                  (logs [Stdout ("Could not load code from stdin: " ++ err ++ nl)] s)).
    { intros s. unfold loadCode, readHexcode. now rewrite Hd, Hs. }
    split; [apply Hl | eapply Hcode; [now rewrite Hd | exact Hl]].
  - intros Hf Hd Hr.
    assert (Hl : forall s, loadCode host ctx s
              = Halted (OsExit 1)
                  (logs [Stdout ("Could not load code from file: " ++ err ++ nl)] s)).
    { intros s. unfold loadCode, readHexcode. apply String.eqb_neq in Hd.
      now rewrite Hf, Hd, Hr. }
    split; [apply Hl | eapply Hcode; [exact Hf | exact Hl]].
  - intros Hf Hr.
    assert (Hl : forall s, loadInput host ctx s
              = Halted (OsExit 1)
                  (logs [Stdout ("could not load input from file: " ++ err ++ nl)] s)).
    { intros s. unfold loadInput, readHexInput. now rewrite Hf, Hr. }
    split; [apply Hl|].
    apply halted_configuration_is_quiet, configure_halts_at_input.
    intros s. rewrite Hl. eauto.
Qed.

Lemma unreadable_source_exits_witness :
  loadCode Sample.host Cases.absentCodeFile Sample.start
  = Halted (OsExit 1)
      (logs [Stdout ("Could not load code from file: no such file or directory" ++ nl)]
         Sample.start).
Proof.
  refine (proj1 (proj1 (proj2 (unreadable_source_exits Sample.host Cases.absentCodeFile
            Sample.start "no such file or directory")) eq_refl _ eq_refl)).
  discriminate.
Defined.

(** X13. Code in the state is overridden by resolved code only: in call
    mode with no resolved code, the code that the genesis installs
    at the receiver is the code of the receiver when the first invocation
    starts, provided the receiver is not the sender, whose account is
    created anew. *)
Theorem genesis_code_stays_without_code_flags host ctx p r p'
    (Hcfg : configure host ctx p = Val r p')
    (Hcall : cli.CreateFlag ctx = false)
    (Hcode : code r = [])
    (Hne : sender ctx <> receiver ctx) :
  exists m ms,
    invocations (trace (final (runCmd host ctx p)))
    = invocations (trace p)
      ++ map (pair (Call (receiver ctx) (input r)
                      (runtimeConfig ctx (genesisConfig r) (chainConfig r))))
           (m :: ms)
    /\ state.GetCode (receiver ctx) (statedb m)
       = state.GetCode (receiver ctx) (core.Alloc (genesisConfig r)).
Proof.
  rewrite (runCmd_invocations _ _ _ _ _ Hcfg).
  destruct (repetitions_pos host ctx) as [k ->].
  unfold entry, dispatched. rewrite Hcall, Hcode. cbn [machines].
  change (0 <? len []) with false. cbv iota.
  eexists. eexists. split; [reflexivity|].
  rewrite (configure_statedb _ _ _ _ _ Hcfg).
  now apply GetCode_CreateAccount_other.
Qed.

Lemma genesis_code_stays_without_code_flags_witness :
  exists m ms,
    invocations (trace (final (runCmd seededHost Cases.seeded Sample.start)))
    = map (pair (Call (receiver Cases.seeded) (input Cases.seeded_resolved)
                   (runtimeConfig Cases.seeded (genesisConfig Cases.seeded_resolved)
                      (chainConfig Cases.seeded_resolved))))
        (m :: ms)
    /\ state.GetCode (receiver Cases.seeded) (statedb m) = [x60; x02].
Proof.
  assert (Hcfg : configure seededHost Cases.seeded Sample.start
                 = Val Cases.seeded_resolved Cases.seeded_configured)
    by (vm_compute; reflexivity).
  destruct (genesis_code_stays_without_code_flags _ _ _ _ _ Hcfg eq_refl eq_refl)
    as (m & ms & H1 & H2).
  { vm_compute. discriminate. }
  exists m, ms. split; [exact H1|]. rewrite H2. vm_compute. reflexivity.
Defined.

Lemma int64_small z : 0 <= z < 2 ^ 63 -> int64 (uint64 z) = z.
Proof.
  intros H. unfold int64, uint64. rewrite (Z.mod_small z) by lia.
  rewrite Z.mod_small by lia. lia.
Qed.

Lemma int64_large z : 2 ^ 63 <= z < 2 ^ 64 -> int64 (uint64 z) = z - 2 ^ 64.
Proof.
  intros H. unfold int64, uint64. rewrite (Z.mod_small z) by lia.
  replace (z + 2 ^ 63) with (z - 2 ^ 63 + 1 * 2 ^ 64) by lia.
  rewrite Z.mod_add by lia. rewrite Z.mod_small by lia. lia.
Qed.

(** X14. Outside benchmark mode the reported allocations are the
    difference of the allocation counter across the one run, cast from
    unsigned to signed 64 bits: the true count when it is below 2^63, and
    a negative number, the count minus 2^64, from there on. The same holds
    for the bytes allocated. *)
Theorem timedExec_allocation_deltas host (execFunc : Exec) p output gas stats err q
    (Hexec : timedExec host false execFunc p = Val (output, gas, stats, err) q) :
  let mallocs := Mallocs (machine q) - Mallocs (machine p) in
  let total := TotalAlloc (machine q) - TotalAlloc (machine p) in
  q = snd (execFunc p)
  /\ time stats = now (machine q) - now (machine p)
  /\ (0 <= mallocs < 2 ^ 63 -> allocs stats = mallocs)
  /\ (2 ^ 63 <= mallocs < 2 ^ 64 -> allocs stats = mallocs - 2 ^ 64)
  /\ (0 <= total < 2 ^ 63 -> bytesAllocated stats = total)
  /\ (2 ^ 63 <= total < 2 ^ 64 -> bytesAllocated stats = total - 2 ^ 64).
Proof.
  rewrite timedExec_once in Hexec. injection Hexec as _ _ <- _ <-.
  cbn [time allocs bytesAllocated]. repeat split.
  - apply int64_small.
  - apply int64_large.
  - apply int64_small.
  - apply int64_large.
Qed.

Lemma timedExec_allocation_deltas_witness :
  allocs Cases.statdump_stats = 3 /\ bytesAllocated Cases.statdump_stats = 64.
Proof.
  assert (Hexec : timedExec Sample.host false
                    (invoke Sample.host (entry Cases.statdump Cases.statdump_resolved))
                    (dispatched Cases.statdump Cases.statdump_resolved
                       Cases.statdump_configured)
                  = Val ([], 9999999998, Cases.statdump_stats, None) Cases.statdump_timed)
    by (vm_compute; reflexivity).
  destruct (timedExec_allocation_deltas _ _ _ _ _ _ _ _ Hexec)
    as (_ & _ & Ha & _ & Hb & _).
  split; [apply Ha | apply Hb]; vm_compute; split; congruence.
Defined.

Lemma lower_hex_is_text (c : byte) : isLowerHexDigit c = true -> isAsciiText c = true.
Proof. destruct c; vm_compute; congruence. Qed.

Lemma TrimLeftSpace_text fuel c rest :
  isAsciiText c = true ->
  bytes.TrimLeftSpace (S fuel) (c :: rest) = c :: rest.
Proof.
  unfold isAsciiText. intros H. apply andb_prop in H as [H1 H2].
  cbn [bytes.TrimLeftSpace]. rewrite H1.
  apply negb_true_iff in H2. now rewrite H2.
Qed.

Lemma nth_last (pre : list byte) d tail :
  nth (List.length pre) (pre ++ d :: tail) x00 = d.
Proof. induction pre; simpl; auto. Qed.

Lemma lastIndexNotSpace_text fuel pre d tail :
  isAsciiText d = true ->
  bytes.lastIndexNotSpace (S fuel) (pre ++ d :: tail) (S (List.length pre))
  = Some (List.length pre).
Proof.
  unfold isAsciiText. intros H. apply andb_prop in H as [H1 H2].
  apply negb_true_iff in H2.
  cbn [bytes.lastIndexNotSpace Nat.eqb].
  replace (S (List.length pre) - 1)%nat with (List.length pre) by lia.
  rewrite nth_last, H1, H2. f_equal. lia.
Qed.

Lemma firstn_pre (pre : list byte) d tail :
  firstn (List.length pre + 1) (pre ++ d :: tail) = pre ++ [d].
Proof. induction pre; simpl; [reflexivity | now f_equal]. Qed.

Lemma TrimRightSpace_text pre d :
  isAsciiText d = true -> bytes.TrimRightSpace (pre ++ [d]) = pre ++ [d].
Proof.
  intros H. unfold bytes.TrimRightSpace.
  rewrite length_app. cbn [List.length]. rewrite Nat.add_1_r.
  rewrite (lastIndexNotSpace_text _ pre d [] H), nth_last.
  unfold isAsciiText in H. apply andb_prop in H as [H1 _].
  apply Z.ltb_lt in H1. apply Z.leb_gt in H1. rewrite H1.
  apply firstn_pre.
Qed.

Lemma lastIndexNotSpace_newline k pre d :
  bytes.lastIndexNotSpace (S k) (pre ++ [d; x0a]) (S (S (List.length pre)))
  = bytes.lastIndexNotSpace k (pre ++ [d; x0a]) (S (List.length pre)).
Proof.
  cbn [bytes.lastIndexNotSpace Nat.eqb].
  replace (S (S (List.length pre)) - 1)%nat with (List.length (pre ++ [d]))
    by (rewrite length_app; simpl; lia).
  change (pre ++ [d; x0a]) with (pre ++ [d] ++ [x0a]). rewrite app_assoc.
  rewrite nth_last. change (byteZ x0a <? utf8.RuneSelf) with true.
  cbv iota. change (unicode.IsSpace (byteZ x0a)) with true. cbv iota.
  reflexivity.
Qed.

Lemma TrimRightSpace_newline pre d :
  isAsciiText d = true -> bytes.TrimRightSpace (pre ++ [d; x0a]) = pre ++ [d].
Proof.
  intros H. unfold bytes.TrimRightSpace.
  rewrite length_app. cbn [List.length].
  replace (List.length pre + 2)%nat with (S (S (List.length pre))) by lia.
  rewrite lastIndexNotSpace_newline, (lastIndexNotSpace_text _ pre d [x0a] H), nth_last.
  unfold isAsciiText in H. apply andb_prop in H as [H1 _].
  apply Z.ltb_lt in H1. apply Z.leb_gt in H1. rewrite H1.
  apply firstn_pre.
Qed.

Lemma Encode_last (b : list byte) :
  b <> [] ->
  exists pre d, hex.Encode b = pre ++ [d] /\ isLowerHexDigit d = true.
Proof.
  induction b as [|c rest IH]; [contradiction|]. intros _.
  destruct (Encode_byte c) as (_ & _ & _ & _ & Hlo).
  destruct rest as [|c' rest'].
  - exists [hex.digit (Z.shiftr (byteZ c) 4)], (hex.digit (Z.land (byteZ c) 15)).
    now split.
  - destruct IH as (pre & d & E & Hd); [discriminate|].
    exists (hex.digit (Z.shiftr (byteZ c) 4) :: hex.digit (Z.land (byteZ c) 15) :: pre), d.
    split; [|exact Hd]. change (hex.Encode (c :: c' :: rest'))
      with (hex.digit (Z.shiftr (byteZ c) 4) :: hex.digit (Z.land (byteZ c) 15)
              :: hex.Encode (c' :: rest')).
    now rewrite E.
Qed.

Lemma Encode_even (b : list byte) : Z.even (len (hex.Encode b)) = true.
Proof.
  induction b as [|c rest IH]; [reflexivity|].
  cbn [hex.Encode]. now apply even_prefixed.
Qed.

Lemma bytes_of_Sprintx c rest :
  bytes_of (fmt.Sprintx (c :: rest)) = x30 :: x78 :: hex.Encode (c :: rest).
Proof.
  unfold fmt.Sprintx.
  change ("0x" ++ string_of (hex.Encode (c :: rest)))%string
    with (string_of (x30 :: x78 :: hex.Encode (c :: rest))).
  apply string_of_bytes.
Qed.

Lemma bytes_of_append (a b : string) :
  bytes_of (a ++ b) = bytes_of a ++ bytes_of b.
Proof.
  unfold bytes_of, list_byte_of_string.
  induction a as [|ch a IH]; [reflexivity|]. simpl. now rewrite IH.
Qed.

(** The text of a printed output, with or without its line feed, is
    trimmed to the text. *)
Lemma TrimSpace_Sprintx (b : list byte) :
  bytes.TrimSpace (bytes_of (fmt.Sprintx b)) = bytes_of (fmt.Sprintx b)
  /\ bytes.TrimSpace (bytes_of (fmt.Sprintx b ++ nl)) = bytes_of (fmt.Sprintx b).
Proof.
  destruct b as [|c rest]; [split; reflexivity|].
  rewrite bytes_of_append, bytes_of_Sprintx.
  destruct (Encode_last (c :: rest)) as (pre & d & E & Hd); [discriminate|].
  apply lower_hex_is_text in Hd. rewrite E.
  unfold bytes.TrimSpace. split.
  - cbn [List.length]. rewrite (TrimLeftSpace_text _ x30 _ eq_refl).
    apply (TrimRightSpace_text (x30 :: x78 :: pre) d Hd).
  - change (bytes_of nl) with [x0a].
    assert (Hs : (x30 :: x78 :: pre ++ [d]) ++ [x0a] = x30 :: x78 :: pre ++ [d; x0a])
      by (simpl; now rewrite <- app_assoc).
    rewrite Hs. cbn [List.length]. rewrite (TrimLeftSpace_text _ x30 _ eq_refl).
    apply (TrimRightSpace_newline (x30 :: x78 :: pre) d Hd).
Qed.

Lemma FromHex_Sprintx (b : list byte) : common.FromHex (fmt.Sprintx b) = b.
Proof.
  destruct b as [|c rest]; [reflexivity|].
  unfold fmt.Sprintx.
  change ("0x" ++ string_of (hex.Encode (c :: rest)))%string
    with (string_of (x30 :: x78 :: hex.Encode (c :: rest))).
  rewrite FromHex_prefixed; [apply Decode_Encode | reflexivity | apply Encode_even].
Qed.

Lemma string_of_bytes_of (s : string) : string_of (bytes_of s) = s.
Proof. apply string_of_list_byte_of_string. Qed.

Lemma decoded_Sprintx (b : list byte) :
  decoded (bytes_of (fmt.Sprintx b)) = b
  /\ decoded (bytes_of (fmt.Sprintx b ++ nl)) = b
  /\ Z.even (len (bytes.TrimSpace (bytes_of (fmt.Sprintx b)))) = true
  /\ Z.even (len (bytes.TrimSpace (bytes_of (fmt.Sprintx b ++ nl)))) = true.
Proof.
  destruct (TrimSpace_Sprintx b) as [T1 T2]. unfold decoded. rewrite T1, T2.
  rewrite string_of_bytes_of, FromHex_Sprintx.
  assert (He : Z.even (len (bytes_of (fmt.Sprintx b))) = true).
  { destruct b as [|c rest]; [reflexivity|].
    rewrite bytes_of_Sprintx. apply even_prefixed, Encode_even. }
  auto.
Qed.

(** X15. What a run prints as its result can be given back as input: for
    every output, the printed hexadecimal text, as the inline input or as
    the content of the input file with its line feed, resolves to the
    bytes of the output. *)
Theorem printed_output_reads_back_as_input host ctx p (output : list byte) :
  (cli.InputFileFlag ctx = ""%string ->
   cli.InputFlag ctx = fmt.Sprintx output ->
   loadInput host ctx p = Val output p)
  /\ (nonempty (cli.InputFileFlag ctx) = true ->
   os_ReadFile host (cli.InputFileFlag ctx) = inr (bytes_of (fmt.Sprintx output ++ nl)) ->
   loadInput host ctx p = Val output p)
  /\ common.FromHex (fmt.Sprintx output) = output.
Proof.
  destruct (decoded_Sprintx output) as (D1 & D2 & E1 & E2).
  split; [|split].
  - intros Hf Hi.
    pose proof (loadInput_even host ctx (bytes_of (fmt.Sprintx output)) p) as H.
    rewrite D1 in H. apply H; [|exact E1].
    unfold readHexInput. now rewrite Hf, Hi.
  - intros Hf Hr.
    pose proof (loadInput_even host ctx (bytes_of (fmt.Sprintx output ++ nl)) p) as H.
    rewrite D2 in H. apply H; [|exact E2].
    unfold readHexInput. now rewrite Hf, Hr.
  - apply FromHex_Sprintx.
Qed.

Lemma printed_output_reads_back_as_input_witness :
  loadInput Sample.host
    (Sample.context false false false false "" "" "" "0x60ff" []) Sample.start
  = Val [x60; xff] Sample.start.
Proof.
  exact (proj1 (printed_output_reads_back_as_input Sample.host
           (Sample.context false false false false "" "" "" "0x60ff" []) Sample.start
           [x60; xff]) eq_refl eq_refl).
Defined.

(** X16. In create mode nothing is installed at the receiver, whatever
    the resolved code: the first invocation starts on the machine exactly
    as the configuration left it, whose store holds the accounts of the
    genesis and the created account of the sender. *)
Theorem create_mode_installs_nothing host ctx p r p'
    (Hcfg : configure host ctx p = Val r p')
    (Hcreate : cli.CreateFlag ctx = true) :
  exists ms,
    invocations (trace (final (runCmd host ctx p)))
    = invocations (trace p)
      ++ map (pair (Create (code r ++ input r)
                      (runtimeConfig ctx (genesisConfig r) (chainConfig r))))
           (machine p' :: ms)
    /\ statedb (machine p')
       = state.CreateAccount (sender ctx) (core.Alloc (genesisConfig r)).
Proof.
  rewrite (runCmd_invocations _ _ _ _ _ Hcfg).
  destruct (repetitions_pos host ctx) as [k ->].
  unfold entry, dispatched. rewrite Hcreate. cbn [machines].
  eexists. split; [reflexivity|]. apply (configure_statedb _ _ _ _ _ Hcfg).
Qed.

Lemma create_mode_installs_nothing_witness :
  exists ms,
    invocations (trace (final (runCmd Sample.host Cases.create Sample.start)))
    = map (pair (Create (code Cases.create_resolved ++ input Cases.create_resolved)
                   (runtimeConfig Cases.create (genesisConfig Cases.create_resolved)
                      (chainConfig Cases.create_resolved))))
        (machine Cases.create_configured :: ms).
Proof.
  assert (Hcfg : configure Sample.host Cases.create Sample.start
                 = Val Cases.create_resolved Cases.create_configured)
    by (vm_compute; reflexivity).
  destruct (create_mode_installs_nothing _ _ _ _ _ Hcfg eq_refl) as (ms & H & _).
  exists ms. exact H.
Defined.

Lemma startCPUProfile_logs host ctx p :
  startCPUProfile host ctx p
  = match cpuFailure host ctx with
    | Some msg => Halted (OsExit 1) (logs [Stdout msg] p)
    | None => Val (nonempty (cli.CPUProfileFlag ctx)) (logs (startEvents ctx) p)
    end.
Proof.
  unfold startCPUProfile, cpuFailure, startEvents. destruct (nonempty _).
  - destruct (os_Create host _); [reflexivity|].
    destruct (pprof_StartCPUProfile host _); reflexivity.
  - now rewrite logs_nil.
Qed.

(** X17. When the file of the CPU profile cannot be created, or the
    profile cannot be started, the stage prints the error and exits with
    status 1. The run then ends without returning: the engine is not
    invoked and the profile is neither started nor stopped. *)
Theorem cpu_profile_failure_exits host ctx p err
    (Hflag : nonempty (cli.CPUProfileFlag ctx) = true)
    (Hfail : os_Create host (cli.CPUProfileFlag ctx) = Some err
             \/ (os_Create host (cli.CPUProfileFlag ctx) = None
                 /\ pprof_StartCPUProfile host (cli.CPUProfileFlag ctx) = Some err)) :
  let msg :=
    match os_Create host (cli.CPUProfileFlag ctx) with
    | Some _ => ("could not create CPU profile: " ++ " " ++ err ++ nl)%string
    | None => ("could not start CPU profile: " ++ " " ++ err ++ nl)%string
    end in
  (forall s, startCPUProfile host ctx s = Halted (OsExit 1) (logs [Stdout msg] s))
  /\ exists h q,
       runCmd host ctx p = Halted h q
       /\ invocations (trace q) = invocations (trace p)
       /\ List.filter isCPUProfile (trace q) = List.filter isCPUProfile (trace p).
Proof.
  intros msg.
  assert (Hs : forall s, startCPUProfile host ctx s
                         = Halted (OsExit 1) (logs [Stdout msg] s)).
  { intros s. rewrite startCPUProfile_logs. unfold cpuFailure, msg. rewrite Hflag.
    cbv zeta. destruct Hfail as [-> | [-> ->]]; reflexivity. }
  split; [exact Hs|].
  assert (Hc : exists h q, configure host ctx p = Halted h q
               /\ List.filter isCPUProfile (trace q) = List.filter isCPUProfile (trace p)).
  { unfold configure, mbind, M_bind.
    pose proof (keeps_openState isCPUProfile ltac:(reflexivity) host ctx p) as K1.
    destruct (openState host ctx p) as [[g cc] p1|h q]; [|eauto].
    change (modify_statedb (state.CreateAccount (sender ctx)) p1)
      with (Val tt (created (sender ctx) p1)).
    cbv beta iota.
    pose proof (keeps_loadCode isCPUProfile ltac:(reflexivity) host ctx
                  (created (sender ctx) p1)) as K2.
    destruct (loadCode host ctx _) as [c p2|h q].
    - rewrite Hs. do 2 eexists. split; [reflexivity|].
      cbn [logs trace final] in *. rewrite List.filter_app. cbn [List.filter isCPUProfile].
      rewrite app_nil_r. now rewrite K2.
    - do 2 eexists. split; [reflexivity|]. cbn [final] in *. now rewrite K2. }
  destruct Hc as (h & q & Hc & Hk). exists h, q. split; [|split; [|exact Hk]].
  - now apply runCmd_not_configured.
  - pose proof (quiet_configure host ctx p) as Q. now rewrite Hc in Q.
Qed.

Lemma cpu_profile_failure_exits_witness :
  exists h q,
    runCmd readOnlyHost Cases.cpuProfile Sample.start = Halted h q
    /\ invocations (trace q) = [].
Proof.
  destruct (cpu_profile_failure_exits readOnlyHost Cases.cpuProfile Sample.start
              "permission denied"%string eq_refl (or_introl eq_refl))
    as (_ & h & q & H1 & H2 & _).
  exists h, q. split; [exact H1 | exact H2].
Defined.

(** X18. A run that returns has gone through the configuration and the
    timed execution, and has performed its effects in the order of the
    source: the start of the CPU profile, the invocations of the engine,
    the state dump, the heap profile, the trace and the logs, the
    statistics, the result lines and, last, the deferred stop of the CPU
    profile. The dump shows the store that the timed execution left once
    it is committed and its root computed, which is the store the run
    leaves with the dump flag; the statistics and the result lines show
    the values that the timed execution returned. *)
Theorem returning_run_in_source_order host ctx p q
    (Hrun : runCmd host ctx p = Val tt q) :
  exists r p' output gas stats err q1,
    configure host ctx p = Val r p'
    /\ timedExec host (cli.BenchFlag ctx) (invoke host (entry ctx r))
         (dispatched ctx r p') = Val (output, gas, stats, err) q1
    /\ machine q = dumped host ctx (machine q1)
    /\ trace q
       = trace p
         ++ startEvents ctx
         ++ map (Invoke (entry ctx r))
              (chain (engine host (entry ctx r)) (repetitions host ctx)
                     (machine (dispatched ctx r p')))
         ++ dumpEvents host ctx (machine q1)
         ++ heapEvents ctx
         ++ debugEvents ctx
         ++ statsEvents ctx (initialGas ctx (genesisConfig r)) gas stats
         ++ resultEvents ctx output err
         ++ (if nonempty (cli.CPUProfileFlag ctx) then [StopCPUProfile] else []).
Proof.
  pose proof (runCmd_Val_inv _ _ _ _ Hrun)
    as (r & p' & o & g & s & e & q1 & Hc & Ht & _ & Hq).
  exists r, p', o, g, s, e, q1. split; [exact Hc|]. split; [exact Ht|].
  split; [now rewrite Hq|].
  rewrite (runCmd_Val_trace _ _ _ _ _ _ _ _ _ _ _ Hc Ht Hrun).
  unfold reportEvents. destruct (configure_trace _ _ _ _ _ Hc) as [_ ->].
  reflexivity.
Qed.

Lemma returning_run_in_source_order_witness :
  exists evs, trace Cases.statdump_end = evs ++ [StopCPUProfile].
Proof.
  assert (Hrun : runCmd Sample.host Cases.statdump Sample.start
                 = Val tt Cases.statdump_end) by (vm_compute; reflexivity).
  destruct (returning_run_in_source_order _ _ _ _ Hrun)
    as (r & p' & o & g & s & e & q1 & _ & _ & _ & H).
  rewrite H. change (nonempty (cli.CPUProfileFlag Cases.statdump)) with true.
  cbv iota. rewrite !app_assoc. eexists. reflexivity.
Defined.
